(** * Deployment orchestration and verification engine

    Shallow embedding of the Python sources
      - [tools/testing_tools.py]    (8-point verification suite),
      - [tools/compose_tools.py]    (compose generation, dependency inference,
                                     validation, deployment, teardown, backup),
      - [tools/docker_tools.py]     (health report),
      - [tools/monitoring_tools.py] (port conflicts),
      - [temporal/activities.py]    (the activities over these tools),
      - [temporal/workflows.py]     (deploy, rollback and health-monitor runs),
    followed by the properties of the specification that concern them and
    by further properties of the code.

    Text is modelled as the UTF-8 byte string of the Python [str]; the
    helpers of module [Py] act on it the way the Python methods act on the
    decoded text.  Case conversion is done on the ASCII letters only and
    leaves every other byte as it is. *)

From Stdlib Require Import String Ascii List ZArith Lia Bool DecimalString.
From stdpp Require Import base gmap strings list.

(** ** Python string methods *)

Module Py.

Definition is_upper (c : ascii) : bool :=
  let n := nat_of_ascii c in (65 <=? n)%nat && (n <=? 90)%nat.

Definition is_lower (c : ascii) : bool :=
  let n := nat_of_ascii c in (97 <=? n)%nat && (n <=? 122)%nat.

Definition lower_char (c : ascii) : ascii :=
  if is_upper c then ascii_of_nat (nat_of_ascii c + 32) else c.

Definition upper_char (c : ascii) : ascii :=
  if is_lower c then ascii_of_nat (nat_of_ascii c - 32) else c.

(** [s.lower()] and [s.upper()]. *)
Fixpoint lower (s : string) : string :=
  match s with
  | EmptyString => EmptyString
  | String c s' => String (lower_char c) (lower s')
  end.

Fixpoint upper (s : string) : string :=
  match s with
  | EmptyString => EmptyString
  | String c s' => String (upper_char c) (upper s')
  end.

(** [s.startswith(p)]. *)
Definition startswith (s p : string) : bool := String.prefix p s.

(** [sub in s] for two strings. *)
Fixpoint contains (sub s : string) : bool :=
  String.prefix sub s ||
  match s with
  | EmptyString => false
  | String _ s' => contains sub s'
  end.

(** [x in l] for a string and a list of strings. *)
Definition mem (x : string) (l : list string) : bool :=
  existsb (String.eqb x) l.

(** Whitespace as [str.strip()] and [str.split()] see it (ASCII range). *)
Definition is_space (c : ascii) : bool :=
  let n := nat_of_ascii c in
  ((9 <=? n)%nat && (n <=? 13)%nat) || ((28 <=? n)%nat && (n <=? 32)%nat).

Fixpoint lstrip (s : string) : string :=
  match s with
  | EmptyString => EmptyString
  | String c s' => if is_space c then lstrip s' else s
  end.

Fixpoint rstrip (s : string) : string :=
  match s with
  | EmptyString => EmptyString
  | String c s' =>
      let r := rstrip s' in
      if is_space c && String.eqb r EmptyString then EmptyString else String c r
  end.

Definition strip (s : string) : string := rstrip (lstrip s).

(** [s.split(sep)] for a non-empty separator: [skip] counts the bytes of a
    separator occurrence that are still to be passed over. *)
Fixpoint split_go (sep : string) (skip : nat) (cur s : string) : list string :=
  match s with
  | EmptyString => [cur]
  | String c s' =>
      match skip with
      | S k => split_go sep k cur s'
      | O =>
          if String.prefix sep s
          then cur :: split_go sep (String.length sep - 1) EmptyString s'
          else split_go sep 0 (cur +:+ String c EmptyString) s'
      end
  end.

Definition split (sep s : string) : list string := split_go sep 0 EmptyString s.

(** [s.split()] : runs of whitespace separate the words, no empty word. *)
Fixpoint words_go (cur s : string) : list string :=
  match s with
  | EmptyString => if String.eqb cur EmptyString then [] else [cur]
  | String c s' =>
      if is_space c
      then (if String.eqb cur EmptyString then words_go EmptyString s'
            else cur :: words_go EmptyString s')
      else words_go (cur +:+ String c EmptyString) s'
  end.

Definition words (s : string) : list string := words_go EmptyString s.

(** [sep.join(l)]. *)
Fixpoint join (sep : string) (l : list string) : string :=
  match l with
  | [] => EmptyString
  | x :: l' =>
      match l' with
      | [] => x
      | _ :: _ => x +:+ sep +:+ join sep l'
      end
  end.

(** [s.replace(old, new)] for a non-empty [old]. *)
Fixpoint replace_go (old new : string) (skip : nat) (s : string) : string :=
  match s with
  | EmptyString => EmptyString
  | String c s' =>
      match skip with
      | S k => replace_go old new k s'
      | O =>
          if String.prefix old s
          then new +:+ replace_go old new (String.length old - 1) s'
          else String c (replace_go old new 0 s')
      end
  end.

Definition replace (old new s : string) : string := replace_go old new 0 s.

(** A byte [10xxxxxx] continues the code point begun before it. *)
Definition is_continuation (c : ascii) : bool :=
  let n := nat_of_ascii c in (128 <=? n)%nat && (n <=? 191)%nat.

(** [s[:n]] : the first [n] code points of the text. *)
Fixpoint take (n : nat) (s : string) : string :=
  match s with
  | EmptyString => EmptyString
  | String c s' =>
      if is_continuation c then String c (take n s')
      else match n with
           | O => EmptyString
           | S n' => String c (take n' s')
           end
  end.

(** [l[-1]] of a list of strings that is never empty ([split] results). *)
Definition last (l : list string) : string := List.last l EmptyString.

(** [str(n)] for a natural number and for an integer. *)
Definition str_of_nat (n : nat) : string := NilEmpty.string_of_uint (Nat.to_uint n).

Definition str_of_Z (z : Z) : string :=
  match z with
  | Z0 => "0"
  | Zpos p => str_of_nat (Pos.to_nat p)
  | Zneg p => "-" +:+ str_of_nat (Pos.to_nat p)
  end.

(** Truth value of a string and of a list. *)
Definition truthy (s : string) : bool := negb (String.eqb s EmptyString).

Definition nonempty {A : Type} (l : list A) : bool :=
  match l with [] => false | _ :: _ => true end.

End Py.

(** ** A state monad over the outside world

    The container runtime, the clock and the sockets are reached through
    an abstract world that every effectful call threads along. *)

Definition M (World A : Type) : Type := World -> A * World.

Definition ret {World A : Type} (a : A) : M World A := fun w => (a, w).

Definition bind {World A B : Type} (m : M World A) (k : A -> M World B) : M World B :=
  fun w => let (a, w') := m w in k a w'.

Notation "'let*' x ':=' m 'in' k" := (bind m (fun x => k))
  (at level 10, x pattern, k at level 200).

(** [for x in l: s = body(x, s)]. *)
Fixpoint for_each {World A S : Type} (l : list A) (s : S) (body : A -> S -> M World S)
  : M World S :=
  match l with
  | [] => ret s
  | x :: l' => let* s' := body x s in for_each l' s' body
  end.

(** ** The verification engine: [tools/testing_tools.py] *)

(** What [subprocess.run] does: it raises, or it completes with a return
    code and two captured streams. *)
Inductive Completed : Type :=
| Raises (message : string)
| CompletedProcess (returncode : Z) (out err : string).

(** The dictionary [_run_cmd] returns. *)
Record CmdResult : Type := mkCmd {
  success : bool;
  stdout : string;
  stderr : string
}.

(** What [json.loads(line)] followed by
    [data.get(Name, data.get(Service, empty))] does on one line of
    [docker compose ps --format json]: the line is not JSON; it is JSON
    but not an object (no [get] method, [AttributeError]); or it is an
    object and the lookup yields a value, which is a text or any other
    JSON value (a number, [null], a list, an object). *)
Inductive PsLine : Type :=
| JSONDecodeError
| NotAnObject
| NameOf (name : string)
| NameNotText.

(** The exceptions the tools leave uncaught.  In the engine:
    [AttributeError] from the lookup on a line that is no object, and
    [TypeError] from [str.join] over a listing that holds a value that is
    no text.  In the compiler: [TypeError] and [AttributeError] from a
    specification of another shape than a list of service objects, and
    what [open] raises, [OSError] or [ValueError]. *)
Inductive PyExn : Type :=
| AttributeError
| TypeError
| OSError
| ValueError.

(** Effects of the engine, over an abstract world. *)
Record Runtime (World : Type) : Type := mkRuntime {
  (** [subprocess.run(cmd, capture_output, text, timeout, shell)] *)
  subprocess_run : list string -> Z -> World -> Completed * World;
  (** [sock.connect_ex((127.0.0.1, port))]; [None] when the socket raises *)
  connect_ex : Z -> World -> option Z * World;
  (** [int(time.time())] *)
  time_time : World -> Z * World;
  (** [time.sleep(seconds)] *)
  time_sleep : Z -> World -> unit * World;
  (** [datetime.now(ist).strftime(fmt)] *)
  now_strftime : string -> World -> string * World
}.

Arguments subprocess_run {World}.
Arguments connect_ex {World}.
Arguments time_time {World}.
Arguments time_sleep {World}.
Arguments now_strftime {World}.

(** Pure library functions the engine calls: number parsing and printing,
    and the JSON reader.  Python floats stay abstract. *)
Record PyLib : Type := mkPyLib {
  pyfloat : Type;
  (** [float(s)], [None] on [ValueError] *)
  float_of_str : string -> option pyfloat;
  (** [x > n] for a float and an integer literal *)
  float_gt : pyfloat -> Z -> bool;
  (** [str(x)] as an f-string prints it *)
  float_str : pyfloat -> string;
  (** [int(s)], [None] on [ValueError] *)
  int_of_str : string -> option Z;
  json_ps_line : string -> PsLine
}.

(** Tags of a report line. *)
Inductive Tag : Type := TEST | PASS | WARN | FAIL.

(** One line of the report: [f"[{timestamp}] [{tag}] {body}"]. *)
Record Line : Type := mkLine { tag : Tag; body : string }.

Definition tag_text (t : Tag) : string :=
  match t with
  | TEST => "TEST"
  | PASS => "PASS"
  | WARN => "WARN"
  | FAIL => "FAIL"
  end.

Definition render (timestamp : string) (l : Line) : string :=
  "[" +:+ timestamp +:+ "] [" +:+ tag_text (tag l) +:+ "] " +:+ body l.

(** The local variables [report_lines], [pass_count], [warn_count] and
    [fail_count] of [run_post_deploy_tests]. *)
Record TestState : Type := mkState {
  report_lines : list Line;
  pass_count : nat;
  warn_count : nat;
  fail_count : nat
}.

Definition append_line (l : Line) (st : TestState) : TestState :=
  mkState (report_lines st ++ [l]) (pass_count st) (warn_count st) (fail_count st).

Definition incr_pass (st : TestState) : TestState :=
  mkState (report_lines st) (pass_count st + 1) (warn_count st) (fail_count st).

Definition incr_warn (st : TestState) : TestState :=
  mkState (report_lines st) (pass_count st) (warn_count st + 1) (fail_count st).

Definition incr_fail (st : TestState) : TestState :=
  mkState (report_lines st) (pass_count st) (warn_count st) (fail_count st + 1).

Section Engine.

Context {World : Type} (rt : Runtime World) (lib : PyLib).

(** [_run_cmd(cmd, timeout)]: never raises. *)
Definition _run_cmd (cmd : list string) (timeout : Z) : M World CmdResult :=
  fun w =>
    match subprocess_run rt cmd timeout w with
    | (CompletedProcess returncode out err, w') =>
        (mkCmd (returncode =? 0)%Z (Py.strip out) (Py.strip err), w')
    | (Raises e, w') => (mkCmd false "" e, w')
    end.

(** The loop of [_get_compose_services] over the lines of the listing.
    An item of [services] is [Some] text, or [None] for a value that is
    no text. *)
Fixpoint collect_services (lines : list string) (services : list (option string))
  : PyExn + list (option string) :=
  match lines with
  | [] => inr services
  | line :: rest =>
      if Py.truthy (Py.strip line)
      then match json_ps_line lib line with
           | JSONDecodeError => collect_services rest services
           | NotAnObject => inl AttributeError
           | NameOf name => collect_services rest (services ++ [Some name])
           | NameNotText => collect_services rest (services ++ [None])
           end
      else collect_services rest services
  end.

Definition _get_compose_services (file_path : string)
  : M World (PyExn + list (option string)) :=
  let* result := _run_cmd ["docker"; "compose"; "-f"; file_path; "ps"; "--format"; "json"] 60 in
  if negb (success result) then ret (inr [])
  else ret (collect_services (Py.split (String "010" "") (Py.strip (stdout result))) []).

(** [[c.strip() for c in l if c.strip()]] *)
Definition stripped_names (l : list string) : list string :=
  List.filter (fun c => Py.truthy c) (map Py.strip l).

Definition name_lines (out : string) : list string :=
  stripped_names (if Py.truthy out then Py.split (String "010" "") out else []).

(** *** Test 1: containers running *)

Definition verdict_running (running_containers not_running : list string)
    (st : TestState) : TestState :=
  if negb (Py.nonempty not_running) && Py.nonempty running_containers then
    incr_pass (append_line (mkLine PASS
      ("Container Running Test   : ALL " +:+ Py.str_of_nat (length running_containers)
         +:+ " running")) st)
  else if Py.nonempty not_running then
    incr_fail (append_line (mkLine FAIL
      ("Container Running Test   : " +:+ Py.join ", " not_running +:+ " not running")) st)
  else
    incr_fail (append_line (mkLine FAIL
      "Container Running Test   : No containers found") st).

Definition test_running (file_path : string) (st : TestState)
  : M World (list string * TestState) :=
  let* running_result :=
    _run_cmd ["docker"; "compose"; "-f"; file_path; "ps"; "--status"; "running";
              "--format"; "{{.Name}}"] 60 in
  let running_containers := name_lines (stdout running_result) in
  let* all_result :=
    _run_cmd ["docker"; "compose"; "-f"; file_path; "ps"; "--format"; "{{.Name}}"] 60 in
  let all_containers := name_lines (stdout all_result) in
  let not_running :=
    List.filter (fun c => negb (Py.mem c running_containers)) all_containers in
  ret (running_containers, verdict_running running_containers not_running st).

(** *** Test 2: health, polled up to 12 times per container *)

Definition health_format : string :=
  "{{if .State.Health}}{{.State.Health.Status}}{{else}}no healthcheck{{end}}".

(** The inner [for _ in range(12)] loop; the result is the flag [healthy]
    and the list [health_results]. *)
Fixpoint poll_health (rounds : nat) (container : string) (health_results : list string)
  : M World (bool * list string) :=
  match rounds with
  | O => ret (false, health_results)
  | S rounds' =>
      let* result := _run_cmd ["docker"; "inspect"; "--format"; health_format; container] 60 in
      let status := Py.strip (stdout result) in
      if String.eqb status "healthy" then
        ret (true, health_results ++ [container +:+ "=healthy"])
      else if String.eqb status "no healthcheck" then
        ret (false, health_results ++ [container +:+ "=no healthcheck"])
      else if String.eqb status "unhealthy" then
        ret (false, health_results ++ [container +:+ "=unhealthy"])
      else
        let* _ := time_sleep rt 5 in
        poll_health rounds' container health_results
  end.

Definition health_of (container : string) (health_results : list string)
  : M World (list string) :=
  let* polled := poll_health 12 container health_results in
  let healthy := fst polled in
  let health_results := snd polled in
  if negb healthy && negb (Py.contains (container +:+ "=") (Py.join " " health_results))
  then ret (health_results ++ [container +:+ "=timeout"])
  else ret health_results.

Definition verdict_health (health_results : list string) (st : TestState) : TestState :=
  let unhealthy :=
    List.filter (fun h => Py.contains "unhealthy" h || Py.contains "timeout" h)
           health_results in
  let no_hc := List.filter (fun h => Py.contains "no healthcheck" h) health_results in
  if Py.nonempty unhealthy then
    incr_fail (append_line (mkLine FAIL
      ("Health Check Test        : " +:+ Py.join ", " health_results)) st)
  else if Py.nonempty no_hc then
    incr_warn (append_line (mkLine WARN
      ("Health Check Test        : " +:+ Py.join ", " health_results)) st)
  else
    incr_pass (append_line (mkLine PASS
      ("Health Check Test        : " +:+ Py.join ", " health_results)) st).

Definition test_health (running_containers : list string) (st : TestState)
  : M World TestState :=
  let* health_results := for_each running_containers [] health_of in
  ret (verdict_health health_results st).

(** *** Test 3: published ports accept a TCP connection *)

Definition probe_port (port_line : string) (port_results : list string)
  : M World (list string) :=
  if Py.contains "->" port_line then
    let host_part := Py.strip (Py.last (Py.split "->" port_line)) in
    if Py.contains ":" host_part then
      let host_port := Py.last (Py.split ":" host_part) in
      match int_of_str lib host_port with
      | None => ret (port_results ++ [host_port +:+ "=error"])
      | Some port =>
          let* conn_result := connect_ex rt port in
          match conn_result with
          | None => ret (port_results ++ [host_port +:+ "=error"])
          | Some code =>
              if (code =? 0)%Z then ret (port_results ++ [host_port +:+ "=open"])
              else ret (port_results ++ [host_port +:+ "=closed"])
          end
      end
    else ret port_results
  else ret port_results.

Definition ports_of (container : string) (port_results : list string)
  : M World (list string) :=
  let* result := _run_cmd ["docker"; "port"; container] 60 in
  if success result && Py.truthy (stdout result)
  then for_each (Py.split (String "010" "") (stdout result)) port_results probe_port
  else ret port_results.

Definition verdict_ports (port_results : list string) (st : TestState) : TestState :=
  let port_failures :=
    List.filter (fun p => Py.contains "closed" p || Py.contains "error" p)
           port_results in
  if Py.nonempty port_results && negb (Py.nonempty port_failures) then
    incr_pass (append_line (mkLine PASS
      ("Port Binding Test        : " +:+ Py.join ", " port_results)) st)
  else if Py.nonempty port_failures then
    incr_fail (append_line (mkLine FAIL
      ("Port Binding Test        : " +:+ Py.join ", " port_results)) st)
  else
    incr_warn (append_line (mkLine WARN
      "Port Binding Test        : No port mappings found") st).

Definition test_ports (running_containers : list string) (st : TestState)
  : M World TestState :=
  let* port_results := for_each running_containers [] ports_of in
  ret (verdict_ports port_results st).

(** *** Test 4: the first container reaches every other one *)

Definition ping (first_container target : string) : M World CmdResult :=
  _run_cmd ["docker"; "exec"; first_container; "ping"; "-c"; "1"; "-W"; "2"; target] 60.

Definition reach (first_container other : string) (connectivity_results : list string)
  : M World (list string) :=
  let* result := ping first_container other in
  if success result then ret (connectivity_results ++ [other +:+ "=reachable"])
  else
    let short_name :=
      if Py.contains "-" other then Py.last (Py.split "-" other) else other in
    let* result2 := ping first_container short_name in
    if success result2 then ret (connectivity_results ++ [short_name +:+ "=reachable"])
    else ret (connectivity_results ++ [other +:+ "=unreachable"]).

Definition verdict_connectivity (connectivity_results : list string) (st : TestState)
  : TestState :=
  let unreachable :=
    List.filter (fun c => Py.contains "unreachable" c) connectivity_results in
  if Py.nonempty unreachable then
    incr_warn (append_line (mkLine WARN
      ("Connectivity Test        : " +:+ Py.join ", " connectivity_results)) st)
  else
    incr_pass (append_line (mkLine PASS
      ("Connectivity Test        : " +:+ Py.join ", " connectivity_results)) st).

Definition verdict_single_service (st : TestState) : TestState :=
  incr_pass (append_line (mkLine PASS
    "Connectivity Test        : Single service — skipped") st).

Definition test_connectivity (running_containers : list string) (st : TestState)
  : M World TestState :=
  match running_containers with
  | first_container :: ((_ :: _) as others) =>
      let* connectivity_results := for_each others [] (reach first_container) in
      ret (verdict_connectivity connectivity_results st)
  | _ => ret (verdict_single_service st)
  end.

(** *** Test 5: the first two mounts of every container are writable *)

Definition probe_mount (container mount : string) (volume_results : list string)
  : M World (list string) :=
  let* now := time_time rt in
  let test_file := mount +:+ "/.devops_test_" +:+ Py.str_of_Z now in
  let* write_result :=
    _run_cmd ["docker"; "exec"; container; "sh"; "-c";
              "echo test > " +:+ test_file +:+ " && cat " +:+ test_file
                +:+ " && rm " +:+ test_file] 60 in
  if success write_result then ret (volume_results ++ [mount +:+ "=writable"])
  else ret (volume_results ++ [mount +:+ "=not_writable"]).

Definition mounts_of (container : string) (volume_results : list string)
  : M World (list string) :=
  let* result :=
    _run_cmd ["docker"; "inspect"; "--format"; "{{range .Mounts}}{{.Destination}} {{end}}";
              container] 60 in
  if success result && Py.truthy (Py.strip (stdout result)) then
    let mounts := Py.words (Py.strip (stdout result)) in
    for_each (firstn 2 mounts) volume_results (probe_mount container)
  else ret volume_results.

Definition verdict_volumes (volume_results : list string) (st : TestState) : TestState :=
  if Py.nonempty volume_results then
    let not_writable :=
      List.filter (fun v => Py.contains "not_writable" v) volume_results in
    if Py.nonempty not_writable then
      incr_warn (append_line (mkLine WARN
        ("Volume Mount Test        : " +:+ Py.join ", " volume_results)) st)
    else
      incr_pass (append_line (mkLine PASS
        ("Volume Mount Test        : " +:+ Py.join ", " volume_results)) st)
  else
    incr_pass (append_line (mkLine PASS
      "Volume Mount Test        : No volumes to test") st).

Definition test_volumes (running_containers : list string) (st : TestState)
  : M World TestState :=
  let* volume_results := for_each running_containers [] mounts_of in
  ret (verdict_volumes volume_results st).

(** *** Test 6: the environment of every container can be listed *)

Definition env_of (container : string) (env_results : list string)
  : M World (list string) :=
  let* result := _run_cmd ["docker"; "exec"; container; "env"] 60 in
  if success result then
    let env_count := length (Py.split (String "010" "") (stdout result)) in
    ret (env_results ++ [container +:+ "=" +:+ Py.str_of_nat env_count +:+ " vars"])
  else ret (env_results ++ [container +:+ "=cannot read env"]).

Definition verdict_env (env_results : list string) (st : TestState) : TestState :=
  let env_failures := List.filter (fun e => Py.contains "cannot" e) env_results in
  if Py.nonempty env_failures then
    incr_warn (append_line (mkLine WARN
      ("Environment Variable Test : " +:+ Py.join ", " env_results)) st)
  else
    incr_pass (append_line (mkLine PASS
      ("Environment Variable Test : " +:+ Py.join ", " env_results)) st).

Definition test_env (running_containers : list string) (st : TestState)
  : M World TestState :=
  let* env_results := for_each running_containers [] env_of in
  ret (verdict_env env_results st).

(** *** Test 7: no error keyword in the last 20 log lines *)

Definition error_keywords : list string :=
  ["panic"; "fatal"; "error"; "exception"; "refused"; "timeout"].

Definition logs_of (container : string) (log_issues : list string)
  : M World (list string) :=
  let* result := _run_cmd ["docker"; "logs"; "--tail"; "20"; container] 60 in
  let output := Py.lower (stdout result +:+ " " +:+ stderr result) in
  let found := List.filter (fun kw => Py.contains kw output) error_keywords in
  if Py.nonempty found
  then ret (log_issues ++ [container +:+ ": found [" +:+ Py.join ", " found +:+ "]"])
  else ret log_issues.

Definition verdict_logs (log_issues : list string) (st : TestState) : TestState :=
  if Py.nonempty log_issues then
    incr_warn (append_line (mkLine WARN
      ("Log Output Test          : " +:+ Py.join "; " log_issues)) st)
  else
    incr_pass (append_line (mkLine PASS
      "Log Output Test          : No error keywords in startup logs") st).

Definition test_logs (running_containers : list string) (st : TestState)
  : M World TestState :=
  let* log_issues := for_each running_containers [] logs_of in
  ret (verdict_logs log_issues st).

(** *** Test 8: CPU and memory below the baseline *)

Definition stats_format : string :=
  "{{.CPUPerc}}" +:+ String "009" "" +:+ "{{.MemPerc}}".

Definition stats_of (container : string) (resource_warnings : list string)
  : M World (list string) :=
  let* result :=
    _run_cmd ["docker"; "stats"; "--no-stream"; "--format"; stats_format; container] 60 in
  if success result && Py.truthy (stdout result) then
    match Py.split (String "009" "") (stdout result) with
    | part0 :: part1 :: _ =>
        match float_of_str lib (Py.replace "%" "" part0),
              float_of_str lib (Py.replace "%" "" part1) with
        | Some cpu, Some mem =>
            let resource_warnings :=
              if float_gt lib cpu 50
              then resource_warnings ++ [container +:+ ": CPU=" +:+ float_str lib cpu +:+ "%"]
              else resource_warnings in
            let resource_warnings :=
              if float_gt lib mem 70
              then resource_warnings ++ [container +:+ ": MEM=" +:+ float_str lib mem +:+ "%"]
              else resource_warnings in
            ret resource_warnings
        | _, _ => ret resource_warnings
        end
    | _ => ret resource_warnings
    end
  else ret resource_warnings.

Definition verdict_resources (resource_warnings : list string) (st : TestState)
  : TestState :=
  if Py.nonempty resource_warnings then
    incr_warn (append_line (mkLine WARN
      ("Resource Baseline Test   : " +:+ Py.join ", " resource_warnings)) st)
  else
    incr_pass (append_line (mkLine PASS
      "Resource Baseline Test   : All containers within normal limits") st).

Definition test_resources (running_containers : list string) (st : TestState)
  : M World TestState :=
  let* resource_warnings := for_each running_containers [] stats_of in
  ret (verdict_resources resource_warnings st).

(** *** Final verdict *)

Definition verdict_of (st : TestState) : string :=
  if (0 <? fail_count st)%nat then "FAILED — rollback recommended"
  else if (0 <? warn_count st)%nat then "ACCEPTED WITH WARNINGS"
  else "SUCCESSFUL".

Definition final_lines (st : TestState) : TestState :=
  let st := append_line (mkLine TEST "─────────────────────────────────────") st in
  let st := append_line (mkLine TEST
    ("Result: " +:+ Py.str_of_nat (pass_count st) +:+ " PASS / "
       +:+ Py.str_of_nat (warn_count st) +:+ " WARN / "
       +:+ Py.str_of_nat (fail_count st) +:+ " FAIL")) st in
  let verdict := verdict_of st in
  let st := append_line (mkLine TEST ("Deployment: " +:+ verdict)) st in
  append_line (mkLine TEST "━━━━━━━━━━━━━━━━━━━━━━━━━━━━━━━━━━━━") st.

(** The items of a list handed to [str.join]: the call raises [TypeError]
    at the first item that is no text. *)
Fixpoint text_items (items : list (option string)) : PyExn + list string :=
  match items with
  | [] => inr []
  | Some s :: rest =>
      match text_items rest with
      | inl exn => inl exn
      | inr l => inr (s :: l)
      end
  | None :: _ => inl TypeError
  end.

Definition header_lines (file_path : string) (expected : list string) : list Line :=
  [ mkLine TEST "━━ DEPLOYMENT TEST REPORT ━━━━━━━━━━━━";
    mkLine TEST ("Compose File : " +:+ file_path);
    mkLine TEST ("Services     : " +:+
                 (if Py.nonempty expected then Py.join ", " expected else "none detected"));
    mkLine TEST "─────────────────────────────────────" ].

(** The body of [run_post_deploy_tests] up to the last [append]: the time
    stamp of the report and the final value of the local variables. *)
Definition run_post_deploy_tests_state (file_path expected_services : string)
  : M World (PyExn + string * TestState) :=
  let* timestamp := now_strftime rt "%Y-%m-%d %H:%M:%S" in
  let* listed := _get_compose_services file_path in
  match listed with
  | inl exn => ret (inl exn)
  | inr services =>
      let expected :=
        if Py.truthy expected_services
        then map Some (map Py.strip (Py.split "," expected_services))
        else services in
      (* the head of the report joins [expected] before any check runs *)
      match text_items expected with
      | inl exn => ret (inl exn)
      | inr expected =>
          let st := mkState (header_lines file_path expected) 0 0 0 in
          let* tested := test_running file_path st in
          let running_containers := fst tested in
          let* st := test_health running_containers (snd tested) in
          let* st := test_ports running_containers st in
          let* st := test_connectivity running_containers st in
          let* st := test_volumes running_containers st in
          let* st := test_env running_containers st in
          let* st := test_logs running_containers st in
          let* st := test_resources running_containers st in
          ret (inr (timestamp, final_lines st))
      end
  end.

(** [full_report = newline.join(report_lines)] *)
Definition full_report (timestamp : string) (st : TestState) : string :=
  Py.join (String "010" "") (map (render timestamp) (report_lines st)).

Definition run_post_deploy_tests (file_path expected_services : string)
  : M World (PyExn + string) :=
  let* outcome := run_post_deploy_tests_state file_path expected_services in
  match outcome with
  | inl exn => ret (inl exn)
  | inr (timestamp, st) => ret (inr (full_report timestamp st))
  end.

End Engine.

(** ** Insertion-ordered dictionaries with string keys

    [compose] and its sub-dictionaries are dumped with [sort_keys=False],
    so the order in which keys were first set is part of the value. *)

Module PyDict.

Section Dict.

Context {V : Type}.

(** [d[k] = v]: an existing key keeps its place. *)
Fixpoint set (k : string) (v : V) (d : list (string * V)) : list (string * V) :=
  match d with
  | [] => [(k, v)]
  | (k', v') :: d' =>
      if String.eqb k k' then (k, v) :: d' else (k', v') :: set k v d'
  end.

(** [d.get(k)] *)
Fixpoint get (k : string) (d : list (string * V)) : option V :=
  match d with
  | [] => None
  | (k', v') :: d' => if String.eqb k k' then Some v' else get k d'
  end.

Definition keys (d : list (string * V)) : list string := map fst d.

(** [{k: v for k in ks}] *)
Definition from_keys (ks : list string) (v : V) : list (string * V) :=
  fold_left (fun d k => set k v d) ks [].

End Dict.

End PyDict.

(** ** The specification compiler: [tools/compose_tools.py] *)

Module Compiler.

Record Healthcheck : Type := mkHealthcheck {
  hc_test : list string;
  hc_interval : string;
  hc_timeout : string;
  hc_retries : Z;
  hc_start_period : string
}.

Record VolumeDefault : Type := mkVolumeDefault {
  vd_name : string;
  vd_mount : string;
  vd_comment : string
}.

Record ServiceDefaults : Type := mkDefaults {
  healthcheck_default : Healthcheck;
  volumes_default : list VolumeDefault
}.

(** The table is searched in the order it is written. *)
Definition SERVICE_DEFAULTS : list (string * ServiceDefaults) :=
  [ ("nginx", mkDefaults
       (mkHealthcheck ["CMD"; "curl"; "-f"; "http://localhost/"] "15s" "5s" 3 "10s")
       [mkVolumeDefault "nginx_config" "/etc/nginx/conf.d" "nginx configuration";
        mkVolumeDefault "nginx_html" "/usr/share/nginx/html" "static files"]);
    ("redis", mkDefaults
       (mkHealthcheck ["CMD"; "redis-cli"; "ping"] "15s" "5s" 3 "10s")
       [mkVolumeDefault "redis_data" "/data" "redis persistence"]);
    ("postgres", mkDefaults
       (mkHealthcheck ["CMD-SHELL"; "pg_isready -U ${POSTGRES_USER:-postgres}"] "15s" "5s" 5 "30s")
       [mkVolumeDefault "postgres_data" "/var/lib/postgresql/data" "database files"]);
    ("mysql", mkDefaults
       (mkHealthcheck ["CMD"; "mysqladmin"; "ping"; "-h"; "localhost"] "15s" "5s" 5 "30s")
       [mkVolumeDefault "mysql_data" "/var/lib/mysql" "database files"]);
    ("mariadb", mkDefaults
       (mkHealthcheck ["CMD"; "healthcheck.sh"; "--connect"; "--innodb_initialized"]
          "15s" "5s" 5 "30s")
       [mkVolumeDefault "mariadb_data" "/var/lib/mysql" "database files"]);
    ("mongo", mkDefaults
       (mkHealthcheck ["CMD"; "mongosh"; "--eval"; "db.adminCommand('ping')"] "15s" "5s" 5 "30s")
       [mkVolumeDefault "mongo_data" "/data/db" "database files"]);
    ("elasticsearch", mkDefaults
       (mkHealthcheck
          ["CMD-SHELL"; "curl -f http://localhost:9200/_cluster/health || exit 1"]
          "30s" "10s" 5 "60s")
       [mkVolumeDefault "es_data" "/usr/share/elasticsearch/data" "index data"]);
    ("rabbitmq", mkDefaults
       (mkHealthcheck ["CMD"; "rabbitmq-diagnostics"; "-q"; "ping"] "30s" "10s" 3 "30s")
       [mkVolumeDefault "rabbitmq_data" "/var/lib/rabbitmq" "queue data"]) ].

Definition DEFAULT_HEALTHCHECK : Healthcheck :=
  mkHealthcheck ["CMD-SHELL"; "exit 0"] "30s" "10s" 3 "10s".

(** [image.lower().split(":")[0].split("/")[-1]] *)
Definition image_lower (image : string) : string :=
  Py.last (Py.split "/" (hd "" (Py.split ":" (Py.lower image)))).

Definition _detect_service_type (image : string) : option string :=
  option_map fst
    (List.find (fun entry => Py.contains (fst entry) (image_lower image)) SERVICE_DEFAULTS).

Definition SERVICE_ROLES : gmap string string :=
  list_to_map
    [ ("postgres", "database");
      ("mysql", "database");
      ("mariadb", "database");
      ("mongo", "database");
      ("elasticsearch", "database");
      ("redis", "cache");
      ("rabbitmq", "queue");
      ("nginx", "proxy") ].

Definition BACKEND_PATTERNS : list string :=
  [ "python"; "node"; "golang"; "java"; "ruby"; "php";
    "flask"; "django"; "express"; "fastapi"; "spring";
    "api"; "backend"; "app"; "server"; "web" ].

Definition STAGE_ORDER : gmap string Z :=
  list_to_map
    [ ("database", 1%Z);
      ("cache", 1%Z);
      ("queue", 1%Z);
      ("backend", 2%Z);
      ("proxy", 3%Z);
      ("unknown", 2%Z) ].

Definition backend_or_unknown (image : string) : string :=
  if existsb (fun pattern => Py.contains pattern (image_lower image)) BACKEND_PATTERNS
  then "backend" else "unknown".

Definition _detect_service_role (image : string) (svc_type : option string) : string :=
  match svc_type with
  | Some t =>
      if Py.truthy t then
        match SERVICE_ROLES !! t with
        | Some role => role
        | None => backend_or_unknown image
        end
      else backend_or_unknown image
  | None => backend_or_unknown image
  end.

(** [STAGE_ORDER.get(role, 2)] *)
Definition stage_of_role (role : string) : Z := default 2%Z (STAGE_ORDER !! role).

(** One entry of [services_info]. *)
Record ServiceInfo : Type := mkInfo {
  info_name : string;
  info_image : string;
  info_svc_type : option string;
  info_role : string
}.

(** The first loop of [_auto_detect_dependencies]. *)
Definition group_by_stage (services_info : list ServiceInfo) : gmap Z (list string) :=
  fold_left
    (fun by_stage svc =>
       let stage := stage_of_role (info_role svc) in
       alter (fun names => names ++ [info_name svc]) stage by_stage)
    services_info
    (<[1%Z := []]> (<[2%Z := []]> (<[3%Z := []]> ∅))).

Definition _auto_detect_dependencies (services_info : list ServiceInfo)
  : gmap string (list string) :=
  let by_stage := group_by_stage services_info in
  let deps : gmap string (list string) := ∅ in
  let deps :=
    fold_left
      (fun deps name =>
         if Py.nonempty (by_stage !!! 1%Z) then <[name := by_stage !!! 1%Z]> deps else deps)
      (by_stage !!! 2%Z) deps in
  let deps :=
    fold_left
      (fun deps name =>
         if Py.nonempty (by_stage !!! 2%Z) then <[name := by_stage !!! 2%Z]> deps
         else if Py.nonempty (by_stage !!! 1%Z) then <[name := by_stage !!! 1%Z]> deps
         else deps)
      (by_stage !!! 3%Z) deps in
  deps.

(** One JSON object of the input list; a field is [None] when the key is
    absent. *)
Record ServiceSpec : Type := mkSpec {
  spec_name : option string;
  spec_image : option string;
  spec_ports : option (list string);
  spec_environment : option (list (string * string));
  spec_volumes : option (list string);
  spec_command : option string;
  spec_depends_on : option (list string);
  spec_memory_limit : option string;
  spec_cpu_limit : option string
}.

Definition name_of (svc : ServiceSpec) : string := default "service" (spec_name svc).

Definition image_of (svc : ServiceSpec) : string := default "alpine:latest" (spec_image svc).

(** One value of [compose["services"]]. *)
Record ServiceDef : Type := mkServiceDef {
  sd_image : string;
  sd_restart : string;
  sd_healthcheck : Healthcheck;
  sd_memory : string;
  sd_cpus : string;
  sd_networks : list string;
  sd_logging_driver : string;
  sd_logging_options : list (string * string);
  sd_labels : list (string * string);
  sd_ports : option (list string);
  sd_environment : option (list (string * string));
  sd_command : option string;
  sd_depends_on : option (list (string * string));
  sd_volumes : option (list string)
}.

(** [service_def.setdefault("volumes", []).append(v)] *)
Definition append_volume (v : string) (d : ServiceDef) : ServiceDef :=
  mkServiceDef (sd_image d) (sd_restart d) (sd_healthcheck d) (sd_memory d) (sd_cpus d)
    (sd_networks d) (sd_logging_driver d) (sd_logging_options d) (sd_labels d)
    (sd_ports d) (sd_environment d) (sd_command d) (sd_depends_on d)
    (Some (default [] (sd_volumes d) ++ [v])).

(** The dictionary [compose]; [networks] is the constant
    [{"app_network": {"driver": "bridge"}}]. *)
Record Compose : Type := mkCompose {
  services : list (string * ServiceDef);
  networks : list (string * string);
  volumes : option (list (string * string))
}.

(** Pass 1 of [compose_generate]. *)
Definition service_info (svc : ServiceSpec) : ServiceInfo :=
  let name := name_of svc in
  let image := image_of svc in
  let svc_type := _detect_service_type image in
  let role := _detect_service_role image svc_type in
  mkInfo name image svc_type role.

(** [dep: {"condition": "service_healthy"} for dep in deps] *)
Definition healthy_conditions (deps : list string) : list (string * string) :=
  PyDict.from_keys deps "service_healthy".

(** The loop over the user-specified volumes of one service: the set
    [user_mount_paths], the service definition, [compose["volumes"]]. *)
Definition user_volumes (vols : list string)
    (acc : gset string * ServiceDef * list (string * string))
  : gset string * ServiceDef * list (string * string) :=
  fold_left
    (fun acc v =>
       let '(user_mount_paths, service_def, named) := acc in
       let '(user_mount_paths, named) :=
         if Py.contains ":" v then
           let vol_name := hd "" (Py.split ":" v) in
           let mount_path := nth 1 (Py.split ":" v) "" in
           (({[mount_path]} ∪ user_mount_paths : gset string),
            if negb (Py.startswith vol_name "/") && negb (Py.startswith vol_name ".")
            then PyDict.set vol_name "local" named else named)
         else (user_mount_paths, named) in
       (user_mount_paths, append_volume v service_def, named))
    vols acc.

(** The loop over the default persistence volumes of a known service type. *)
Definition default_volumes (name : string) (user_mount_paths : gset string)
    (vol_defs : list VolumeDefault) (acc : ServiceDef * list (string * string))
  : ServiceDef * list (string * string) :=
  fold_left
    (fun acc vol_def =>
       let '(service_def, named) := acc in
       if bool_decide (vd_mount vol_def ∈ user_mount_paths) then acc
       else
         let vol_name :=
           if negb (Py.startswith (vd_name vol_def) name)
           then name +:+ "_" +:+ vd_name vol_def else vd_name vol_def in
         let vol_mapping := vol_name +:+ ":" +:+ vd_mount vol_def in
         (append_volume vol_mapping service_def, PyDict.set vol_name "local" named))
    vol_defs acc.

(** The body of the loop of pass 2 for the entry [svc] whose pass-1
    record is [info]. *)
Definition build_service (timestamp : string) (auto_deps : gmap string (list string))
    (svc : ServiceSpec) (info : ServiceInfo)
    (compose : list (string * ServiceDef) * list (string * string))
  : list (string * ServiceDef) * list (string * string) :=
  let '(compose_services, compose_volumes) := compose in
  let name := name_of svc in
  let image := image_of svc in
  let ports := default [] (spec_ports svc) in
  let environment := default [] (spec_environment svc) in
  let vols := default [] (spec_volumes svc) in
  let command := spec_command svc in
  let depends_on := default [] (spec_depends_on svc) in
  let svc_type := info_svc_type info in
  let role := info_role info in
  let stage := stage_of_role role in
  let defaults :=
    match svc_type with
    | Some t => if Py.truthy t then PyDict.get t SERVICE_DEFAULTS else None
    | None => None
    end in
  let healthcheck :=
    match defaults with
    | Some d => healthcheck_default d
    | None => DEFAULT_HEALTHCHECK
    end in
  let service_def :=
    mkServiceDef image "unless-stopped" healthcheck
      (default "512M" (spec_memory_limit svc)) (default "0.5" (spec_cpu_limit svc))
      ["app_network"] "json-file" [("max-size", "10m"); ("max-file", "3")]
      [("managed-by", "docker-devops-agent"); ("created-at", timestamp);
       ("environment", "development");
       ("stage", Py.str_of_Z stage +:+ "-" +:+ role)]
      (if Py.nonempty ports then Some ports else None)
      (if Py.nonempty environment then Some environment else None)
      (match command with
       | Some c => if Py.truthy c then Some c else None
       | None => None
       end)
      (if Py.nonempty depends_on then Some (healthy_conditions depends_on)
       else match auto_deps !! name with
            | Some deps => Some (healthy_conditions deps)
            | None => None
            end)
      None in
  let '(user_mount_paths, service_def, compose_volumes) :=
    user_volumes vols (∅, service_def, compose_volumes) in
  let '(service_def, compose_volumes) :=
    match defaults with
    | Some d => default_volumes name user_mount_paths (volumes_default d)
                  (service_def, compose_volumes)
    | None => (service_def, compose_volumes)
    end in
  (PyDict.set name service_def compose_services, compose_volumes).

(** Both passes of [compose_generate] and the removal of an empty
    [volumes] section: the dictionary handed to [yaml.dump]. *)
Definition build_compose (timestamp : string) (svc_list : list ServiceSpec) : Compose :=
  let services_info := map service_info svc_list in
  let auto_deps := _auto_detect_dependencies services_info in
  let '(compose_services, compose_volumes) :=
    fold_left
      (fun compose entry => build_service timestamp auto_deps (fst entry) (snd entry) compose)
      (combine svc_list services_info) ([], []) in
  mkCompose compose_services [("app_network", "bridge")]
    (if Py.nonempty compose_volumes then Some compose_volumes else None).

(** *** [compose_generate] and its input *)

#[local] Unset Elimination Schemes.


#[local] Set Elimination Schemes.


















End Compiler.

(** ** Activities: [temporal/activities.py] *)

Record ComposeInput : Type := mkComposeInput {
  ci_file_path : string;
  ci_build : bool;
  ci_detach : bool
}.

Record TestInput : Type := mkTestInput {
  ti_file_path : string;
  ti_expected_services : string
}.

Record BackupInput : Type := mkBackupInput { bi_file_path : string }.

Record HealthCheckResult : Type := mkHealthCheckResult {
  report : string;
  has_failures : bool
}.

Record RollbackInput : Type := mkRollbackInput {
  current_file : string;
  backup_file : string
}.

(** [ComposeInput(file_path=p)], [TestInput(file_path=p)] and
    [RollbackInput(current_file=p)] with the defaults of the data classes. *)
Definition compose_input (p : string) : ComposeInput := mkComposeInput p false true.

Definition test_input (p : string) : TestInput := mkTestInput p "".

Definition rollback_input (p : string) : RollbackInput := mkRollbackInput p "".

(** [health_check_activity], given the tool [health_check_all]. *)
Definition health_check_activity {World : Type} (health_check_all : M World string)
  : M World HealthCheckResult :=
  let* report := health_check_all in
  let has_failures :=
    Py.contains "unhealthy" (Py.lower report) || Py.contains "error" (Py.lower report) in
  ret (mkHealthCheckResult report has_failures).

(** [run_tests_activity]: the verification engine on the input's file. *)
Definition run_tests_activity {World : Type} (rt : Runtime World) (lib : PyLib)
    (input : TestInput) : M World (PyExn + string) :=
  run_post_deploy_tests rt lib (ti_file_path input) (ti_expected_services input).

(** ** Workflows: [temporal/workflows.py] *)

Record RetryPolicy : Type := mkRetryPolicy { maximum_attempts : Z }.

(** Keyword arguments of [workflow.execute_activity]; time-outs in seconds. *)
Record ActivityOptions : Type := mkOptions {
  start_to_close_timeout : Z;
  heartbeat_timeout : option Z;
  retry_policy : option RetryPolicy
}.

(** The positional argument of an activity. *)
Inductive Arg : Type :=
| NoArg
| StrArg (s : string)
| BackupArg (input : BackupInput)
| ComposeArg (input : ComposeInput)
| TestArg (input : TestInput).

(** One backup file: its path and [stat().st_mtime]; only the order of
    the modification times is used. *)
Record BackupRecord : Type := mkBackup { path : string; st_mtime : Z }.

(** A workflow body: what it returns, or the next call it awaits and how
    it goes on with the answer. *)
Inductive Workflow (A : Type) : Type :=
| Return (a : A)
| ExecuteActivity (name : string) (arg : Arg) (options : ActivityOptions)
    (k : string -> Workflow A)
| ExecuteHealthCheck (options : ActivityOptions) (k : HealthCheckResult -> Workflow A)
| ExecuteChildWorkflow (input : RollbackInput) (id : string) (k : string -> Workflow A)
| Sleep (seconds : Z) (k : unit -> Workflow A)
| GlobBackups (current_file : string) (k : option (list BackupRecord) -> Workflow A).

Arguments Return {A}.
Arguments ExecuteActivity {A}.
Arguments ExecuteHealthCheck {A}.
Arguments ExecuteChildWorkflow {A}.
Arguments Sleep {A}.
Arguments GlobBackups {A}.

Notation "'await' x ':=' call 'in' k" := (call (fun x => k))
  (at level 10, x pattern, k at level 200).

Module DeployWorkflow.

(** [_notify(message)] *)
Definition _notify {A : Type} (message : string) (k : string -> Workflow A) : Workflow A :=
  ExecuteActivity "send_notification" (StrArg (Py.take 500 message))
    (mkOptions 10 None None) k.

Definition newline : string := String "010" "".

(** [run(file_path)]; [workflow_id] is [workflow.info().workflow_id]. *)
Definition run (workflow_id file_path : string) : Workflow string :=
  let results : list string := [] in
  (* Step 1: Validate *)
  await validation :=
    ExecuteActivity "validate_compose" (StrArg file_path)
      (mkOptions 30 None (Some (mkRetryPolicy 2))) in
  let results := results ++ ["[1/6] Validate: " +:+ Py.take 100 validation] in
  if Py.contains "ERROR" validation || Py.contains "FAILED" validation then
    let msg := "DEPLOY ABORTED — Validation failed:" +:+ newline +:+ validation in
    await _ := _notify msg in
    Return msg
  else
  (* Step 2: Backup *)
  await backup_result :=
    ExecuteActivity "backup_compose" (BackupArg (mkBackupInput file_path))
      (mkOptions 30 None None) in
  let results := results ++ ["[2/6] Backup: " +:+ Py.take 100 backup_result] in
  (* Step 3: Port conflicts *)
  await conflicts :=
    ExecuteActivity "detect_conflicts" (StrArg file_path) (mkOptions 30 None None) in
  let results := results ++ ["[3/6] Ports: " +:+ Py.take 100 conflicts] in
  let has_real_conflicts :=
    Py.contains "OCCUPIED" (Py.upper conflicts) || Py.contains "⚠" conflicts in
  if has_real_conflicts then
    let msg := "DEPLOY ABORTED — Port conflicts detected:" +:+ newline +:+ conflicts in
    await _ := _notify msg in
    Return msg
  else
  (* Step 4: Deploy *)
  await deploy_result :=
    ExecuteActivity "deploy_compose" (ComposeArg (compose_input file_path))
      (mkOptions 300 (Some 60%Z) (Some (mkRetryPolicy 2))) in
  let results := results ++ ["[4/6] Deploy: " +:+ Py.take 100 deploy_result] in
  if Py.contains "FAILED" deploy_result || Py.contains "ERROR" deploy_result then
    await rollback :=
      ExecuteChildWorkflow (rollback_input file_path) ("rollback-" +:+ workflow_id) in
    let msg :=
      "DEPLOY FAILED — Auto-rollback triggered:" +:+ newline +:+ deploy_result
        +:+ newline +:+ newline +:+ "Rollback result:" +:+ newline +:+ rollback in
    await _ := _notify msg in
    Return msg
  else
  (* Step 5: Test suite *)
  await test_result :=
    ExecuteActivity "run_tests" (TestArg (test_input file_path))
      (mkOptions 180 (Some 120%Z) None) in
  let results := results ++ ["[5/6] Tests: " +:+ Py.take 200 test_result] in
  if Py.contains "FAIL" (Py.upper test_result)
     && negb (Py.contains "PASS" (Py.upper test_result)) then
    await rollback :=
      ExecuteChildWorkflow (rollback_input file_path) ("rollback-" +:+ workflow_id) in
    let msg :=
      "DEPLOY FAILED (tests) — Auto-rollback triggered:" +:+ newline +:+ test_result
        +:+ newline +:+ newline +:+ "Rollback:" +:+ newline +:+ rollback in
    await _ := _notify msg in
    Return msg
  else
  (* Step 6: Success notification *)
  let summary := Py.join newline results in
  let msg :=
    "DEPLOYMENT SUCCESSFUL" +:+ newline +:+ newline +:+ summary +:+ newline +:+ newline
      +:+ "Test Results:" +:+ newline +:+ test_result in
  await _ := _notify msg in
  Return msg.

End DeployWorkflow.

Module RollbackWorkflow.

Definition newline : string := String "010" "".

(** [sorted(backups, key=st_mtime, reverse=True)]: a stable sort, the
    larger time first, equal times in their listing order. *)
Fixpoint insert_by_mtime (b : BackupRecord) (sorted : list BackupRecord)
  : list BackupRecord :=
  match sorted with
  | [] => [b]
  | b' :: rest =>
      if (st_mtime b' <? st_mtime b)%Z then b :: sorted
      else b' :: insert_by_mtime b rest
  end.

Definition sorted_newest_first (backups : list BackupRecord) : list BackupRecord :=
  fold_left (fun sorted b => insert_by_mtime b sorted) backups [].

(** Step 2: the backup file to deploy, the empty string when none. *)
Definition resolve_backup {A : Type} (input : RollbackInput)
    (k : string -> Workflow A) : Workflow A :=
  let backup_file := backup_file input in
  if negb (Py.truthy backup_file) then
    await listing := GlobBackups (current_file input) in
    match listing with
    | Some found =>
        match sorted_newest_first found with
        | newest :: _ => k (path newest)
        | [] => k backup_file
        end
    | None => k backup_file
    end
  else k backup_file.

Definition run (input : RollbackInput) : Workflow string :=
  (* Step 1: Tear down current *)
  await teardown :=
    ExecuteActivity "teardown_compose" (ComposeArg (compose_input (current_file input)))
      (mkOptions 120 None None) in
  (* Step 2: Determine backup file *)
  await backup_file := resolve_backup input in
  if negb (Py.truthy backup_file) then
    let msg := "ROLLBACK FAILED: No backup file found" in
    await _ := ExecuteActivity "send_notification" (StrArg msg) (mkOptions 10 None None) in
    Return msg
  else
  (* Step 3: Deploy backup *)
  await deploy :=
    ExecuteActivity "deploy_compose" (ComposeArg (compose_input backup_file))
      (mkOptions 300 (Some 60%Z) None) in
  (* Step 4: Test *)
  await tests :=
    ExecuteActivity "run_tests" (TestArg (test_input backup_file))
      (mkOptions 180 None None) in
  (* Step 5: Report *)
  let msg :=
    if Py.contains "FAIL" (Py.upper tests) && negb (Py.contains "PASS" (Py.upper tests))
    then
      "ROLLBACK CRITICAL: Backup deployment also failing!" +:+ newline
        +:+ "Teardown: " +:+ Py.take 100 teardown +:+ newline
        +:+ "Deploy: " +:+ Py.take 100 deploy +:+ newline
        +:+ "Tests: " +:+ Py.take 200 tests
    else
      "ROLLBACK SUCCESSFUL" +:+ newline
        +:+ "Backup: " +:+ backup_file +:+ newline
        +:+ "Teardown: " +:+ Py.take 100 teardown +:+ newline
        +:+ "Deploy: " +:+ Py.take 100 deploy +:+ newline
        +:+ "Tests: " +:+ Py.take 100 tests in
  await _ :=
    ExecuteActivity "send_notification" (StrArg (Py.take 500 msg)) (mkOptions 10 None None) in
  Return msg.

End RollbackWorkflow.

Module HealthMonitorWorkflow.

Definition newline : string := String "010" "".

Definition max_checks : nat := 1440.

(** The [while check_count < max_checks] loop.  [fuel] bounds the number
    of iterations the model unfolds; the answer is [None] when it runs
    out before the loop condition fails. *)
Fixpoint loop (fuel : nat) (interval_seconds : Z) (check_count failure_count : nat)
  : Workflow (option string) :=
  if (check_count <? max_checks)%nat then
    match fuel with
    | O => Return None
    | S fuel' =>
        let check_count := (check_count + 1)%nat in
        let sleep_and_continue (failure_count : nat) : Workflow (option string) :=
          await _ := Sleep interval_seconds in
          loop fuel' interval_seconds check_count failure_count in
        await result :=
          ExecuteHealthCheck (mkOptions 60 None (Some (mkRetryPolicy 3))) in
        if has_failures result then
          let failure_count := (failure_count + 1)%nat in
          let after_alert (_ : string) : Workflow (option string) :=
            if (3 <=? failure_count)%nat then
              await analysis :=
                ExecuteActivity "agent_analyze"
                  (StrArg ("Analyze these health check results and diagnose the issue:"
                             +:+ newline +:+ report result))
                  (mkOptions 120 None None) in
              await _ :=
                ExecuteActivity "send_notification"
                  (StrArg ("AI DIAGNOSIS after " +:+ Py.str_of_nat failure_count
                             +:+ " failures:" +:+ newline +:+ Py.take 400 analysis))
                  (mkOptions 10 None None) in
              sleep_and_continue 0%nat
            else sleep_and_continue failure_count in
          if (failure_count =? 1)%nat then
            await sent :=
              ExecuteActivity "send_notification"
                (StrArg ("HEALTH ALERT: Unhealthy containers detected!" +:+ newline
                           +:+ Py.take 300 (report result)))
                (mkOptions 10 None None) in
            after_alert sent
          else after_alert ""
        else sleep_and_continue 0%nat
    end
  else
    Return (Some ("HealthMonitorWorkflow completed: " +:+ Py.str_of_nat check_count
                    +:+ " checks performed")).

Definition run (interval_seconds : Z) : Workflow (option string) :=
  loop max_checks interval_seconds 0 0.

End HealthMonitorWorkflow.

(** ** Running a workflow

    The durable substrate answers every awaited call.  An activity that
    fails for good (its retries exhausted) raises in the workflow, which
    no workflow body catches: the run aborts there. *)

Record Substrate (World : Type) : Type := mkSubstrate {
  execute_activity : string -> Arg -> ActivityOptions -> World -> option string * World;
  execute_health_check : ActivityOptions -> World -> option HealthCheckResult * World;
  glob_backups : string -> World -> option (list BackupRecord) * World;
  sleep : Z -> World -> World
}.

Arguments execute_activity {World}.
Arguments execute_health_check {World}.
Arguments glob_backups {World}.
Arguments sleep {World}.

(** What a run did, call by call, with the answer each call got. *)
#[warnings="-register-all"]
Inductive Event : Type :=
| ActivityCalled (name : string) (arg : Arg) (options : ActivityOptions)
    (result : option string)
| HealthChecked (options : ActivityOptions) (result : option HealthCheckResult)
| ChildRun (input : RollbackInput) (id : string) (events : list Event)
    (result : option string)
| Slept (seconds : Z)
| Globbed (current_file : string) (listing : option (list BackupRecord)).

Inductive Outcome (A : Type) : Type :=
| Finished (a : A)
| Aborted.

Arguments Finished {A}.
Arguments Aborted {A}.

Definition result_of {A : Type} (o : Outcome A) : option A :=
  match o with
  | Finished a => Some a
  | Aborted => None
  end.

Section Run.

Context {World : Type} (substrate : Substrate World).

(** [child] runs a nested workflow to its end. *)
Fixpoint exec {A : Type}
    (child : RollbackInput -> string -> World -> Outcome string * list Event * World)
    (p : Workflow A) (w : World) : Outcome A * list Event * World :=
  match p with
  | Return a => (Finished a, [], w)
  | ExecuteActivity name arg options k =>
      let (answer, w) := execute_activity substrate name arg options w in
      match answer with
      | Some text =>
          let '(outcome, events, w) := exec child (k text) w in
          (outcome, ActivityCalled name arg options answer :: events, w)
      | None => (Aborted, [ActivityCalled name arg options answer], w)
      end
  | ExecuteHealthCheck options k =>
      let (answer, w) := execute_health_check substrate options w in
      match answer with
      | Some result =>
          let '(outcome, events, w) := exec child (k result) w in
          (outcome, HealthChecked options answer :: events, w)
      | None => (Aborted, [HealthChecked options answer], w)
      end
  | ExecuteChildWorkflow input id k =>
      let '(nested, nested_events, w) := child input id w in
      match nested with
      | Finished text =>
          let '(outcome, events, w) := exec child (k text) w in
          (outcome, ChildRun input id nested_events (Some text) :: events, w)
      | Aborted => (Aborted, [ChildRun input id nested_events None], w)
      end
  | Sleep seconds k =>
      let '(outcome, events, w) := exec child (k tt) (sleep substrate seconds w) in
      (outcome, Slept seconds :: events, w)
  | GlobBackups current_file k =>
      let (listing, w) := glob_backups substrate current_file w in
      let '(outcome, events, w) := exec child (k listing) w in
      (outcome, Globbed current_file listing :: events, w)
  end.

(** A workflow that starts no child workflow. *)
Definition no_child (_ : RollbackInput) (_ : string) (w : World)
  : Outcome string * list Event * World := (Aborted, [], w).

Definition run_rollback (input : RollbackInput) (w : World)
  : Outcome string * list Event * World :=
  exec no_child (RollbackWorkflow.run input) w.

Definition run_deploy (workflow_id file_path : string) (w : World)
  : Outcome string * list Event * World :=
  exec (fun input _ => run_rollback input) (DeployWorkflow.run workflow_id file_path) w.

Definition run_monitor (interval_seconds : Z) (w : World)
  : Outcome (option string) * list Event * World :=
  exec no_child (HealthMonitorWorkflow.run interval_seconds) w.

End Run.

(** ** The tools behind the activities

    [tools/compose_tools.py] (validation, deployment, teardown, backup),
    [tools/docker_tools.py] (health report) and
    [tools/monitoring_tools.py] (port conflicts).  The calls to the
    loggers are left out: they write to the log files only. *)

(** What [subprocess.run] does, with the class of the exception it
    raises: the tools tell a time-out and a missing executable from any
    other exception. *)
Inductive Ran : Type :=
| TimeoutExpired
| FileNotFoundError (message : string)
| OtherException (message : string)
| Exited (returncode : Z) (out err : string).

(** What the tool [detect_port_conflicts] reads off the compose file:
    [open] or [yaml.safe_load] raises; or one of the lookups
    [compose.get], [services.items], [svc_def.get] or the iteration over
    the ports raises, which nothing catches; or the walk yields, in
    document order, every [(svc_name, str(port_mapping))]. *)
Inductive Mappings : Type :=
| LoadRaises (message : string)
| WalkRaises
| PortMappings (ports : list (string * string)).

(** The host: processes, files, clock and sockets, over an abstract
    world, and the two path computations of [backup_compose_file]. *)
Record Host (World : Type) : Type := mkHost {
  (** [subprocess.run(cmd, capture_output, text, timeout, shell)] *)
  run_process : list string -> Z -> World -> Ran * World;
  (** [os.path.exists(path)] *)
  os_path_exists : string -> World -> bool * World;
  (** [shutil.copy2(src, dst)]: [Some] the text of the exception it raises *)
  shutil_copy2 : string -> string -> World -> option string * World;
  (** [datetime.now(ist).strftime(fmt)] *)
  datetime_now : string -> World -> string * World;
  (** [Path(file_path).stem] *)
  path_stem : string -> string;
  (** [str(BACKUPS_DIR / backup_name)] *)
  backups_dir : string -> string;
  (** the compose file as [detect_port_conflicts] walks it *)
  yaml_ports : string -> World -> Mappings * World;
  (** [sock.settimeout(t); sock.connect_ex((host, port))], [None] when
      the socket raises *)
  sock_connect_ex : string -> Z -> Z -> World -> option Z * World
}.

Arguments run_process {World}.
Arguments os_path_exists {World}.
Arguments shutil_copy2 {World}.
Arguments datetime_now {World}.
Arguments path_stem {World}.
Arguments backups_dir {World}.
Arguments yaml_ports {World}.
Arguments sock_connect_ex {World}.

(** The dictionary [_run_compose] and [_run_docker] return: the three
    keys of [CmdResult] and [returncode]. *)
Record RunResult : Type := mkRun {
  outcome : CmdResult;
  returncode : Z
}.

Module ComposeTools.

Definition newline : string := String "010" "".

Section Tools.

Context {World : Type} (host : Host World).

(** [_run_compose(cmd, component)]: never raises. *)
Definition _run_compose (cmd : list string) : M World RunResult :=
  fun w =>
    match run_process host cmd 300 w with
    | (Exited code out err, w') =>
        (mkRun (mkCmd (code =? 0)%Z (Py.strip out) (Py.strip err)) code, w')
    | (TimeoutExpired, w') => (mkRun (mkCmd false "" "Command timed out") (-1), w')
    | (FileNotFoundError e, w') => (mkRun (mkCmd false "" e) (-1), w')
    | (OtherException e, w') => (mkRun (mkCmd false "" e) (-1), w')
    end.

Definition compose_validate (file_path : string) : M World string :=
  let* found := os_path_exists host file_path in
  if negb found then
    ret ("ERROR: Compose file not found: " +:+ file_path +:+ newline
           +:+ "Please check the path or generate a new compose file.")
  else
    let cmd := ["docker"; "compose"; "-f"; file_path; "config"] in
    let* result := _run_compose cmd in
    if success (outcome result) then
      ret ("✓ Compose file '" +:+ file_path +:+ "' is valid." +:+ newline +:+ newline
             +:+ "Resolved configuration:" +:+ newline +:+ stdout (outcome result))
    else
      ret ("✗ Validation FAILED for '" +:+ file_path +:+ "':" +:+ newline
             +:+ stderr (outcome result)).

Definition compose_up (file_path : string) (build detach : bool) : M World string :=
  (* Step 1: Validate first *)
  let* found := os_path_exists host file_path in
  if negb found then ret ("ERROR: Compose file not found: " +:+ file_path)
  else
    let validate_cmd := ["docker"; "compose"; "-f"; file_path; "config"; "-q"] in
    let* validate_result := _run_compose validate_cmd in
    if negb (success (outcome validate_result)) then
      ret ("✗ Compose file validation failed. Not deploying." +:+ newline
             +:+ stderr (outcome validate_result))
    else
      (* Step 2: Bring up *)
      let cmd := ["docker"; "compose"; "-f"; file_path; "up"] in
      let cmd := if build then cmd ++ ["--build"] else cmd in
      let cmd := if detach then cmd ++ ["-d"] else cmd in
      let* result := _run_compose cmd in
      if success (outcome result) then
        let ps_cmd := ["docker"; "compose"; "-f"; file_path; "ps"] in
        let* ps_result := _run_compose ps_cmd in
        let status_output :=
          if success (outcome ps_result) then stdout (outcome ps_result)
          else "Could not fetch service status." in
        ret ("✓ Services deployed successfully from '" +:+ file_path +:+ "'."
               +:+ newline +:+ newline
               +:+ "Service Status:" +:+ newline +:+ status_output +:+ newline +:+ newline
               +:+ "Output:" +:+ newline +:+ stdout (outcome result) +:+ newline
               +:+ stderr (outcome result))
      else
        ret ("✗ Deployment FAILED for '" +:+ file_path +:+ "':" +:+ newline
               +:+ stderr (outcome result)).

Definition compose_down (file_path : string) (remove_volumes : bool) : M World string :=
  let* found := os_path_exists host file_path in
  if negb found then ret ("ERROR: Compose file not found: " +:+ file_path)
  else
    let cmd := ["docker"; "compose"; "-f"; file_path; "down"] in
    let cmd := if remove_volumes then cmd ++ ["-v"] else cmd in
    let* result := _run_compose cmd in
    if success (outcome result) then
      ret ("✓ Services torn down successfully from '" +:+ file_path +:+ "'." +:+ newline
             +:+ stdout (outcome result) +:+ newline +:+ stderr (outcome result))
    else
      ret ("✗ Teardown FAILED:" +:+ newline +:+ stderr (outcome result)).

Definition backup_compose_file (file_path : string) : M World string :=
  let* found := os_path_exists host file_path in
  if negb found then ret ("ERROR: File not found: " +:+ file_path)
  else
    let* timestamp := datetime_now host "%Y%m%d_%H%M%S" in
    let filename := path_stem host file_path in
    let backup_name := filename +:+ "_backup_" +:+ timestamp +:+ ".yml" in
    let backup_path := backups_dir host backup_name in
    let* raised := shutil_copy2 host file_path backup_path in
    match raised with
    | None => ret ("✓ Backup created: " +:+ backup_path)
    | Some e => ret ("ERROR: Failed to create backup: " +:+ e)
    end.

End Tools.

End ComposeTools.

Module DockerTools.

Definition newline : string := String "010" "".

Definition tab : string := String "009" "".

Section Tools.

Context {World : Type} (host : Host World).

(** [_run_docker(cmd, component)]: never raises. *)
Definition _run_docker (cmd : list string) : M World RunResult :=
  fun w =>
    match run_process host cmd 120 w with
    | (Exited code out err, w') =>
        (mkRun (mkCmd (code =? 0)%Z (Py.strip out) (Py.strip err)) code, w')
    | (TimeoutExpired, w') =>
        (mkRun (mkCmd false "" "Command timed out after 120 seconds") (-1), w')
    | (FileNotFoundError _, w') =>
        (mkRun (mkCmd false ""
                  "Docker not found. Please ensure Docker is installed and running.") (-1),
         w')
    | (OtherException e, w') =>
        (mkRun (mkCmd false "" ("Unexpected error: " +:+ e)) (-1), w')
    end.

Definition ps_format : string :=
  "{{.ID}}" +:+ tab +:+ "{{.Names}}" +:+ tab +:+ "{{.Status}}".

(** The body of the loop of [health_check_all] over the listed lines. *)
Definition health_line (line : string) (report : list string) : M World (list string) :=
  match Py.split tab line with
  | cid :: name :: status :: _ =>
      let inspect_cmd := ["docker"; "inspect"; "--format"; health_format; cid] in
      let* inspect_result := _run_docker inspect_cmd in
      let health_status :=
        if success (outcome inspect_result) then stdout (outcome inspect_result)
        else "unknown" in
      ret (report ++ ["  " +:+ name +:+ ": status=" +:+ status +:+ ", health="
                        +:+ health_status])
  | _ => ret report
  end.

Definition health_check_all : M World string :=
  let cmd := ["docker"; "ps"; "--format"; ps_format] in
  let* result := _run_docker cmd in
  if negb (success (outcome result)) then
    ret ("ERROR: Could not list containers for health check." +:+ newline
           +:+ stderr (outcome result))
  else if negb (Py.truthy (stdout (outcome result))) then
    ret "No running containers found."
  else
    let lines := Py.split newline (Py.strip (stdout (outcome result))) in
    let report := ["━━ HEALTH CHECK REPORT ━━━━━━━━━━━━━━━━━"] in
    let* report := for_each lines report health_line in
    let report := report ++ ["━━━━━━━━━━━━━━━━━━━━━━━━━━━━━━━━━━━━━━━"] in
    ret (Py.join newline report).

End Tools.

End DockerTools.

Module MonitoringTools.

Definition newline : string := String "010" "".

Section Tools.

Context {World : Type} (host : Host World) (lib : PyLib).

(** The first loop of [detect_port_conflicts]: the host ports to check. *)
Definition ports_to_check (ports : list (string * string)) : list (string * Z) :=
  fold_left
    (fun ports_to_check mapping =>
       let svc_name := fst mapping in
       let port_str := snd mapping in
       if Py.contains ":" port_str then
         let host_port := hd "" (Py.split ":" port_str) in
         match int_of_str lib host_port with
         | Some port => ports_to_check ++ [(svc_name, port)]
         | None => ports_to_check
         end
       else ports_to_check)
    ports [].

(** The second loop: one connection attempt per port, the lists
    [conflicts] and [available]. *)
Definition probe (entry : string * Z) (found : list string * list string)
  : M World (list string * list string) :=
  let svc_name := fst entry in
  let port := snd entry in
  let conflicts := fst found in
  let available := snd found in
  let* result := sock_connect_ex host "127.0.0.1" port 2 in
  match result with
  | Some code =>
      if (code =? 0)%Z then
        ret (conflicts ++ ["  ⚠ Port " +:+ Py.str_of_Z port +:+ " (service: " +:+ svc_name
                             +:+ ") — IN USE"],
             available)
      else
        ret (conflicts,
             available ++ ["  ✓ Port " +:+ Py.str_of_Z port +:+ " (service: " +:+ svc_name
                             +:+ ") — available"])
  | None =>
      ret (conflicts,
           available ++ ["  ? Port " +:+ Py.str_of_Z port +:+ " (service: " +:+ svc_name
                           +:+ ") — could not check"])
  end.

Definition conflict_report (conflicts available : list string) : string :=
  let report := ["━━ PORT CONFLICT REPORT ━━━━━━━━━━━━━━━━"] in
  let report :=
    if Py.nonempty conflicts
    then report ++ ["CONFLICTS DETECTED:"] ++ conflicts ++ [""]
    else report in
  let report := report ++ ["AVAILABLE PORTS:"] in
  let report := report ++ available in
  let report := report ++ ["━━━━━━━━━━━━━━━━━━━━━━━━━━━━━━━━━━━━━━━"] in
  Py.join newline report.

(** [detect_port_conflicts(file_path)]: [None] when it raises. *)
Definition detect_port_conflicts (file_path : string) : M World (option string) :=
  let* found := os_path_exists host file_path in
  if negb found then ret (Some ("ERROR: File not found: " +:+ file_path))
  else
    let* compose := yaml_ports host file_path in
    match compose with
    | LoadRaises e => ret (Some ("ERROR: Could not parse compose file: " +:+ e))
    | WalkRaises => ret None
    | PortMappings ports =>
        let ports_to_check := ports_to_check ports in
        if negb (Py.nonempty ports_to_check) then
          ret (Some "No port mappings found in compose file.")
        else
          let* found := for_each ports_to_check ([], []) probe in
          ret (Some (conflict_report (fst found) (snd found)))
    end.

End Tools.

End MonitoringTools.

(** ** The other activities: [temporal/activities.py]

    Every activity hands its input to one tool.  The heart beats and the
    log lines are left out. *)

Module Activities.

Section Activities.

Context {World : Type} (host : Host World) (lib : PyLib).

Definition validate_compose_activity (file_path : string) : M World string :=
  ComposeTools.compose_validate host file_path.

Definition backup_compose_activity (input : BackupInput) : M World string :=
  ComposeTools.backup_compose_file host (bi_file_path input).

Definition detect_conflicts_activity (file_path : string) : M World (option string) :=
  MonitoringTools.detect_port_conflicts host lib file_path.

Definition deploy_compose_activity (input : ComposeInput) : M World string :=
  ComposeTools.compose_up host (ci_file_path input) (ci_build input) (ci_detach input).

Definition teardown_compose_activity (input : ComposeInput) : M World string :=
  ComposeTools.compose_down host (ci_file_path input) false.

Definition health_check : M World HealthCheckResult :=
  health_check_activity (DockerTools.health_check_all host).

Definition send_notification_activity (message : string) : M World string :=
  ret ("Notification sent: " +:+ message).

End Activities.

End Activities.

(** ** Vocabulary of the properties *)

Import Compiler.

(** *** Reports *)

(** The eight checks, in the order the report lists them. *)
Definition check_names : list string :=
  [ "Container Running Test"; "Health Check Test"; "Port Binding Test";
    "Connectivity Test"; "Volume Mount Test"; "Environment Variable Test";
    "Log Output Test"; "Resource Baseline Test" ].

Definition tag_eqb (t u : Tag) : bool :=
  match t, u with
  | TEST, TEST | PASS, PASS | WARN, WARN | FAIL, FAIL => true
  | _, _ => false
  end.

Definition bump (t : Tag) (st : TestState) : TestState :=
  match t with
  | PASS => incr_pass st
  | WARN => incr_warn st
  | FAIL => incr_fail st
  | TEST => st
  end.

(** [st'] is [st] after the check [name] recorded one verdict: one line
    with a status, and the counter of that status one higher. *)
Definition recorded (name : string) (st st' : TestState) : Prop :=
  exists t detail,
    t <> TEST /\ st' = bump t (append_line (mkLine t (name +:+ detail)) st).

Inductive recorded_all : list string -> TestState -> TestState -> Prop :=
| recorded_nil st : recorded_all [] st st
| recorded_cons name names st st1 st2 :
    recorded name st st1 -> recorded_all names st1 st2 ->
    recorded_all (name :: names) st st2.

(** A line that carries the verdict of the check [name]. *)
Definition is_check_line (name : string) (l : Line) : Prop :=
  tag l <> TEST /\ exists detail, body l = name +:+ detail.

Definition count_status (t : Tag) (checks : list Line) : nat :=
  length (List.filter (fun l => tag_eqb (tag l) t) checks).

(** The statuses of a report, in order. *)
Definition statuses (st : TestState) : list Tag :=
  List.filter (fun t => negb (tag_eqb t TEST)) (map tag (report_lines st)).

Inductive Verdict : Type := SUCCESSFUL | ACCEPTED_WITH_WARNINGS | FAILED.

Definition verdict_text (v : Verdict) : string :=
  match v with
  | SUCCESSFUL => "SUCCESSFUL"
  | ACCEPTED_WITH_WARNINGS => "ACCEPTED WITH WARNINGS"
  | FAILED => "FAILED — rollback recommended"
  end.

Definition verdict_of_counts (wn f : nat) : Verdict :=
  if (0 <? f)%nat then FAILED
  else if (0 <? wn)%nat then ACCEPTED_WITH_WARNINGS
  else SUCCESSFUL.

(** The four lines that close a report. *)
Definition footer_lines (p wn f : nat) (verdict : string) : list Line :=
  [ mkLine TEST "─────────────────────────────────────";
    mkLine TEST ("Result: " +:+ Py.str_of_nat p +:+ " PASS / " +:+ Py.str_of_nat wn
                   +:+ " WARN / " +:+ Py.str_of_nat f +:+ " FAIL");
    mkLine TEST ("Deployment: " +:+ verdict);
    mkLine TEST "━━━━━━━━━━━━━━━━━━━━━━━━━━━━━━━━━━━━" ].

(** The services named in the head of the report: those the caller
    expects or, without any, those of the listing, which must all be
    texts for the head to be printed. *)
Definition expected_of (expected_services : string) (listed : list (option string))
  : PyExn + list string :=
  text_items
    (if Py.truthy expected_services
     then map Some (map Py.strip (Py.split "," expected_services))
     else listed).

(** *** Runs *)

Definition events_of {World A : Type} (r : Outcome A * list Event * World) : list Event :=
  snd (fst r).

Definition outcome_of {World A : Type} (r : Outcome A * list Event * World) : Outcome A :=
  fst (fst r).

Definition message_of {World : Type} (r : Outcome string * list Event * World) : string :=
  match outcome_of r with
  | Finished message => message
  | Aborted => EmptyString
  end.

Definition starts_child (e : Event) : bool :=
  match e with
  | ChildRun _ _ _ _ => true
  | _ => false
  end.

(** How often a run called the activity [name]. *)
Definition called (name : string) (events : list Event) : nat :=
  length (List.filter
            (fun e => match e with
                      | ActivityCalled activity _ _ _ => String.eqb activity name
                      | _ => false
                      end) events).

(** The retry policies with which a run called the activity [name]. *)
Definition policies (name : string) (events : list Event) : list (option RetryPolicy) :=
  flat_map
    (fun e =>
       match e with
       | ActivityCalled activity _ options _ =>
           if String.eqb activity name then [retry_policy options] else []
       | _ => []
       end)
    events.

(** Every call of [name] carries a retry policy of [attempts] attempts. *)
(** The keyword arguments with which a run called the activity [name]:
    its time-outs (in seconds) and its retry policy. *)
Definition options_of (name : string) (events : list Event) : list ActivityOptions :=
  flat_map
    (fun e =>
       match e with
       | ActivityCalled activity _ options _ =>
           if String.eqb activity name then [options] else []
       | _ => []
       end)
    events.

Definition retries_capped (attempts : Z) (name : string) (events : list Event) : Prop :=
  forall p, In p (policies name events) -> p = Some (mkRetryPolicy attempts).

(** *** Rollback *)

(** [n] is a backup of [l] that none of [l] is newer than. *)
Definition is_newest (n : BackupRecord) (l : list BackupRecord) : Prop :=
  In n l /\ forall b, In b l -> (st_mtime b <= st_mtime n)%Z.

Definition no_backup_message : string := "ROLLBACK FAILED: No backup file found".

Definition teardown_options : ActivityOptions := mkOptions 120 None None.

Definition notify_options : ActivityOptions := mkOptions 10 None None.

(** *** The health monitor as the specification words it

    An observer of the events of a monitor run.  It holds the counter of
    consecutive failures and what the loop owes next: a health check, the
    alert for the first failure of a streak, the diagnosis after the third
    one, the notice that carries the diagnosis, the timer between two
    checks, or nothing more once a call has failed for good. *)

Inductive Owed : Type :=
| HealthCheck (counter : nat)
| Alert (failing : HealthCheckResult)
| Diagnosis (failing : HealthCheckResult)
| DiagnosisNotice (analysis : string)
| Timer (counter : nat)
| Nothing.

Definition is_text (a : Arg) (text : string) : bool :=
  match a with
  | StrArg s => String.eqb s text
  | _ => false
  end.

Definition alert_text (failing : HealthCheckResult) : string :=
  "HEALTH ALERT: Unhealthy containers detected!" +:+ String "010" EmptyString
    +:+ Py.take 300 (report failing).

Definition diagnosis_prompt (failing : HealthCheckResult) : string :=
  "Analyze these health check results and diagnose the issue:" +:+ String "010" EmptyString
    +:+ report failing.

Definition diagnosis_text (analysis : string) : string :=
  "AI DIAGNOSIS after 3 failures:" +:+ String "010" EmptyString +:+ Py.take 400 analysis.

(** One event against what is owed: [None] when the event is not the
    owed one. *)
Definition observe (owed : Owed) (e : Event) : option Owed :=
  match owed, e with
  | HealthCheck counter, HealthChecked _ (Some result) =>
      if has_failures result then
        let counter := (counter + 1)%nat in
        if (counter =? 1)%nat then Some (Alert result)
        else if (counter =? 3)%nat then Some (Diagnosis result)
        else Some (Timer counter)
      else Some (Timer 0)
  | HealthCheck _, HealthChecked _ None => Some Nothing
  | Alert failing, ActivityCalled name a _ answer =>
      if String.eqb name "send_notification" && is_text a (alert_text failing)
      then Some (match answer with Some _ => Timer 1 | None => Nothing end)
      else None
  | Diagnosis failing, ActivityCalled name a _ answer =>
      if String.eqb name "agent_analyze" && is_text a (diagnosis_prompt failing)
      then Some (match answer with
                 | Some analysis => DiagnosisNotice analysis
                 | None => Nothing
                 end)
      else None
  | DiagnosisNotice analysis, ActivityCalled name a _ answer =>
      if String.eqb name "send_notification" && is_text a (diagnosis_text analysis)
      then Some (match answer with Some _ => Timer 0 | None => Nothing end)
      else None
  | Timer counter, Slept _ => Some (HealthCheck counter)
  | _, _ => None
  end.

Fixpoint observe_all (owed : Owed) (events : list Event) : option Owed :=
  match events with
  | [] => Some owed
  | e :: events' =>
      match observe owed e with
      | Some owed' => observe_all owed' events'
      | None => None
      end
  end.

Definition health_checks (events : list Event) : nat :=
  length (List.filter (fun e => match e with HealthChecked _ _ => true | _ => false end)
            events).

(** A monitor run that started with [failure_count] failures counted and
    [fuel] checks to go did what the observer expects. *)
Definition monitor_accepted {World : Type} (failure_count fuel : nat)
    (r : Outcome (option string) * list Event * World) : Prop :=
  match outcome_of r with
  | Finished message =>
      message = Some "HealthMonitorWorkflow completed: 1440 checks performed"
      /\ (exists counter, observe_all (HealthCheck failure_count) (events_of r)
                          = Some (HealthCheck counter))
      /\ health_checks (events_of r) = fuel
  | Aborted => observe_all (HealthCheck failure_count) (events_of r) = Some Nothing
  end.

(** *** Deployment plans *)

Definition stage_of (svc : ServiceSpec) : Z := stage_of_role (info_role (service_info svc)).

(** The names of the services of one stage, in input order. *)
Definition names_at (stage : Z) (svc_list : list ServiceSpec) : list string :=
  map name_of (List.filter (fun svc => (stage_of svc =? stage)%Z) svc_list).

(** The keys of the [depends_on] entry of a compiled service. *)
Definition dependencies (d : ServiceDef) : list string :=
  match sd_depends_on d with
  | Some deps => PyDict.keys deps
  | None => []
  end.

(** The stage of a compiled service, read off its image. *)
Definition plan_stage (d : ServiceDef) : Z :=
  stage_of_role (_detect_service_role (sd_image d) (_detect_service_type (sd_image d))).

Definition stage_label (svc : ServiceSpec) : string :=
  Py.str_of_Z (stage_of svc) +:+ "-" +:+ info_role (service_info svc).

(** What inference gives a service of the list, by its stage. *)
Definition inferred (svc_list : list ServiceSpec) (svc : ServiceSpec) : list string :=
  if (stage_of svc =? 2)%Z then names_at 1 svc_list
  else if (stage_of svc =? 3)%Z then
    if Py.nonempty (names_at 2 svc_list) then names_at 2 svc_list
    else names_at 1 svc_list
  else [].

(** The dependencies the specification gives a service: its own list
    when it brought one, the inferred ones otherwise. *)
Definition claimed_dependencies (svc_list : list ServiceSpec) (svc : ServiceSpec)
  : list string :=
  match spec_depends_on svc with
  | Some explicit => explicit
  | None => inferred svc_list svc
  end.

(** No service of a plan depends on a service of its own or a later stage. *)
Definition stage_monotonic (c : Compose) : Prop :=
  forall name d dep d',
    PyDict.get name (services c) = Some d ->
    In dep (dependencies d) ->
    PyDict.get dep (services c) = Some d' ->
    (plan_stage d' < plan_stage d)%Z.

(** The [depends_on] entry pass 2 gives a service. *)
Definition depends_field (auto_deps : gmap string (list string)) (svc : ServiceSpec)
  : option (list (string * string)) :=
  if Py.nonempty (default [] (spec_depends_on svc))
  then Some (healthy_conditions (default [] (spec_depends_on svc)))
  else match auto_deps !! name_of svc with
       | Some deps => Some (healthy_conditions deps)
       | None => None
       end.

(** Adding volumes leaves the rest of a definition alone. *)
Definition same_but_volumes (d d' : ServiceDef) : Prop :=
  sd_image d' = sd_image d /\ sd_depends_on d' = sd_depends_on d
  /\ sd_labels d' = sd_labels d.

(** Pass 2 of [compose_generate] from any intermediate [compose]. *)
Definition pass2 (timestamp : string) (auto_deps : gmap string (list string))
    (svc_list : list ServiceSpec)
    (compose : list (string * ServiceDef) * list (string * string))
  : list (string * ServiceDef) * list (string * string) :=
  fold_left
    (fun compose entry => build_service timestamp auto_deps (fst entry) (snd entry) compose)
    (combine svc_list (map service_info svc_list)) compose.


(** *** Checks *)

(** The state after a check recorded the status [t] with the text
    [detail]: one more line, and the counter of [t] one higher. *)
Definition record (name : string) (verdict : Tag * string) (st : TestState) : TestState :=
  bump (fst verdict) (append_line (mkLine (fst verdict) (name +:+ snd verdict)) st).

(** The state after the checks [names] recorded [verdicts], in order. *)
Definition record_all (names : list string) (verdicts : list (Tag * string))
    (st : TestState) : TestState :=
  fold_left (fun st entry => record (fst entry) (snd entry) st) (combine names verdicts) st.

(** The statuses each of the eight checks can record. *)
Definition possible_statuses : list (list Tag) :=
  [ [PASS; FAIL]; [PASS; WARN; FAIL]; [PASS; WARN; FAIL]; [PASS; WARN];
    [PASS; WARN]; [PASS; WARN]; [PASS; WARN]; [PASS; WARN] ].

(** The command that lists the running containers of a compose file. *)
Definition running_command (file_path : string) : list string :=
  ["docker"; "compose"; "-f"; file_path; "ps"; "--status"; "running"; "--format"; "{{.Name}}"].

(** Whenever docker is asked for the health of [container], its answer
    reads [status] once stripped. *)
Definition health_reads {World : Type} (rt : Runtime World) (container status : string)
  : Prop :=
  forall w,
    Py.strip (stdout (fst (_run_cmd rt ["docker"; "inspect"; "--format"; health_format;
                                        container] 60 w))) = status.

(** Whenever docker is asked for the health of [container], its answer
    is none of the three the engine waits for. *)
Definition health_never_settles {World : Type} (rt : Runtime World) (container : string)
  : Prop :=
  forall w,
    let status :=
      Py.strip (stdout (fst (_run_cmd rt ["docker"; "inspect"; "--format"; health_format;
                                          container] 60 w))) in
    Py.mem status ["healthy"; "no healthcheck"; "unhealthy"] = false.

(** *** Volumes of a plan *)

(** The volume a mapping [name:path] names: the text before its first
    colon, unless that is a path of the host. *)
Definition named_volume (v : string) : option string :=
  if Py.contains ":" v then
    let vol_name := hd "" (Py.split ":" v) in
    if negb (Py.startswith vol_name "/") && negb (Py.startswith vol_name ".")
    then Some vol_name else None
  else None.

(** The plan declares the volume under its top-level [volumes]. *)
Definition declared (c : Compose) (vol_name : string) : Prop :=
  exists vols, volumes c = Some vols /\ PyDict.get vol_name vols = Some "local".

(** The runtime [rt] with a clock of the seconds spent in [time.sleep]:
    the same answers, and the world paired with the seconds so far. *)
Definition timed {World : Type} (rt : Runtime World) : Runtime (World * Z) :=
  mkRuntime (World * Z)
    (fun cmd timeout s =>
       let (ran, w) := subprocess_run rt cmd timeout (fst s) in (ran, (w, snd s)))
    (fun port s => let (code, w) := connect_ex rt port (fst s) in (code, (w, snd s)))
    (fun s => let (now, w) := time_time rt (fst s) in (now, (w, snd s)))
    (fun seconds s =>
       let (u, w) := time_sleep rt seconds (fst s) in (u, (w, (snd s + seconds)%Z)))
    (fun fmt s => let (text, w) := now_strftime rt fmt (fst s) in (text, (w, snd s))).

(** The volumes the definition [d] names are among the keys of [named],
    the [volumes] section built so far. *)
Definition volumes_declared (d : ServiceDef) (named : list (string * string)) : Prop :=
  forall v vol_name,
    In v (default [] (sd_volumes d)) -> named_volume v = Some vol_name ->
    PyDict.get vol_name named = Some "local".

(** What pass 2 keeps from one service to the next: every service built
    so far has its named volumes declared. *)
Definition plan_declares (compose : list (string * ServiceDef) * list (string * string))
  : Prop :=
  forall name d, PyDict.get name (fst compose) = Some d -> volumes_declared d (snd compose).

(** The definition [d] mounts a volume at [path]: one of its volume
    entries reads [path] between its first and its second colon, which is
    where the compiler itself looks for the mount path of an entry. *)
Definition mounted_at (d : ServiceDef) (path : string) : Prop :=
  exists v,
    In v (default [] (sd_volumes d))
    /\ Py.contains ":" v = true
    /\ nth 1 (Py.split ":" v) "" = path.

(** *** Tools *)

(** The host [host] with a record of the commands it was asked to run:
    the same answers, and the world paired with the commands so far. *)
Definition recording {World : Type} (host : Host World) : Host (World * list (list string)) :=
  mkHost (World * list (list string))
    (fun cmd timeout s =>
       let (ran, w) := run_process host cmd timeout (fst s) in (ran, (w, snd s ++ [cmd])))
    (fun p s => let (found, w) := os_path_exists host p (fst s) in (found, (w, snd s)))
    (fun src dst s =>
       let (raised, w) := shutil_copy2 host src dst (fst s) in (raised, (w, snd s)))
    (fun fmt s => let (text, w) := datetime_now host fmt (fst s) in (text, (w, snd s)))
    (path_stem host)
    (backups_dir host)
    (fun p s => let (loaded, w) := yaml_ports host p (fst s) in (loaded, (w, snd s)))
    (fun h port timeout s =>
       let (code, w) := sock_connect_ex host h port timeout (fst s) in (code, (w, snd s))).

(** The commands a tool runs from the world [w]. *)
Definition commands_of {World A : Type} (tool : M (World * list (list string)) A) (w : World)
  : list (list string) :=
  snd (snd (tool (w, []))).

(** The test [DeployWorkflow] applies to the answers of its validate and
    deploy steps. *)
Definition reads_as_failed (answer : string) : bool :=
  Py.contains "ERROR" answer || Py.contains "FAILED" answer.

(** The compose file passes [compose_validate]: it exists and
    [docker compose config] exits with 0. *)
Definition validates {World : Type} (host : Host World) (file_path : string) (w : World)
  : bool :=
  let (found, w1) := os_path_exists host file_path w in
  found
  && success (outcome (fst (ComposeTools._run_compose host
                              ["docker"; "compose"; "-f"; file_path; "config"] w1))).

(** The configuration [docker compose config] prints for the file. *)
Definition resolved_configuration {World : Type} (host : Host World) (file_path : string)
    (w : World) : string :=
  stdout (outcome (fst (ComposeTools._run_compose host
                          ["docker"; "compose"; "-f"; file_path; "config"]
                          (snd (os_path_exists host file_path w))))).

(** How far [compose_up] gets: the file is missing; [config -q] rejects
    it; [up] fails; or the services are started. *)
Inductive UpStage : Type :=
| NotFound
| NotValidated (validate_result : RunResult)
| NotStarted (result : RunResult)
| Started.

Definition up_command (file_path : string) (build detach : bool) : list string :=
  ["docker"; "compose"; "-f"; file_path; "up"]
    ++ (if build then ["--build"] else []) ++ (if detach then ["-d"] else []).

Definition up_stage {World : Type} (host : Host World) (file_path : string)
    (build detach : bool) (w : World) : UpStage :=
  let (found, w1) := os_path_exists host file_path w in
  if negb found then NotFound
  else
    let (validate_result, w2) :=
      ComposeTools._run_compose host ["docker"; "compose"; "-f"; file_path; "config"; "-q"]
        w1 in
    if negb (success (outcome validate_result)) then NotValidated validate_result
    else
      let (result, w3) :=
        ComposeTools._run_compose host (up_command file_path build detach) w2 in
      if success (outcome result) then Started else NotStarted result.

(** [backup_compose_file] copied the file. *)
Definition backup_made {World : Type} (host : Host World) (file_path : string) (w : World)
  : bool :=
  let (found, w1) := os_path_exists host file_path w in
  let (timestamp, w2) := datetime_now host "%Y%m%d_%H%M%S" w1 in
  let backup_path :=
    backups_dir host (path_stem host file_path +:+ "_backup_" +:+ timestamp +:+ ".yml") in
  found
  && match fst (shutil_copy2 host file_path backup_path w2) with
     | None => true
     | Some _ => false
     end.

(** The host ports [detect_port_conflicts] probes for the file. *)
Definition checked_ports {World : Type} (host : Host World) (lib : PyLib)
    (file_path : string) (w : World) : list (string * Z) :=
  let (found, w1) := os_path_exists host file_path w in
  if found then
    match fst (yaml_ports host file_path w1) with
    | PortMappings ports => MonitoringTools.ports_to_check lib ports
    | _ => []
    end
  else [].

(** The port accepts a connection from the host, whenever it is tried. *)
Definition in_use {World : Type} (host : Host World) (port : Z) : Prop :=
  forall w, fst (sock_connect_ex host "127.0.0.1" port 2 w) = Some 0%Z.

(** The listing [health_check_all] asks docker for, and its lines when
    docker gave one. *)
Definition ps_command : list string := ["docker"; "ps"; "--format"; DockerTools.ps_format].

Definition listed {World : Type} (host : Host World) (w : World) : list string :=
  let result := outcome (fst (DockerTools._run_docker host ps_command w)) in
  if success result && Py.truthy (stdout result)
  then Py.split DockerTools.newline (Py.strip (stdout result))
  else [].

(** Whenever docker is asked, it reports the health [status] for the
    container [cid]. *)
Definition reports_health {World : Type} (host : Host World) (cid status : string) : Prop :=
  forall w,
    exists err w',
      run_process host ["docker"; "inspect"; "--format"; health_format; cid] 120 w
      = (Exited 0 (status +:+ DockerTools.newline) err, w').

Definition validate_options : ActivityOptions := mkOptions 30 None (Some (mkRetryPolicy 2)).

(** The notification a deploy run sends for the message [msg]. *)
Definition notified (msg : string) (sent : option string) : Event :=
  ActivityCalled "send_notification" (StrArg (Py.take 500 msg)) notify_options sent.

(** The outcome of a run that ends with the notification of [msg]. *)
Definition ended_with (msg : string) (sent : option string) : Outcome string :=
  match sent with
  | Some _ => Finished msg
  | None => Aborted
  end.

(** A call that got no answer: it failed for good. *)
Definition unanswered (e : Event) : bool :=
  match e with
  | ActivityCalled _ _ _ None | HealthChecked _ None | ChildRun _ _ _ None => true
  | _ => false
  end.

Definition is_listing (e : Event) : bool :=
  match e with
  | Globbed _ _ => true
  | _ => false
  end.

(** The arguments with which a run called the activity [name]. *)
Definition arguments (name : string) (events : list Event) : list Arg :=
  flat_map
    (fun e =>
       match e with
       | ActivityCalled activity a _ _ => if String.eqb activity name then [a] else []
       | _ => []
       end)
    events.

(** ** Concrete surroundings for the scenarios *)

Module Scenario.

Definition newline : string := String "010" EmptyString.

Definition tab : string := String "009" EmptyString.

Definition quote : string := String "034" EmptyString.

(** Stand-ins for [int] and [float] that read plain decimal numerals. *)
Fixpoint digits_value (s : string) (acc : Z) : option Z :=
  match s with
  | EmptyString => Some acc
  | String c s' =>
      match Ascii.is_nat c with
      | Some d => digits_value s' (10 * acc + Z.of_nat d)%Z
      | None => None
      end
  end.

Definition read_int (s : string) : option Z :=
  if Py.truthy s then digits_value s 0 else None.

Record Decimal : Type := mkDecimal { numeral : string; digits : Z; scale : nat }.

Definition read_decimal (s : string) : option Decimal :=
  match Py.split "." s with
  | [whole] => option_map (fun n => mkDecimal s n 0) (read_int whole)
  | [whole; fraction] =>
      option_map (fun n => mkDecimal s n (String.length fraction))
                 (read_int (whole +:+ fraction))
  | _ => None
  end.

Definition decimal_gt (d : Decimal) (n : Z) : bool :=
  (n * 10 ^ Z.of_nat (scale d) <? digits d)%Z.

(** Stand-in for the JSON reader on one line of the service listing: an
    object whose first key is [Name], an array, or anything else. *)
Definition name_key : string := "{" +:+ quote +:+ "Name" +:+ quote +:+ ":" +:+ quote.

Definition read_ps_line (line : string) : PsLine :=
  if Py.startswith line name_key
  then NameOf (hd EmptyString (Py.split quote (Py.replace name_key EmptyString line)))
  else if Py.startswith line "[" then NotAnObject
  else JSONDecodeError.

Definition lib : PyLib :=
  mkPyLib Decimal read_decimal decimal_gt numeral read_int read_ps_line.

Definition arg (i : nat) (cmd : list string) : string := nth i cmd EmptyString.

(** One container, [shop-web-1], publishing port 8080, without mounts;
    [health] is the status its health check reports. *)
Definition docker_run (health : string) (cmd : list string) : Completed :=
  if String.eqb (arg 1 cmd) "compose" then
    if String.eqb (arg 6 cmd) "json"
    then CompletedProcess 0 (name_key +:+ "shop-web-1" +:+ quote +:+ "}") EmptyString
    else CompletedProcess 0 ("shop-web-1" +:+ newline) EmptyString
  else if String.eqb (arg 1 cmd) "inspect" then
    if String.eqb (arg 3 cmd) health_format
    then CompletedProcess 0 (health +:+ newline) EmptyString
    else CompletedProcess 0 EmptyString EmptyString
  else if String.eqb (arg 1 cmd) "port" then
    CompletedProcess 0 "80/tcp -> 0.0.0.0:8080" EmptyString
  else if String.eqb (arg 1 cmd) "exec" then
    CompletedProcess 0 ("PATH=/usr/bin" +:+ newline +:+ "HOME=/root") EmptyString
  else if String.eqb (arg 1 cmd) "logs" then
    CompletedProcess 0 "listening on port 80" EmptyString
  else if String.eqb (arg 1 cmd) "stats" then
    CompletedProcess 0 ("0.15%" +:+ tab +:+ "1.20%") EmptyString
  else CompletedProcess 1 EmptyString "unknown command".

Definition docker (health : string) : Runtime unit :=
  mkRuntime unit
    (fun cmd _ w => (docker_run health cmd, w))
    (fun port w => (Some (if (port =? 8080)%Z then 0%Z else 111%Z), w))
    (fun w => (1736917200%Z, w))
    (fun _ w => (tt, w))
    (fun _ w => ("2025-01-15 10:30:00", w)).

(** A runtime in which every command succeeds and prints nothing: no
    container at all. *)
Definition empty_docker : Runtime unit :=
  mkRuntime unit
    (fun _ _ w => (CompletedProcess 0 EmptyString EmptyString, w))
    (fun _ w => (None, w))
    (fun w => (1736917200%Z, w))
    (fun _ w => (tt, w))
    (fun _ w => ("2025-01-15 10:30:00", w)).

Definition the_file : string := "compose_files/shop.yml".

Definition the_backup : string := "backups/shop_backup_20250114_180000.yml".

Definition torn_down : string :=
  "✓ Services torn down successfully from '" +:+ the_file +:+ "'.".

(** The worker: every step but the verification answers with the text
    the wrapped tool prints on success; the verification step runs the
    engine against the container above. *)
Definition answer_of (health name : string) (a : Arg) : option string :=
  if String.eqb name "validate_compose" then
    Some ("✓ Compose file '" +:+ the_file +:+ "' is valid." +:+ newline +:+ newline
            +:+ "Resolved configuration:" +:+ newline +:+ "name: shop")
  else if String.eqb name "backup_compose" then
    Some ("✓ Backup created: backups/shop_backup_20250115_103000.yml")
  else if String.eqb name "detect_conflicts" then
    Some "No port mappings found in compose file."
  else if String.eqb name "deploy_compose" then
    Some ("✓ Services deployed successfully from '" +:+ the_file +:+ "'.")
  else if String.eqb name "teardown_compose" then Some torn_down
  else if String.eqb name "run_tests" then
    match a with
    | TestArg input =>
        match fst (run_tests_activity (docker health) lib input tt) with
        | inr text => Some text
        | inl _ => None
        end
    | _ => None
    end
  else if String.eqb name "agent_analyze" then Some "Restart the web container."
  else if String.eqb name "send_notification" then
    match a with
    | StrArg message => Some ("Notification sent: " +:+ message)
    | _ => None
    end
  else None.

(** The substrate: [health] as above, [backups] the listing of the
    backup directory, [checks] the health reports the monitor gets; the
    world counts the health checks made so far. *)
Definition substrate (health : string) (backups : option (list BackupRecord))
    (checks : nat -> string) : Substrate nat :=
  mkSubstrate nat
    (fun name a _ w => (answer_of health name a, w))
    (fun _ w => (Some (fst (health_check_activity (fun w' => (checks w, w')) tt)), S w))
    (fun _ w => (backups, w))
    (fun _ w => w).

Definition no_checks (_ : nat) : string := EmptyString.

(** Three failing health checks, then healthy ones. *)
Definition three_failures (n : nat) : string :=
  if (n <? 3)%nat then "  shop-web-1: status=Up 2 minutes (unhealthy), health=unhealthy"
  else "  shop-web-1: status=Up 9 minutes (healthy), health=healthy".

(** Three backups; the two newest are equally old. *)
Definition three_backups : list BackupRecord :=
  [ mkBackup "backups/shop_backup_20250113_090000.yml" 1736739000;
    mkBackup the_backup 1736857800;
    mkBackup "backups/shop_backup_copy.yml" 1736857800 ].

(** A deploy run whose deployment comes up with an unhealthy container. *)
Definition failed_health_run : Outcome string * list Event * nat :=
  run_deploy (substrate "unhealthy" None no_checks) "deploy-20250115-103000-a1b2c3"
    the_file 0.

(** A rollback run whose backup comes up with an unhealthy container. *)
Definition failed_backup_run : Outcome string * list Event * nat :=
  run_rollback (substrate "unhealthy" None no_checks)
    (mkRollbackInput the_file the_backup) 0.

(** A deploy run in which every check passes. *)
Definition clean_run : Outcome string * list Event * nat :=
  run_deploy (substrate "healthy" None no_checks) "deploy-20250115-103000-a1b2c3"
    the_file 0.

Definition service (name image : string) (depends_on : option (list string)) : ServiceSpec :=
  mkSpec (Some name) (Some image) None None None None depends_on None None.

Definition the_time : string := "2025-01-15T10:30:00".

(** A database told to wait for the proxy. *)
Definition database_on_proxy : list ServiceSpec :=
  [ service "db" "postgres:15" (Some ["web"]); service "web" "nginx:latest" None ].

Definition three_tiers : list ServiceSpec :=
  [ service "cache" "redis:7" None; service "api" "myorg/backend:1.4" None;
    service "web" "nginx:latest" None ].

(** A backend that brings an empty dependency list of its own. *)
Definition opted_out : list ServiceSpec :=
  [ service "db" "postgres:15" None; service "api" "python:3.12" (Some []) ].



End Scenario.

(** ** Concrete hosts for the scenarios *)

Module Cases.

Definition newline : string := String "010" EmptyString.

(** A host on which exactly the files of [files] exist, docker answers
    by [docker], the ports of [busy] accept connections, and the compose
    file maps the ports [mappings]. *)
Definition host (files : list string) (docker : list string -> Ran) (busy : list Z)
    (mappings : Mappings) : Host unit :=
  mkHost unit
    (fun cmd _ w => (docker cmd, w))
    (fun p w => (Py.mem p files, w))
    (fun _ _ w => (None, w))
    (fun _ w => ("20250115_103000", w))
    (fun _ => "shop")
    (fun backup_name => "backups/" +:+ backup_name)
    (fun _ w => (mappings, w))
    (fun _ port _ w =>
       (Some (if existsb (Z.eqb port) busy then 0%Z else 111%Z), w)).

(** The worker over a host: every step runs its activity; the
    verification step answers [tests]. *)
Definition worker (host : Host unit) (tests : string) : Substrate unit :=
  mkSubstrate unit
    (fun name a _ w =>
       (if String.eqb name "validate_compose" then
          match a with
          | StrArg p => Some (fst (Activities.validate_compose_activity host p tt))
          | _ => None
          end
        else if String.eqb name "backup_compose" then
          match a with
          | BackupArg input => Some (fst (Activities.backup_compose_activity host input tt))
          | _ => None
          end
        else if String.eqb name "detect_conflicts" then
          match a with
          | StrArg p => fst (Activities.detect_conflicts_activity host Scenario.lib p tt)
          | _ => None
          end
        else if String.eqb name "deploy_compose" then
          match a with
          | ComposeArg input => Some (fst (Activities.deploy_compose_activity host input tt))
          | _ => None
          end
        else if String.eqb name "teardown_compose" then
          match a with
          | ComposeArg input =>
              Some (fst (Activities.teardown_compose_activity host input tt))
          | _ => None
          end
        else if String.eqb name "run_tests" then Some tests
        else if String.eqb name "agent_analyze" then Some "Restart the web container."
        else if String.eqb name "send_notification" then
          match a with
          | StrArg message =>
              Some (fst (Activities.send_notification_activity (World := unit) message tt))
          | _ => None
          end
        else None, w))
    (fun _ w => (Some (fst (Activities.health_check host tt)), w))
    (fun _ w => (None, w))
    (fun _ w => w).

(** Docker on a host where [docker compose config] rejects the file. *)
Definition rejecting (cmd : list string) : Ran :=
  if Py.mem "config" cmd
  then Exited 15 EmptyString "services.web.ports must be a list"
  else Exited 0 EmptyString EmptyString.

(** Docker on a host where the resolved configuration holds a log level. *)
Definition log_level (cmd : list string) : Ran :=
  if Py.mem "config" cmd
  then Exited 0 ("services:" +:+ newline +:+ "  web:" +:+ newline
                   +:+ "    environment:" +:+ newline +:+ "      LOG_LEVEL: ERROR")
         EmptyString
  else Exited 0 EmptyString EmptyString.

(** Docker on a host where [docker compose config -q] times out. *)
Definition slow_validation (cmd : list string) : Ran :=
  if Py.mem "-q" cmd then TimeoutExpired else Exited 0 EmptyString EmptyString.

(** Docker on a host where [docker compose up] fails. *)
Definition failing_up (cmd : list string) : Ran :=
  if Py.mem "up" cmd
  then Exited 1 EmptyString "pull access denied for shop/web"
  else Exited 0 EmptyString EmptyString.

(** A host whose backup directory cannot be written. *)
Definition read_only (files : list string) : Host unit :=
  mkHost unit
    (fun _ _ w => (Exited 0 EmptyString EmptyString, w))
    (fun p w => (Py.mem p files, w))
    (fun _ dst w => (Some ("[Errno 30] Read-only file system: '" +:+ dst +:+ "'"), w))
    (fun _ w => ("20250115_103000", w))
    (fun _ => "shop")
    (fun backup_name => "backups/" +:+ backup_name)
    (fun _ w => (PortMappings [], w))
    (fun _ _ _ w => (Some 111%Z, w)).

Definition quiet (cmd : list string) : Ran := Exited 0 EmptyString EmptyString.

Definition workflow_id : string := "deploy-20250115-103000-a1b2c3".

(** The compose file is missing. *)
Definition no_file : Host unit := host [] quiet [] (PortMappings []).

(** The compose file exists and docker answers by [docker]. *)
Definition with_docker (docker : list string -> Ran) : Host unit :=
  host [Scenario.the_file] docker [] (PortMappings []).

(** The compose file publishes the web server on host port 8080, which
    another process holds. *)
Definition port_taken : Host unit :=
  host [Scenario.the_file] quiet [8080%Z]
    (PortMappings [("web", "8080:80"); ("db", "5432")]).

(** Docker with one container, whose health check fails. *)
Definition unhealthy_web (cmd : list string) : Ran :=
  if Py.mem "ps" cmd
  then Exited 0 ("3f2a9c1b7d10" +:+ DockerTools.tab +:+ "shop-web-1" +:+ DockerTools.tab
                   +:+ "Up 2 minutes" +:+ newline) EmptyString
  else if Py.mem "inspect" cmd then Exited 0 ("unhealthy" +:+ newline) EmptyString
  else Exited 1 EmptyString "unknown command".

(** Docker with one container, [error-pages], whose health check passes. *)
Definition healthy_error_pages (cmd : list string) : Ran :=
  if Py.mem "ps" cmd
  then Exited 0 ("9c41d07be2a5" +:+ DockerTools.tab +:+ "error-pages" +:+ DockerTools.tab
                   +:+ "Up 3 hours" +:+ newline) EmptyString
  else if Py.mem "inspect" cmd then Exited 0 ("healthy" +:+ newline) EmptyString
  else Exited 1 EmptyString "unknown command".

(** Docker whose daemon does not answer. *)
Definition daemon_down (cmd : list string) : Ran :=
  Exited 1 EmptyString "Cannot connect to the Docker daemon".

(** A cache that brings a volume of its own next to the default one. *)
Definition cache_with_volume : list ServiceSpec :=
  [ mkSpec (Some "cache") (Some "redis:7") None None (Some ["cache_conf:/etc/redis"])
      None None None None ].

(** Two containers: [shop-db], healthy, and [db], whose health check
    never gets past [starting]. *)
Definition starting_db : Runtime unit :=
  mkRuntime unit
    (fun cmd _ w =>
       (if Py.mem "shop-db" cmd then CompletedProcess 0 ("healthy" +:+ newline) EmptyString
        else CompletedProcess 0 ("starting" +:+ newline) EmptyString, w))
    (fun _ w => (None, w))
    (fun w => (1736917200%Z, w))
    (fun _ w => (tt, w))
    (fun _ w => ("2025-01-15 10:30:00", w)).

(** The report of the engine on the container of [Scenario.docker]. *)
Definition report_of (health : string) : string :=
  match fst (run_post_deploy_tests (Scenario.docker health) Scenario.lib Scenario.the_file
               EmptyString tt) with
  | inr text => text
  | inl _ => EmptyString
  end.

Definition a_report : string :=
  "[2025-01-15 10:30:00] [TEST] Result: 8 PASS / 0 WARN / 0 FAIL".

End Cases.

(** * Properties *)

(** ** The string helpers on sample inputs *)

Example split_on_arrow :
  Py.split "->" "80/tcp -> 0.0.0.0:8080" = ["80/tcp "; " 0.0.0.0:8080"].
Proof. reflexivity. Qed.

Example split_trailing_separator : Py.split ":" "a:" = ["a"; EmptyString].
Proof. reflexivity. Qed.

Example strip_both_ends : Py.strip "  web-1 " = "web-1".
Proof. reflexivity. Qed.

Example take_counts_code_points : Py.take 3 "━━ DEPLOY" = "━━ ".
Proof. reflexivity. Qed.

Example upper_on_ascii : Py.upper "[pass] ok" = "[PASS] OK".
Proof. reflexivity. Qed.

Example words_of_mount_list : Py.words " /data  /var/lib " = ["/data"; "/var/lib"].
Proof. reflexivity. Qed.

Example replace_percent : Py.replace "%" EmptyString "12.5%" = "12.5".
Proof. reflexivity. Qed.

Example str_of_nat_decimal : Py.str_of_nat 1440 = "1440" /\ Py.str_of_nat 0 = "0".
Proof. split; reflexivity. Qed.

(** ** Facts about the string helpers *)

Lemma append_cons c a b : String c a +:+ b = String c (a +:+ b).
Proof. reflexivity. Qed.

Lemma contains_cons sub c s :
  Py.contains sub (String c s) = String.prefix sub (String c s) || Py.contains sub s.
Proof. reflexivity. Qed.

Lemma prefix_app sub a b :
  String.prefix sub a = true -> String.prefix sub (a +:+ b) = true.
Proof.
  revert a. induction sub as [|c sub IH]; intros a H;
    [destruct (a +:+ b); reflexivity |].
  destruct a as [|c' a]; cbn in H; [discriminate |].
  rewrite append_cons. cbn.
  destruct (ascii_dec c c'); [auto | discriminate].
Qed.

Lemma startswith_append p x : Py.startswith (p +:+ x) p = true.
Proof.
  unfold Py.startswith. induction p as [|c p IH]; [destruct x; reflexivity |].
  rewrite append_cons. cbn.
  destruct (ascii_dec c c); [exact IH | contradiction].
Qed.

Lemma contains_app_l sub a b :
  Py.contains sub a = true -> Py.contains sub (a +:+ b) = true.
Proof.
  induction a as [|c a IH]; intros H.
  - cbn in H. rewrite orb_false_r in H. destruct sub; [| discriminate].
    destruct b; reflexivity.
  - rewrite contains_cons in H. apply orb_true_iff in H.
    rewrite append_cons, contains_cons.
    apply orb_true_iff. destruct H as [H | H].
    + left. apply (prefix_app sub (String c a) b H).
    + right. auto.
Qed.

Lemma contains_app_r sub a b :
  Py.contains sub b = true -> Py.contains sub (a +:+ b) = true.
Proof.
  intros H. induction a as [|c a IH]; [exact H |].
  rewrite append_cons, contains_cons, IH. apply orb_true_r.
Qed.

Lemma upper_app a b : Py.upper (a +:+ b) = Py.upper a +:+ Py.upper b.
Proof.
  induction a as [|c a IH]; [reflexivity |].
  rewrite append_cons. cbn [Py.upper]. now rewrite append_cons, IH.
Qed.

Lemma join_contains sub sep x l :
  In x l -> Py.contains sub x = true -> Py.contains sub (Py.join sep l) = true.
Proof.
  intros Hin Hx. induction l as [|y l IH]; [destruct Hin |].
  cbn [Py.join]. destruct l as [|z l].
  - destruct Hin as [-> | []]. exact Hx.
  - destruct Hin as [-> | Hin].
    + now apply contains_app_l.
    + apply contains_app_r, contains_app_r. auto.
Qed.

Lemma upper_join sep l :
  Py.upper (Py.join sep l) = Py.join (Py.upper sep) (map Py.upper l).
Proof.
  induction l as [|x l IH]; [reflexivity |].
  destruct l as [|y l]; [reflexivity |].
  change (Py.join sep (x :: y :: l)) with (x +:+ sep +:+ Py.join sep (y :: l)).
  rewrite !upper_app, IH. reflexivity.
Qed.

Lemma truthy_true s : s <> EmptyString -> Py.truthy s = true.
Proof. destruct s; [congruence | reflexivity]. Qed.

Lemma mem_In x l : Py.mem x l = true <-> In x l.
Proof.
  unfold Py.mem. rewrite existsb_exists. split.
  - intros (y & Hin & E). apply String.eqb_eq in E. now subst.
  - intros Hin. exists x. split; [exact Hin | apply String.eqb_refl].
Qed.

Lemma mem_cons x k l : Py.mem x (k :: l) = String.eqb x k || Py.mem x l.
Proof. reflexivity. Qed.

Lemma mem_false x l : ~ In x l -> Py.mem x l = false.
Proof.
  intros H. destruct (Py.mem x l) eqn:E; [| reflexivity]. apply mem_In in E. contradiction.
Qed.

Lemma nonempty_false {A : Type} (l : list A) : Py.nonempty l = false -> l = [].
Proof. destruct l; [reflexivity | discriminate]. Qed.

(** ** The verification engine *)

Ltac verdict_cases :=
  repeat match goal with
         | |- context [if ?b then _ else _] => destruct b
         end.

Ltac record_as t d := exists t, d; split; [discriminate | reflexivity].

Lemma verdict_running_recorded rc nr st :
  recorded "Container Running Test" st (verdict_running rc nr st).
Proof.
  unfold verdict_running. verdict_cases.
  - record_as PASS ("   : ALL " +:+ Py.str_of_nat (length rc) +:+ " running").
  - record_as FAIL ("   : " +:+ Py.join ", " nr +:+ " not running").
  - record_as FAIL "   : No containers found".
Qed.

Lemma verdict_health_recorded hr st :
  recorded "Health Check Test" st (verdict_health hr st).
Proof.
  unfold verdict_health. verdict_cases.
  - record_as FAIL ("        : " +:+ Py.join ", " hr).
  - record_as WARN ("        : " +:+ Py.join ", " hr).
  - record_as PASS ("        : " +:+ Py.join ", " hr).
Qed.

Lemma verdict_ports_recorded pr st :
  recorded "Port Binding Test" st (verdict_ports pr st).
Proof.
  unfold verdict_ports. verdict_cases.
  - record_as PASS ("        : " +:+ Py.join ", " pr).
  - record_as FAIL ("        : " +:+ Py.join ", " pr).
  - record_as WARN "        : No port mappings found".
Qed.

Lemma verdict_connectivity_recorded cr st :
  recorded "Connectivity Test" st (verdict_connectivity cr st).
Proof.
  unfold verdict_connectivity. verdict_cases.
  - record_as WARN ("        : " +:+ Py.join ", " cr).
  - record_as PASS ("        : " +:+ Py.join ", " cr).
Qed.

Lemma verdict_single_service_recorded st :
  recorded "Connectivity Test" st (verdict_single_service st).
Proof.
  unfold verdict_single_service.
  record_as PASS "        : Single service — skipped".
Qed.

Lemma verdict_volumes_recorded vr st :
  recorded "Volume Mount Test" st (verdict_volumes vr st).
Proof.
  unfold verdict_volumes. verdict_cases.
  - record_as WARN ("        : " +:+ Py.join ", " vr).
  - record_as PASS ("        : " +:+ Py.join ", " vr).
  - record_as PASS "        : No volumes to test".
Qed.

Lemma verdict_env_recorded er st :
  recorded "Environment Variable Test" st (verdict_env er st).
Proof.
  unfold verdict_env. verdict_cases.
  - record_as WARN (" : " +:+ Py.join ", " er).
  - record_as PASS (" : " +:+ Py.join ", " er).
Qed.

Lemma verdict_logs_recorded li st :
  recorded "Log Output Test" st (verdict_logs li st).
Proof.
  unfold verdict_logs. verdict_cases.
  - record_as WARN ("          : " +:+ Py.join "; " li).
  - record_as PASS "          : No error keywords in startup logs".
Qed.

Lemma verdict_resources_recorded rw st :
  recorded "Resource Baseline Test" st (verdict_resources rw st).
Proof.
  unfold verdict_resources. verdict_cases.
  - record_as WARN ("   : " +:+ Py.join ", " rw).
  - record_as PASS "   : All containers within normal limits".
Qed.

Section Checks.

Context {World : Type} (rt : Runtime World) (lib : PyLib).

Lemma test_running_recorded file_path st w :
  recorded "Container Running Test" st (snd (fst (test_running rt file_path st w))).
Proof.
  unfold test_running, bind, ret.
  destruct (_run_cmd rt _ _ w) as [r1 w1].
  destruct (_run_cmd rt _ _ w1) as [r2 w2]. cbn.
  apply verdict_running_recorded.
Qed.

Lemma test_health_recorded rc st w :
  recorded "Health Check Test" st (fst (test_health rt rc st w)).
Proof.
  unfold test_health, bind, ret.
  destruct (for_each _ _ _ w) as [hr w1]. apply verdict_health_recorded.
Qed.

Lemma test_ports_recorded rc st w :
  recorded "Port Binding Test" st (fst (test_ports rt lib rc st w)).
Proof.
  unfold test_ports, bind, ret.
  destruct (for_each _ _ _ w) as [hr w1]. apply verdict_ports_recorded.
Qed.

Lemma test_connectivity_recorded rc st w :
  recorded "Connectivity Test" st (fst (test_connectivity rt rc st w)).
Proof.
  unfold test_connectivity, bind, ret.
  destruct rc as [|c1 [|c2 rest]]; try apply verdict_single_service_recorded.
  destruct (for_each _ _ _ w) as [hr w1]. apply verdict_connectivity_recorded.
Qed.

Lemma test_volumes_recorded rc st w :
  recorded "Volume Mount Test" st (fst (test_volumes rt rc st w)).
Proof.
  unfold test_volumes, bind, ret.
  destruct (for_each _ _ _ w) as [hr w1]. apply verdict_volumes_recorded.
Qed.

Lemma test_env_recorded rc st w :
  recorded "Environment Variable Test" st (fst (test_env rt rc st w)).
Proof.
  unfold test_env, bind, ret.
  destruct (for_each _ _ _ w) as [hr w1]. apply verdict_env_recorded.
Qed.

Lemma test_logs_recorded rc st w :
  recorded "Log Output Test" st (fst (test_logs rt rc st w)).
Proof.
  unfold test_logs, bind, ret.
  destruct (for_each _ _ _ w) as [hr w1]. apply verdict_logs_recorded.
Qed.

Lemma test_resources_recorded rc st w :
  recorded "Resource Baseline Test" st (fst (test_resources rt lib rc st w)).
Proof.
  unfold test_resources, bind, ret.
  destruct (for_each _ _ _ w) as [hr w1]. apply verdict_resources_recorded.
Qed.

End Checks.

Lemma recorded_all_inv names st st' :
  recorded_all names st st' ->
  exists checks,
    report_lines st' = report_lines st ++ checks
    /\ Forall2 is_check_line names checks
    /\ pass_count st' = pass_count st + count_status PASS checks
    /\ warn_count st' = warn_count st + count_status WARN checks
    /\ fail_count st' = fail_count st + count_status FAIL checks.
Proof.
  induction 1 as [st | name names st st1 st2 Hrec Hall IH].
  - exists []. cbn. rewrite app_nil_r. repeat split; try lia. constructor.
  - destruct IH as (checks & Hl & Hf & Hp & Hw & Hfl).
    destruct Hrec as (t & detail & Ht & ->).
    exists (mkLine t (name +:+ detail) :: checks).
    assert (Hline : is_check_line name (mkLine t (name +:+ detail))).
    { split; [exact Ht | now exists detail]. }
    destruct t; try contradiction; cbn in *;
      (split; [rewrite Hl, <- app_assoc; reflexivity |]);
      (split; [constructor; assumption |]);
      unfold count_status in *; cbn; repeat split; lia.
Qed.

Lemma final_lines_shape st :
  final_lines st =
  mkState (report_lines st ++
           footer_lines (pass_count st) (warn_count st) (fail_count st) (verdict_of st))
          (pass_count st) (warn_count st) (fail_count st).
Proof.
  unfold final_lines, append_line, footer_lines, verdict_of. cbn.
  rewrite <- !app_assoc. reflexivity.
Qed.

Section EngineRun.

Context {World : Type} (rt : Runtime World) (lib : PyLib).

Lemma engine_runs file_path expected_services w :
  let started := now_strftime rt "%Y-%m-%d %H:%M:%S" w in
  match fst (_get_compose_services rt lib file_path (snd started)) with
  | inl exn =>
      fst (run_post_deploy_tests_state rt lib file_path expected_services w) = inl exn
  | inr services =>
      match expected_of expected_services services with
      | inl exn =>
          fst (run_post_deploy_tests_state rt lib file_path expected_services w) = inl exn
      | inr expected =>
          exists st,
            fst (run_post_deploy_tests_state rt lib file_path expected_services w)
              = inr (fst started, final_lines st)
            /\ recorded_all check_names (mkState (header_lines file_path expected) 0 0 0) st
      end
  end.
Proof.
  cbn zeta. unfold run_post_deploy_tests_state, bind.
  destruct (now_strftime rt _ w) as [ts w0]. cbn [fst snd].
  destruct (_get_compose_services rt lib file_path w0) as [[exn | services] w1];
    cbn [fst snd]; [reflexivity |].
  fold (expected_of expected_services services).
  destruct (expected_of expected_services services) as [exn | expected]; [reflexivity |].
  set (st0 := mkState _ 0 0 0).
  pose proof (test_running_recorded rt file_path st0 w1) as H1.
  destruct (test_running rt file_path st0 w1) as [[rc st1] w2]. cbn [fst snd] in *.
  pose proof (test_health_recorded rt rc st1 w2) as H2.
  destruct (test_health rt rc st1 w2) as [st2 w3]. cbn [fst snd] in *.
  pose proof (test_ports_recorded rt lib rc st2 w3) as H3.
  destruct (test_ports rt lib rc st2 w3) as [st3 w4]. cbn [fst snd] in *.
  pose proof (test_connectivity_recorded rt rc st3 w4) as H4.
  destruct (test_connectivity rt rc st3 w4) as [st4 w5]. cbn [fst snd] in *.
  pose proof (test_volumes_recorded rt rc st4 w5) as H5.
  destruct (test_volumes rt rc st4 w5) as [st5 w6]. cbn [fst snd] in *.
  pose proof (test_env_recorded rt rc st5 w6) as H6.
  destruct (test_env rt rc st5 w6) as [st6 w7]. cbn [fst snd] in *.
  pose proof (test_logs_recorded rt rc st6 w7) as H7.
  destruct (test_logs rt rc st6 w7) as [st7 w8]. cbn [fst snd] in *.
  pose proof (test_resources_recorded rt lib rc st7 w8) as H8.
  destruct (test_resources rt lib rc st7 w8) as [st8 w9]. cbn [fst snd] in *.
  exists st8. split; [reflexivity |].
  unfold check_names. repeat (econstructor; [eassumption |]). constructor.
Qed.

End EngineRun.

Lemma count_status_pos t checks :
  (0 < count_status t checks)%nat <-> exists l, In l checks /\ tag l = t.
Proof.
  unfold count_status. induction checks as [|l checks IH]; cbn.
  - split; [lia | intros (l & [] & _)].
  - destruct (tag_eqb (tag l) t) eqn:E; cbn.
    + split; [intros _ | lia]. exists l. split; [now left |].
      destruct (tag l), t; try discriminate; reflexivity.
    + rewrite IH. split.
      * intros (l' & Hin & Ht). exists l'. split; [now right | exact Ht].
      * intros (l' & [-> | Hin] & Ht); [| now exists l'].
        rewrite Ht in E. destruct t; discriminate.
Qed.

Lemma count_status_total names checks :
  Forall2 is_check_line names checks ->
  (count_status PASS checks + count_status WARN checks + count_status FAIL checks
   = length names)%nat.
Proof.
  unfold count_status. induction 1 as [| name l names checks [Ht _] _ IH]; cbn; [reflexivity |].
  destruct (tag l); try contradiction; cbn; lia.
Qed.

Lemma verdict_of_text st :
  verdict_of st = verdict_text (verdict_of_counts (warn_count st) (fail_count st)).
Proof.
  unfold verdict_of, verdict_of_counts.
  destruct (0 <? fail_count st)%nat; [reflexivity |].
  destruct (0 <? warn_count st)%nat; reflexivity.
Qed.

Section EngineReport.

Context {World : Type} (rt : Runtime World) (lib : PyLib).

Lemma engine_report file_path expected_services w :
  let started := now_strftime rt "%Y-%m-%d %H:%M:%S" w in
  match fst (_get_compose_services rt lib file_path (snd started)) with
  | inl exn =>
      fst (run_post_deploy_tests_state rt lib file_path expected_services w) = inl exn
  | inr services =>
      match expected_of expected_services services with
      | inl exn =>
          fst (run_post_deploy_tests_state rt lib file_path expected_services w) = inl exn
      | inr expected =>
          exists st checks,
            fst (run_post_deploy_tests_state rt lib file_path expected_services w)
              = inr (fst started, st)
            /\ report_lines st
               = header_lines file_path expected ++ checks
                   ++ footer_lines (pass_count st) (warn_count st) (fail_count st)
                        (verdict_of st)
            /\ Forall2 is_check_line check_names checks
            /\ pass_count st = count_status PASS checks
            /\ warn_count st = count_status WARN checks
            /\ fail_count st = count_status FAIL checks
      end
  end.
Proof.
  pose proof (engine_runs rt lib file_path expected_services w) as H. cbn zeta in *.
  destruct (fst (_get_compose_services rt lib file_path _)) as [exn | services];
    [exact H |].
  destruct (expected_of expected_services services) as [exn | expected]; [exact H |].
  destruct H as (st & Hrun & Hall).
  apply recorded_all_inv in Hall. destruct Hall as (checks & Hl & Hf & Hp & Hw & Hfl).
  cbn in Hl, Hp, Hw, Hfl.
  exists (final_lines st), checks. split; [exact Hrun |].
  destruct st as [ls p wn f]. cbn [report_lines pass_count warn_count fail_count] in *.
  subst ls. unfold final_lines, append_line, verdict_of, footer_lines.
  cbn [report_lines pass_count warn_count fail_count].
  rewrite <- !app_assoc. repeat split; assumption.
Qed.

Lemma run_post_deploy_tests_text file_path expected_services w :
  fst (run_post_deploy_tests rt lib file_path expected_services w) =
  match fst (run_post_deploy_tests_state rt lib file_path expected_services w) with
  | inl exn => inl exn
  | inr (timestamp, st) => inr (full_report timestamp st)
  end.
Proof.
  unfold run_post_deploy_tests, bind.
  destruct (run_post_deploy_tests_state rt lib file_path expected_services w)
    as [[exn | [ts st]] w']; reflexivity.
Qed.

(** C10.  Every report the engine produces holds, between its head and
    its four closing lines, exactly one line with a status (PASS, WARN or
    FAIL) for each of the eight checks, in the fixed order; the three
    counters are the numbers of lines of each status, and they add up to
    eight.  This holds in every world, whatever the docker commands
    answer and however many containers run.  The engine produces no
    report in two cases only, and raises before any check ran: when the
    service listing it reads first holds a JSON line that is not an
    object; and when no expected services are given and the listing
    names a service by a value that is no text, which the head of the
    report cannot join. *)
Theorem report_has_one_verdict_per_check file_path expected_services w :
  let started := now_strftime rt "%Y-%m-%d %H:%M:%S" w in
  match fst (_get_compose_services rt lib file_path (snd started)) with
  | inl exn =>
      fst (run_post_deploy_tests rt lib file_path expected_services w) = inl exn
  | inr listed =>
      match expected_of expected_services listed with
      | inl exn =>
          fst (run_post_deploy_tests rt lib file_path expected_services w) = inl exn
      | inr expected =>
          exists st checks,
            fst (run_post_deploy_tests_state rt lib file_path expected_services w)
              = inr (fst started, st)
            /\ fst (run_post_deploy_tests rt lib file_path expected_services w)
              = inr (full_report (fst started) st)
            /\ report_lines st
               = header_lines file_path expected ++ checks
                   ++ footer_lines (pass_count st) (warn_count st) (fail_count st)
                        (verdict_of st)
            /\ Forall2 is_check_line check_names checks
            /\ pass_count st = count_status PASS checks
            /\ warn_count st = count_status WARN checks
            /\ fail_count st = count_status FAIL checks
            /\ (pass_count st + warn_count st + fail_count st = 8)%nat
      end
  end.
Proof.
  pose proof (engine_report file_path expected_services w) as H. cbn zeta in *.
  rewrite run_post_deploy_tests_text.
  destruct (fst (_get_compose_services rt lib file_path _)) as [exn | listed].
  - now rewrite H.
  - destruct (expected_of expected_services listed) as [exn | expected].
    + now rewrite H.
    + destruct H as (st & checks & Hrun & Hl & Hf & Hp & Hw & Hfl).
      exists st, checks. rewrite Hrun. repeat split; try assumption.
      rewrite Hp, Hw, Hfl. apply (count_status_total _ _ Hf).
Qed.

(** C2.  In every report of the engine the aggregate verdict printed on
    the [Deployment:] line is FAILED iff at least one of the eight checks
    is FAIL; it is ACCEPTED WITH WARNINGS iff no check is FAIL and at
    least one is WARN; it is SUCCESSFUL iff every check is PASS. *)
Theorem aggregate_verdict_of_report file_path expected_services w :
  let started := now_strftime rt "%Y-%m-%d %H:%M:%S" w in
  match fst (_get_compose_services rt lib file_path (snd started)) with
  | inl exn =>
      fst (run_post_deploy_tests_state rt lib file_path expected_services w) = inl exn
  | inr listed =>
      match expected_of expected_services listed with
      | inl exn =>
          fst (run_post_deploy_tests_state rt lib file_path expected_services w) = inl exn
      | inr expected =>
          exists st checks v,
            fst (run_post_deploy_tests_state rt lib file_path expected_services w)
              = inr (fst started, st)
            /\ report_lines st
               = header_lines file_path expected ++ checks
                   ++ footer_lines (pass_count st) (warn_count st) (fail_count st)
                        (verdict_text v)
            /\ Forall2 is_check_line check_names checks
            /\ (v = FAILED <-> exists l, In l checks /\ tag l = FAIL)
            /\ (v = ACCEPTED_WITH_WARNINGS <->
                (forall l, In l checks -> tag l <> FAIL)
                /\ exists l, In l checks /\ tag l = WARN)
            /\ (v = SUCCESSFUL <-> forall l, In l checks -> tag l = PASS)
      end
  end.
Proof.
  pose proof (engine_report file_path expected_services w) as H. cbn zeta in *.
  destruct (fst (_get_compose_services rt lib file_path _)) as [exn | listed];
    [exact H |].
  destruct (expected_of expected_services listed) as [exn | expected]; [exact H |].
  destruct H as (st & checks & Hrun & Hl & Hf & Hp & Hw & Hfl).
  exists st, checks, (verdict_of_counts (warn_count st) (fail_count st)).
  rewrite <- verdict_of_text.
  split; [exact Hrun |]. split; [exact Hl |]. split; [exact Hf |].
  pose proof (count_status_pos FAIL checks) as HF.
  pose proof (count_status_pos WARN checks) as HW.
  rewrite <- Hfl in HF. rewrite <- Hw in HW.
  assert (Hall : forall l, In l checks -> tag l <> TEST).
  { intros l Hin. clear -Hf Hin.
    induction Hf as [| n l' ns cs [Ht _] _ IH]; [destruct Hin |].
    destruct Hin as [<- | Hin]; auto. }
  unfold verdict_of_counts.
  destruct (Nat.ltb_spec 0 (fail_count st)) as [Hfc | Hfc].
  - apply HF in Hfc as Hex. repeat split; try discriminate; auto.
    + intros [Hno _]. destruct Hex as (l & Hin & Ht). now apply Hno in Hin.
    + intros Hp'. destruct Hex as (l & Hin & Ht). apply Hp' in Hin. congruence.
  - assert (Hno : forall l, In l checks -> tag l <> FAIL).
    { intros l Hin Ht. assert (0 < fail_count st)%nat by (apply HF; eauto). lia. }
    destruct (Nat.ltb_spec 0 (warn_count st)) as [Hwc | Hwc].
    + apply HW in Hwc as Hex. repeat split; try discriminate; auto.
      * intros (l & Hin & Ht). now apply Hno in Hin.
      * intros Hp'. destruct Hex as (l & Hin & Ht). apply Hp' in Hin. congruence.
    + repeat split; try discriminate.
      * intros (l & Hin & Ht). now apply Hno in Hin.
      * intros [_ (l & Hin & Ht)].
        assert (0 < warn_count st)%nat by (apply HW; eauto). lia.
      * intros _ l Hin. specialize (Hall l Hin). specialize (Hno l Hin).
        destruct (tag l) eqn:E; try congruence.
        assert (0 < warn_count st)%nat by (apply HW; eauto). lia.
Qed.

Lemma result_line_mentions p wn f ts v :
  Py.contains "PASS"
    (Py.upper (render ts (nth 1 (footer_lines p wn f v) (mkLine TEST EmptyString)))) = true
  /\ Py.contains "FAIL"
       (Py.upper (render ts (nth 1 (footer_lines p wn f v) (mkLine TEST EmptyString)))) = true.
Proof.
  unfold footer_lines, render. cbn [nth tag body tag_text].
  rewrite !upper_app. split.
  - do 7 apply contains_app_r. apply contains_app_l. reflexivity.
  - do 11 apply contains_app_r. reflexivity.
Qed.

(** Every report of the engine spells both words, whatever the verdicts:
    its [Result:] line counts the PASS and the FAIL. *)
Lemma report_mentions_pass_and_fail file_path expected_services w text :
  fst (run_post_deploy_tests rt lib file_path expected_services w) = inr text ->
  Py.contains "PASS" (Py.upper text) = true /\ Py.contains "FAIL" (Py.upper text) = true.
Proof.
  intros Hrun. rewrite run_post_deploy_tests_text in Hrun.
  pose proof (engine_report file_path expected_services w) as H. cbn zeta in H.
  destruct (fst (_get_compose_services rt lib file_path _)) as [exn | listed];
    [rewrite H in Hrun; discriminate Hrun |].
  destruct (expected_of expected_services listed) as [exn | expected].
  - rewrite H in Hrun. discriminate Hrun.
  - destruct H as (st & checks & Hstate & Hl & _).
    rewrite Hstate in Hrun. injection Hrun as <-.
    unfold full_report. rewrite upper_join, map_map.
    pose proof (result_line_mentions (pass_count st) (warn_count st) (fail_count st)
                  (fst (now_strftime rt "%Y-%m-%d %H:%M:%S" w)) (verdict_of st)) as [HP HF].
    set (line := nth 1 (footer_lines _ _ _ _) _) in *.
    assert (Hin : In line (report_lines st)).
    { rewrite Hl. apply in_or_app. right. apply in_or_app. right.
      subst line. cbn. auto. }
    split; eapply join_contains; try eassumption;
      apply (in_map (fun l => Py.upper (render _ l))); exact Hin.
Qed.

(** X1. The test both workflows apply to a verification report, that it
    spells FAIL and does not spell PASS, is false on every report the engine
    produces, in every world: the [Result:] line of a report names both the
    PASS and the FAIL count. *)
Lemma report_never_counts_as_failed file_path expected_services w text :
  fst (run_post_deploy_tests rt lib file_path expected_services w) = inr text ->
  Py.contains "FAIL" (Py.upper text) && negb (Py.contains "PASS" (Py.upper text)) = false.
Proof.
  intros H. apply report_mentions_pass_and_fail in H as [HP HF].
  now rewrite HP, HF.
Qed.

End EngineReport.

(** Scenario: one healthy container passes all eight checks. *)
Example clean_report :
  exists timestamp st,
    fst (run_post_deploy_tests_state (Scenario.docker "healthy") Scenario.lib
           Scenario.the_file EmptyString tt) = inr (timestamp, st)
    /\ statuses st = [PASS; PASS; PASS; PASS; PASS; PASS; PASS; PASS]
    /\ verdict_of st = verdict_text SUCCESSFUL.
Proof. eexists _, _. repeat split; vm_compute; reflexivity. Qed.

(** Scenario: no container at all.  The report still holds its eight
    verdicts: check 1 fails, check 3 warns, the others pass on the empty
    list of containers. *)
Example report_without_containers :
  exists timestamp st,
    fst (run_post_deploy_tests_state Scenario.empty_docker Scenario.lib
           Scenario.the_file EmptyString tt) = inr (timestamp, st)
    /\ statuses st = [FAIL; PASS; WARN; PASS; PASS; PASS; PASS; PASS]
    /\ (pass_count st, warn_count st, fail_count st) = (6, 1, 1)%nat
    /\ verdict_of st = verdict_text FAILED.
Proof. eexists _, _. repeat split; vm_compute; reflexivity. Qed.

(** Scenario: a container without health check turns check 2 into a
    warning, and the verdict with it. *)
Example report_with_warning :
  exists timestamp st,
    fst (run_post_deploy_tests_state (Scenario.docker "no healthcheck") Scenario.lib
           Scenario.the_file EmptyString tt) = inr (timestamp, st)
    /\ statuses st = [PASS; WARN; PASS; PASS; PASS; PASS; PASS; PASS]
    /\ verdict_of st = verdict_text ACCEPTED_WITH_WARNINGS.
Proof. eexists _, _. repeat split; vm_compute; reflexivity. Qed.

(** ** Rollback runs *)

Lemma insert_by_mtime_In b sorted x :
  In x (RollbackWorkflow.insert_by_mtime b sorted) <-> x = b \/ In x sorted.
Proof.
  induction sorted as [|h t IH]; cbn.
  - intuition.
  - destruct (st_mtime h <? st_mtime b)%Z; cbn; [intuition |].
    rewrite IH. intuition.
Qed.

Lemma insert_by_mtime_head b sorted :
  match sorted with
  | [] => True
  | h :: _ => forall x, In x sorted -> (st_mtime x <= st_mtime h)%Z
  end ->
  exists h' t',
    RollbackWorkflow.insert_by_mtime b sorted = h' :: t'
    /\ forall x, In x (b :: sorted) -> (st_mtime x <= st_mtime h')%Z.
Proof.
  destruct sorted as [|h t]; cbn [RollbackWorkflow.insert_by_mtime]; intros Hmax.
  - exists b, []. split; [reflexivity |]. intros x [-> | []]. lia.
  - destruct (Z.ltb_spec (st_mtime h) (st_mtime b)) as [Hlt | Hge].
    + exists b, (h :: t). split; [reflexivity |].
      intros x [-> | Hin]; [lia |]. specialize (Hmax x Hin). lia.
    + exists h, (RollbackWorkflow.insert_by_mtime b t). split; [reflexivity |].
      intros x [-> | Hin]; [lia | auto].
Qed.

Lemma sorted_newest_first_spec found :
  match RollbackWorkflow.sorted_newest_first found with
  | [] => found = []
  | newest :: _ => is_newest newest found
  end.
Proof.
  unfold RollbackWorkflow.sorted_newest_first.
  assert (G : forall l acc,
             match acc with
             | [] => True
             | h :: _ => forall x, In x acc -> (st_mtime x <= st_mtime h)%Z
             end ->
             match fold_left (fun sorted b => RollbackWorkflow.insert_by_mtime b sorted) l acc with
             | [] => l = [] /\ acc = []
             | n :: _ =>
                 (In n l \/ In n acc)
                 /\ forall x, In x l \/ In x acc -> (st_mtime x <= st_mtime n)%Z
             end).
  { induction l as [|b l IH]; intros acc Hacc; cbn [fold_left].
    - destruct acc as [|h t]; [auto |]. split; [right; now left |].
      intros x [[] | Hin]. auto.
    - destruct (insert_by_mtime_head b acc Hacc) as (h' & t' & Heq & Hmax).
      specialize (IH (RollbackWorkflow.insert_by_mtime b acc)).
      assert (Hin' : forall x, In x (RollbackWorkflow.insert_by_mtime b acc) <-> x = b \/ In x acc)
        by (intros; apply insert_by_mtime_In).
      assert (Hpre : match RollbackWorkflow.insert_by_mtime b acc with
                     | [] => True
                     | h :: _ =>
                         forall x, In x (RollbackWorkflow.insert_by_mtime b acc) ->
                                   (st_mtime x <= st_mtime h)%Z
                     end).
      { rewrite Heq. intros x Hx. apply Hmax. rewrite <- Heq in Hx. apply Hin' in Hx.
        destruct Hx as [-> | Hx]; [now left | now right]. }
      specialize (IH Hpre).
      destruct (fold_left _ l _) as [|n rest].
      + destruct IH as [_ Hnil]. rewrite Heq in Hnil. discriminate.
      + destruct IH as [Hn Hall]. split.
        * destruct Hn as [Hn | Hn]; [left; now right |].
          apply Hin' in Hn. destruct Hn as [-> | Hn]; [left; now left | now right].
        * intros x [[<- | Hx] | Hx]; apply Hall.
          -- right. apply Hin'. now left.
          -- now left.
          -- right. apply Hin'. now right. }
  specialize (G found [] I).
  destruct (fold_left _ found []) as [|n rest].
  - tauto.
  - destruct G as [[Hn | []] Hall]. split; [exact Hn |]. intros b Hb. apply Hall. now left.
Qed.

Section RollbackClaims.

Context {World : Type} (substrate : Substrate World).

(** C7.  A rollback run without an explicit backup target, once the
    teardown step has answered, lists the backup directory.  When the
    listing holds backup files, the run goes on to deploy one of them
    that none is newer than (the most recently modified one).  When the
    directory is missing or holds no backup file, the run sends the one
    notification [ROLLBACK FAILED: No backup file found] and ends: its
    events are the teardown, the listing and that notification, so no
    deploy step, no verification step and no second attempt. *)
Theorem rollback_without_explicit_target
    (current torn_down : string) (listing : option (list BackupRecord)) (w w1 w2 : World) :
  execute_activity substrate "teardown_compose" (ComposeArg (compose_input current))
    teardown_options w = (Some torn_down, w1) ->
  glob_backups substrate current w1 = (listing, w2) ->
  (forall found b, listing = Some found -> In b found -> path b <> EmptyString) ->
  let teardown_event :=
    ActivityCalled "teardown_compose" (ComposeArg (compose_input current))
      teardown_options (Some torn_down) in
  match listing with
  | Some ((_ :: _) as found) =>
      exists newest deployed outcome rest w',
        is_newest newest found
        /\ run_rollback substrate (rollback_input current) w
           = (outcome,
              teardown_event :: Globbed current listing
                :: ActivityCalled "deploy_compose" (ComposeArg (compose_input (path newest)))
                     (mkOptions 300 (Some 60%Z) None) deployed
                :: rest,
              w')
  | _ =>
      let sent :=
        execute_activity substrate "send_notification" (StrArg no_backup_message)
          notify_options w2 in
      run_rollback substrate (rollback_input current) w
      = (match fst sent with
         | Some _ => Finished no_backup_message
         | None => Aborted
         end,
         [ teardown_event; Globbed current listing;
           ActivityCalled "send_notification" (StrArg no_backup_message) notify_options
             (fst sent) ],
         snd sent)
  end.
Proof.
  intros Hdown Hglob Hpaths teardown_event. subst teardown_event.
  unfold run_rollback, RollbackWorkflow.run, RollbackWorkflow.resolve_backup.
  unfold teardown_options in *. cbn [exec backup_file current_file rollback_input].
  rewrite Hdown.
  change (Py.truthy EmptyString) with false. cbn [negb exec]. rewrite Hglob.
  destruct listing as [[|b found] |].
  - cbn. change (Py.truthy EmptyString) with false. cbn [negb exec].
    fold no_backup_message. unfold notify_options.
    destruct (execute_activity substrate "send_notification" _ _ w2) as [[sent |] w3];
      reflexivity.
  - pose proof (sorted_newest_first_spec (b :: found)) as Hnew.
    destruct (RollbackWorkflow.sorted_newest_first (b :: found)) as [|newest others];
      [discriminate |].
    assert (Hne : path newest <> EmptyString)
      by (apply (Hpaths (b :: found)); [reflexivity | apply Hnew]).
    rewrite (truthy_true _ Hne). cbn [negb exec].
    destruct (execute_activity substrate "deploy_compose" _ _ w2) as [[deployed |] w3].
    + destruct (execute_activity substrate "run_tests" _ _ w3) as [[tests |] w4];
        cbn [exec].
      * lazymatch goal with
        | |- context [execute_activity substrate "send_notification" ?a ?o w4] =>
            destruct (execute_activity substrate "send_notification" a o w4) as [[sent |] w5]
        end; eexists newest, _, _, _, _; (split; [exact Hnew | reflexivity]).
      * eexists newest, _, _, _, _. split; [exact Hnew | reflexivity].
    + eexists newest, _, _, _, _. split; [exact Hnew | reflexivity].
  - cbn. change (Py.truthy EmptyString) with false. cbn [negb exec].
    fold no_backup_message. unfold notify_options.
    destruct (execute_activity substrate "send_notification" _ _ w2) as [[sent |] w3];
      reflexivity.
Qed.

End RollbackClaims.

Lemma rollback_without_explicit_target_witness :
  exists newest deployed outcome rest w',
    is_newest newest Scenario.three_backups
    /\ run_rollback
         (Scenario.substrate "healthy" (Some Scenario.three_backups) Scenario.no_checks)
         (rollback_input Scenario.the_file) 0
       = (outcome,
          ActivityCalled "teardown_compose" (ComposeArg (compose_input Scenario.the_file))
            teardown_options (Some Scenario.torn_down)
            :: Globbed Scenario.the_file (Some Scenario.three_backups)
            :: ActivityCalled "deploy_compose"
                 (ComposeArg (compose_input (path newest)))
                 (mkOptions 300 (Some 60%Z) None) deployed
            :: rest,
          w').
Proof.
  apply (rollback_without_explicit_target
           (Scenario.substrate "healthy" (Some Scenario.three_backups) Scenario.no_checks)
           Scenario.the_file Scenario.torn_down (Some Scenario.three_backups) 0%nat 0%nat 0%nat).
  - reflexivity.
  - reflexivity.
  - intros found b [= <-] Hin. cbn in Hin.
    destruct Hin as [<- | [<- | [<- | []]]]; discriminate.
Defined.

(** Scenario: the newest backup is deployed; of two equally new ones,
    the one listed first. *)
Example rollback_deploys_newest_backup :
  let r := run_rollback
             (Scenario.substrate "healthy" (Some Scenario.three_backups) Scenario.no_checks)
             (rollback_input Scenario.the_file) 0 in
  called "deploy_compose" (events_of r) = 1%nat
  /\ In (ActivityCalled "deploy_compose" (ComposeArg (compose_input Scenario.the_backup))
           (mkOptions 300 (Some 60%Z) None)
           (Some "✓ Services deployed successfully from 'compose_files/shop.yml'."))
        (events_of r)
  /\ Py.startswith (message_of r) "ROLLBACK SUCCESSFUL" = true.
Proof. vm_compute. split; [reflexivity |]. split; [| reflexivity]. right. right. now left. Qed.

(** Scenario: no backup directory, hence a terminal failure. *)
Example rollback_without_any_backup :
  run_rollback (Scenario.substrate "healthy" None Scenario.no_checks)
    (rollback_input Scenario.the_file) 0
  = (Finished no_backup_message,
     [ ActivityCalled "teardown_compose" (ComposeArg (compose_input Scenario.the_file))
         teardown_options (Some Scenario.torn_down);
       Globbed Scenario.the_file None;
       ActivityCalled "send_notification" (StrArg no_backup_message) notify_options
         (Some ("Notification sent: " +:+ no_backup_message)) ],
     0%nat).
Proof. vm_compute. reflexivity. Qed.

(** C8.  Code at the failing input: a rollback run whose backup comes up
    with an unhealthy container.  The report of the verification step has
    check 2 FAIL and the verdict FAILED, yet the run answers with the
    [ROLLBACK SUCCESSFUL] report and not with the [ROLLBACK CRITICAL] one:
    the test for a failed report also asks that the report does not
    spell PASS, which every report does. *)
Theorem rollback_reports_success_on_failed_backup :
  (exists timestamp st,
      fst (run_post_deploy_tests_state (Scenario.docker "unhealthy") Scenario.lib
             Scenario.the_backup EmptyString tt)
        = inr (timestamp, st)
      /\ statuses st = [PASS; FAIL; PASS; PASS; PASS; PASS; PASS; PASS]
      /\ verdict_of st = verdict_text FAILED
      /\ In (ActivityCalled "run_tests" (TestArg (test_input Scenario.the_backup))
               (mkOptions 180 None None) (Some (full_report timestamp st)))
            (events_of Scenario.failed_backup_run))
  /\ Py.startswith (message_of Scenario.failed_backup_run) "ROLLBACK SUCCESSFUL" = true
  /\ Py.contains "ROLLBACK CRITICAL" (message_of Scenario.failed_backup_run) = false.
Proof.
  split.
  - eexists _, _. split; [vm_compute; reflexivity |].
    split; [vm_compute; reflexivity |]. split; [vm_compute; reflexivity |].
    vm_compute. do 2 right. left. reflexivity.
  - split; vm_compute; reflexivity.
Qed.

(** ** Deploy runs *)

Ltac step_run substrate :=
  match goal with
  | |- context [execute_activity substrate ?n ?a ?o ?w] =>
      let answer := fresh "answer" in
      let w' := fresh "w" in
      destruct (execute_activity substrate n a o w) as [[answer |] w']; cbn [exec]
  | |- context [run_rollback substrate ?i ?w] =>
      let nested := fresh "nested" in
      let w' := fresh "w" in
      destruct (run_rollback substrate i w) as [[[nested |] ?] w']; cbn [exec]
  | |- context [if ?c then _ else _] => destruct c; cbn [exec]
  end.

Section DeployClaims.

Context {World : Type} (substrate : Substrate World).

(** C6, as the code has it.  In every deploy run the validate step is
    called once, with a 30-second time-out and a retry policy of at most
    2 attempts; the backup step, when the run reaches it, is called once,
    with a 30-second time-out, no heart beat and no retry policy at all,
    so the default of the substrate applies; the deploy step, when
    reached, is called once, with a 5-minute time-out, a 60-second heart
    beat and the policy of at most 2 attempts. *)
Theorem deploy_retry_policies (workflow_id file_path : string) (w : World) :
  let events := events_of (run_deploy substrate workflow_id file_path w) in
  policies "validate_compose" events = [Some (mkRetryPolicy 2)]
  /\ (policies "backup_compose" events = [] \/ policies "backup_compose" events = [None])
  /\ (policies "deploy_compose" events = []
      \/ policies "deploy_compose" events = [Some (mkRetryPolicy 2)])
  /\ options_of "validate_compose" events = [mkOptions 30 None (Some (mkRetryPolicy 2))]
  /\ (options_of "backup_compose" events = []
      \/ options_of "backup_compose" events = [mkOptions 30 None None])
  /\ (options_of "deploy_compose" events = []
      \/ options_of "deploy_compose" events
         = [mkOptions 300 (Some 60%Z) (Some (mkRetryPolicy 2))]).
Proof.
  unfold events_of, run_deploy, DeployWorkflow.run, DeployWorkflow._notify.
  cbn [exec].
  repeat step_run substrate; cbn [fst snd policies options_of flat_map]; vm_compute;
    repeat split; auto.
Qed.

End DeployClaims.

(** C6, as stated, fails: in the clean deploy run the backup step is
    called without a retry policy. *)
Lemma backup_step_has_no_retry_cap :
  ~ (retries_capped 2 "validate_compose" (events_of Scenario.clean_run)
     /\ retries_capped 2 "backup_compose" (events_of Scenario.clean_run)).
Proof.
  intros [_ H]. specialize (H None).
  assert (E : None = Some (mkRetryPolicy 2)) by (apply H; vm_compute; now left).
  discriminate E.
Qed.

(** C1.  Code at the failing input: a deploy run whose deployment comes
    up with an unhealthy container.  The report of the verification step
    has check 2 FAIL, every other check PASS and the verdict FAILED, yet
    the run starts no rollback and answers [DEPLOYMENT SUCCESSFUL]: the
    test for a failed report also asks that the report does not spell
    PASS, which every report does. *)
Theorem deploy_reports_success_on_failed_health_check :
  (exists timestamp st,
      fst (run_post_deploy_tests_state (Scenario.docker "unhealthy") Scenario.lib
             Scenario.the_file EmptyString tt)
        = inr (timestamp, st)
      /\ statuses st = [PASS; FAIL; PASS; PASS; PASS; PASS; PASS; PASS]
      /\ verdict_of st = verdict_text FAILED
      /\ In (ActivityCalled "run_tests" (TestArg (test_input Scenario.the_file))
               (mkOptions 180 (Some 120%Z) None) (Some (full_report timestamp st)))
            (events_of Scenario.failed_health_run))
  /\ existsb starts_child (events_of Scenario.failed_health_run) = false
  /\ Py.startswith (message_of Scenario.failed_health_run) "DEPLOYMENT SUCCESSFUL" = true.
Proof.
  split.
  - eexists _, _. split; [vm_compute; reflexivity |].
    split; [vm_compute; reflexivity |]. split; [vm_compute; reflexivity |].
    vm_compute. do 4 right. left. reflexivity.
  - split; vm_compute; reflexivity.
Qed.

(** Scenario: a clean deploy ends in success without a rollback. *)
Example clean_deploy_succeeds :
  existsb starts_child (events_of Scenario.clean_run) = false
  /\ called "send_notification" (events_of Scenario.clean_run) = 1%nat
  /\ Py.startswith (message_of Scenario.clean_run) "DEPLOYMENT SUCCESSFUL" = true.
Proof. vm_compute. repeat split; reflexivity. Qed.

(** ** Runs after a report that spells PASS

    The two workflows read a report as failed only when it spells FAIL
    and does not spell PASS.  Whatever the substrate answers elsewhere, a
    verification step whose answer spells PASS is never followed by a
    rollback, nor by the critical outcome of a rollback run. *)

Ltac step_run_eqn substrate :=
  match goal with
  | |- context [execute_activity substrate ?n ?a ?o ?w] =>
      let answer := fresh "answer" in
      let w' := fresh "w" in
      destruct (execute_activity substrate n a o w) as [[answer |] w']; cbn [exec]
  | |- context [run_rollback substrate ?i ?w] =>
      let nested := fresh "nested" in
      let w' := fresh "w" in
      destruct (run_rollback substrate i w) as [[[nested |] ?] w']; cbn [exec]
  | |- context [glob_backups substrate ?c ?w] =>
      let listing := fresh "listing" in
      destruct (glob_backups substrate c w) as [[listing |] ?]; cbn [exec]
  | |- context [RollbackWorkflow.sorted_newest_first ?l] =>
      destruct (RollbackWorkflow.sorted_newest_first l) as [| ? ?]; cbn [exec]
  | |- context [if ?c then _ else _] =>
      let E := fresh "E" in destruct c eqn:E; cbn [exec]
  end.

Ltac read_as_passed Hin Hpass :=
  cbn [In] in Hin;
  repeat (destruct Hin as [Hin | Hin]; [try discriminate Hin |]); try contradiction;
  let Htext := fresh "Htext" in
  injection Hin as _ _ Htext;
  match goal with
  | E : _ && negb (Py.contains "PASS" _) = true |- _ =>
      rewrite Htext, Hpass, andb_false_r in E; discriminate E
  end.

Section ReportsThatSpellPass.

Context {World : Type} (substrate : Substrate World).

(** X2. In every deploy run, on every substrate: when the verification step
    answered with a text that spells PASS, the run starts no rollback. *)
Lemma deploy_keeps_a_report_that_spells_pass
    (workflow_id file_path : string) (w : World) a options text :
  In (ActivityCalled "run_tests" a options (Some text))
     (events_of (run_deploy substrate workflow_id file_path w)) ->
  Py.contains "PASS" (Py.upper text) = true ->
  existsb starts_child (events_of (run_deploy substrate workflow_id file_path w)) = false.
Proof.
  unfold events_of, run_deploy, DeployWorkflow.run, DeployWorkflow._notify.
  cbn [exec].
  repeat step_run_eqn substrate; cbn [fst snd]; intros Hin Hpass;
    try reflexivity; exfalso; read_as_passed Hin Hpass.
Qed.

(** X3. In every rollback run, on every substrate: when the verification
    step answered with a text that spells PASS, the message of the run does
    not start with [ROLLBACK CRITICAL]. *)
Lemma rollback_keeps_a_report_that_spells_pass
    (input : RollbackInput) (w : World) a options text :
  In (ActivityCalled "run_tests" a options (Some text))
     (events_of (run_rollback substrate input w)) ->
  Py.contains "PASS" (Py.upper text) = true ->
  Py.startswith (message_of (run_rollback substrate input w)) "ROLLBACK CRITICAL" = false.
Proof.
  unfold events_of, message_of, outcome_of, run_rollback, RollbackWorkflow.run,
    RollbackWorkflow.resolve_backup.
  cbn [exec].
  repeat step_run_eqn substrate; cbn [fst snd]; intros Hin Hpass;
    try reflexivity; read_as_passed Hin Hpass.
Qed.

End ReportsThatSpellPass.

(** ** Health monitor runs *)

Lemma observe_alert failing options answer :
  observe (Alert failing)
    (ActivityCalled "send_notification"
       (StrArg ("HEALTH ALERT: Unhealthy containers detected!"
                  +:+ HealthMonitorWorkflow.newline +:+ Py.take 300 (report failing)))
       options answer)
  = Some (match answer with Some _ => Timer 1 | None => Nothing end).
Proof.
  unfold observe, is_text, alert_text, HealthMonitorWorkflow.newline.
  rewrite !String.eqb_refl. reflexivity.
Qed.

Lemma observe_diagnosis failing options answer :
  observe (Diagnosis failing)
    (ActivityCalled "agent_analyze"
       (StrArg ("Analyze these health check results and diagnose the issue:"
                  +:+ HealthMonitorWorkflow.newline +:+ report failing))
       options answer)
  = Some (match answer with
          | Some analysis => DiagnosisNotice analysis
          | None => Nothing
          end).
Proof.
  unfold observe, is_text, diagnosis_prompt, HealthMonitorWorkflow.newline.
  rewrite !String.eqb_refl. reflexivity.
Qed.

Lemma observe_notice analysis options answer :
  observe (DiagnosisNotice analysis)
    (ActivityCalled "send_notification"
       (StrArg ("AI DIAGNOSIS after " +:+ Py.str_of_nat 3 +:+ " failures:"
                  +:+ HealthMonitorWorkflow.newline +:+ Py.take 400 analysis))
       options answer)
  = Some (match answer with Some _ => Timer 0 | None => Nothing end).
Proof.
  unfold observe, is_text, diagnosis_text, HealthMonitorWorkflow.newline.
  change (Py.str_of_nat 3) with "3". rewrite !String.eqb_refl. reflexivity.
Qed.

Lemma observe_check counter options result :
  observe (HealthCheck counter) (HealthChecked options (Some result))
  = if has_failures result then
      if (counter + 1 =? 1)%nat then Some (Alert result)
      else if (counter + 1 =? 3)%nat then Some (Diagnosis result)
      else Some (Timer (counter + 1))
    else Some (Timer 0).
Proof. reflexivity. Qed.

Lemma observe_timer counter seconds :
  observe (Timer counter) (Slept seconds) = Some (HealthCheck counter).
Proof. reflexivity. Qed.

Lemma observe_all_cons owed e events :
  observe_all owed (e :: events)
  = match observe owed e with
    | Some owed' => observe_all owed' events
    | None => None
    end.
Proof. reflexivity. Qed.

Lemma health_checks_cons e events :
  health_checks (e :: events)
  = ((match e with HealthChecked _ _ => 1 | _ => 0 end) + health_checks events)%nat.
Proof. unfold health_checks. cbn. destruct e; reflexivity. Qed.

Ltac observed Hfail :=
  unfold outcome_of, events_of in *; cbn [fst snd] in *;
  rewrite ?observe_all_cons, ?observe_check, ?Hfail; cbn [Nat.add Nat.eqb];
  rewrite ?observe_all_cons, ?observe_alert, ?observe_diagnosis;
  rewrite ?observe_all_cons, ?observe_notice;
  rewrite ?observe_all_cons, ?observe_timer;
  rewrite ?health_checks_cons; cbn [Nat.add].

Section MonitorClaims.

Context {World : Type} (substrate : Substrate World).

Lemma loop_end fuel interval check_count failure_count :
  (HealthMonitorWorkflow.max_checks <= check_count)%nat ->
  HealthMonitorWorkflow.loop fuel interval check_count failure_count
  = Return (Some ("HealthMonitorWorkflow completed: " +:+ Py.str_of_nat check_count
                    +:+ " checks performed")).
Proof.
  intros H. destruct fuel; cbn [HealthMonitorWorkflow.loop];
    destruct (Nat.ltb_spec check_count HealthMonitorWorkflow.max_checks); try lia; reflexivity.
Qed.

Lemma loop_accepted fuel : forall interval check_count failure_count w,
  (failure_count <= 2)%nat ->
  (check_count + fuel = HealthMonitorWorkflow.max_checks)%nat ->
  monitor_accepted failure_count fuel
    (exec substrate no_child
       (HealthMonitorWorkflow.loop fuel interval check_count failure_count) w).
Proof.
  induction fuel as [|fuel IH]; intros interval check_count failure_count w Hfc Hcc.
  - rewrite loop_end by lia. unfold monitor_accepted. cbn.
    replace check_count with HealthMonitorWorkflow.max_checks by lia.
    split; [reflexivity |]. split; [now exists failure_count | reflexivity].
  - cbn [HealthMonitorWorkflow.loop].
    destruct (Nat.ltb_spec check_count HealthMonitorWorkflow.max_checks) as [_ | Hge]; [| lia].
    cbn [exec].
    destruct (execute_health_check substrate _ w) as [[result |] w1]; [| reflexivity].
    assert (Hnext : forall fc w', (fc <= 2)%nat ->
              monitor_accepted fc fuel
                (exec substrate no_child
                   (HealthMonitorWorkflow.loop fuel interval (check_count + 1) fc) w')).
    { intros fc w' Hle. apply IH; [exact Hle | lia]. }
    clear IH. unfold monitor_accepted in *.
    destruct (has_failures result) eqn:Hfail.
    + assert (Hcases : (failure_count = 0 \/ failure_count = 1 \/ failure_count = 2)%nat) by lia.
      destruct Hcases as [-> | [-> | ->]]; cbn [Nat.add Nat.eqb Nat.leb exec].
      * destruct (execute_activity substrate "send_notification" _ _ w1) as [[sent |] w2];
          cbn [exec]; [| observed Hfail; reflexivity].
        specialize (Hnext 1%nat (sleep substrate interval w2) ltac:(lia)).
        destruct (exec substrate no_child _ (sleep substrate interval w2))
          as [[[message |] events] w3]; observed Hfail; [| exact Hnext].
        destruct Hnext as (Hm & Hobs & Hn). now rewrite Hn.
      * specialize (Hnext 2%nat (sleep substrate interval w1) ltac:(lia)).
        destruct (exec substrate no_child _ (sleep substrate interval w1))
          as [[[message |] events] w3]; observed Hfail; [| exact Hnext].
        destruct Hnext as (Hm & Hobs & Hn). now rewrite Hn.
      * destruct (execute_activity substrate "agent_analyze" _ _ w1) as [[analysis |] w2];
          cbn [exec]; [| observed Hfail; reflexivity].
        destruct (execute_activity substrate "send_notification" _ _ w2) as [[sent |] w3];
          cbn [exec]; [| observed Hfail; reflexivity].
        specialize (Hnext 0%nat (sleep substrate interval w3) ltac:(lia)).
        destruct (exec substrate no_child _ (sleep substrate interval w3))
          as [[[message |] events] w4]; observed Hfail; [| exact Hnext].
        destruct Hnext as (Hm & Hobs & Hn). now rewrite Hn.
    + cbn [exec].
      specialize (Hnext 0%nat (sleep substrate interval w1) ltac:(lia)).
      destruct (exec substrate no_child _ (sleep substrate interval w1))
        as [[[message |] events] w3]; observed Hfail; [| exact Hnext].
      destruct Hnext as (Hm & Hobs & Hn). now rewrite Hn.
Qed.

Lemma loop_accepted_run fuel interval check_count failure_count w
    (r : Outcome (option string) * list Event * World) :
  r = exec substrate no_child
        (HealthMonitorWorkflow.loop fuel interval check_count failure_count) w ->
  (failure_count <= 2)%nat ->
  (check_count + fuel = HealthMonitorWorkflow.max_checks)%nat ->
  match outcome_of r with
  | Finished message =>
      message = Some "HealthMonitorWorkflow completed: 1440 checks performed"
      /\ (exists counter, observe_all (HealthCheck failure_count) (events_of r)
                          = Some (HealthCheck counter))
      /\ health_checks (events_of r) = fuel
  | Aborted => observe_all (HealthCheck failure_count) (events_of r) = Some Nothing
  end.
Proof.
  intros -> Hfc Hcc.
  exact (loop_accepted fuel interval check_count failure_count w Hfc Hcc).
Qed.

Lemma run_monitor_unfold interval_seconds w :
  run_monitor substrate interval_seconds w
  = exec substrate no_child
      (HealthMonitorWorkflow.loop HealthMonitorWorkflow.max_checks interval_seconds 0 0) w.
Proof. reflexivity. Qed.

(** C9.  Every run of the health monitor, in every world, is accepted by
    the observer [observe_all] started with the counter at zero: a failing
    check that brings the counter to 1 is followed by exactly one alert
    notification; a successful check sets the counter to zero; a failing
    check that brings the counter to exactly 3 is followed by one call of
    the diagnostic analysis on the failing report and one notification
    that carries its answer, after which the counter is zero again, so
    that the next failure opens a new streak; no other notification or
    analysis is ever sent, and a timer follows each iteration.  A run that no call fails ends after 1440 checks with
    nothing owed; a run in which a call fails for good ends at that
    call. *)
Theorem monitor_follows_the_counter_rules (interval_seconds : Z) (w : World) :
  let r := run_monitor substrate interval_seconds w in
  match outcome_of r with
  | Finished message =>
      message = Some "HealthMonitorWorkflow completed: 1440 checks performed"
      /\ (exists counter, observe_all (HealthCheck 0) (events_of r)
                          = Some (HealthCheck counter))
      /\ health_checks (events_of r) = HealthMonitorWorkflow.max_checks
  | Aborted => observe_all (HealthCheck 0) (events_of r) = Some Nothing
  end.
Proof.
  intros r.
  apply (loop_accepted_run HealthMonitorWorkflow.max_checks interval_seconds 0 0 w r
           (run_monitor_unfold interval_seconds w) (Nat.le_0_l 2) (Nat.add_0_l _)).
Qed.

End MonitorClaims.

(** Scenario: health checks fail on iterations 1, 2 and 3 and pass from
    then on.  One alert after iteration 1, one diagnostic call after
    iteration 3, the counter back at zero after it, and nothing more in
    the rest of the run. *)
Example monitor_three_failures :
  let events :=
    events_of (run_monitor (Scenario.substrate "healthy" None Scenario.three_failures) 60 0) in
  observe_all (HealthCheck 0) (firstn 3 events) = Some (HealthCheck 1)
  /\ called "send_notification" (firstn 3 events) = 1%nat
  /\ observe_all (HealthCheck 0) (firstn 5 events) = Some (HealthCheck 2)
  /\ observe_all (HealthCheck 0) (firstn 9 events) = Some (HealthCheck 0)
  /\ called "agent_analyze" (firstn 9 events) = 1%nat
  /\ called "agent_analyze" events = 1%nat
  /\ called "send_notification" events = 2%nat.
Proof. vm_compute. repeat split; reflexivity. Qed.

(** The activity marks a report as failing on either marker. *)
Example health_check_marks_failures :
  has_failures (fst (health_check_activity (fun w : unit => (Scenario.three_failures 0, w)) tt))
    = true
  /\ has_failures (fst (health_check_activity (fun w : unit => (Scenario.three_failures 3, w)) tt))
      = false
  /\ has_failures
       (fst (health_check_activity
               (fun w : unit => ("ERROR: Could not list containers for health check.", w)) tt))
      = true.
Proof. repeat split; reflexivity. Qed.

(** ** Facts about ordered dictionaries *)

Section DictFacts.

Context {V : Type}.

Implicit Types (d : list (string * V)) (k : string) (v : V).

Lemma get_set_eq k v d : PyDict.get k (PyDict.set k v d) = Some v.
Proof.
  induction d as [|[k' v'] d IH]; cbn.
  - now rewrite String.eqb_refl.
  - destruct (String.eqb k k') eqn:E; cbn; rewrite ?String.eqb_refl, ?E; auto.
Qed.

Lemma get_set_ne k k' v d : k <> k' -> PyDict.get k' (PyDict.set k v d) = PyDict.get k' d.
Proof.
  intros Hne. induction d as [|[k0 v0] d IH]; cbn.
  - destruct (String.eqb_spec k' k); [congruence | reflexivity].
  - destruct (String.eqb_spec k k0) as [-> | Hk]; cbn.
    + destruct (String.eqb_spec k' k0); [congruence | reflexivity].
    + destruct (String.eqb_spec k' k0); [reflexivity | exact IH].
Qed.

Lemma get_Some_keys k v d : PyDict.get k d = Some v -> In k (PyDict.keys d).
Proof.
  induction d as [|[k0 v0] d IH]; cbn; [discriminate |].
  destruct (String.eqb_spec k k0) as [-> | Hk]; [now left | right; auto].
Qed.

Lemma keys_get k d : In k (PyDict.keys d) -> exists v, PyDict.get k d = Some v.
Proof.
  induction d as [|[k0 v0] d IH]; cbn; [intros [] |].
  intros H. destruct (String.eqb_spec k k0) as [-> | Hk]; [eauto |].
  destruct H as [-> | H]; [congruence | auto].
Qed.

Lemma keys_set_new k v d :
  ~ In k (PyDict.keys d) -> PyDict.keys (PyDict.set k v d) = PyDict.keys d ++ [k].
Proof.
  induction d as [|[k0 v0] d IH]; cbn; [reflexivity |].
  intros Hn. destruct (String.eqb_spec k k0) as [-> | Hk]; [tauto |].
  cbn. f_equal. apply IH. tauto.
Qed.

Lemma keys_set_old k v d :
  In k (PyDict.keys d) -> PyDict.keys (PyDict.set k v d) = PyDict.keys d.
Proof.
  induction d as [|[k0 v0] d IH]; cbn; [intros [] |].
  intros H. destruct (String.eqb_spec k k0) as [-> | Hk]; [reflexivity |].
  cbn. f_equal. apply IH. destruct H; [congruence | assumption].
Qed.

Lemma keys_set_In k v d x :
  In x (PyDict.keys (PyDict.set k v d)) <-> x = k \/ In x (PyDict.keys d).
Proof.
  destruct (in_dec string_dec k (PyDict.keys d)) as [Hin | Hn].
  - rewrite keys_set_old by assumption. split; [auto | intros [-> | H]; auto].
  - rewrite keys_set_new by assumption. rewrite in_app_iff. cbn. intuition.
Qed.

Lemma keys_set_NoDup k v d :
  List.NoDup (PyDict.keys d) -> List.NoDup (PyDict.keys (PyDict.set k v d)).
Proof.
  intros Hd. destruct (in_dec string_dec k (PyDict.keys d)) as [Hin | Hn].
  - now rewrite keys_set_old.
  - rewrite keys_set_new by assumption. apply List.NoDup_app; auto.
    + constructor; [intros [] | constructor].
    + intros x Hx [<- | []]. contradiction.
Qed.

(** Setting the keys of [l] one after the other. *)
Lemma keys_set_all l v : forall d,
  List.NoDup (PyDict.keys d) ->
  List.NoDup (PyDict.keys (fold_left (fun d k => PyDict.set k v d) l d))
  /\ (forall x, In x (PyDict.keys (fold_left (fun d k => PyDict.set k v d) l d))
                <-> In x (PyDict.keys d) \/ In x l)
  /\ (List.NoDup (PyDict.keys d ++ l) ->
      PyDict.keys (fold_left (fun d k => PyDict.set k v d) l d) = PyDict.keys d ++ l).
Proof.
  induction l as [|k l IH]; intros d Hd; cbn [fold_left].
  - split; [exact Hd |]. split; [cbn; intuition |]. now rewrite app_nil_r.
  - destruct (IH (PyDict.set k v d) (keys_set_NoDup k v d Hd)) as (Hn & Hin & Heq).
    split; [exact Hn |]. split.
    + intros x. rewrite Hin, keys_set_In. cbn. intuition.
    + intros Hnd.
      assert (Hk : ~ In k (PyDict.keys d)).
      { intros Hk. apply List.NoDup_remove_2 in Hnd. apply Hnd.
        apply in_or_app. now left. }
      rewrite Heq; rewrite keys_set_new by exact Hk.
      * now rewrite <- app_assoc.
      * now rewrite <- app_assoc.
Qed.

Lemma keys_from_keys l v :
  List.NoDup (PyDict.keys (PyDict.from_keys l v))
  /\ (forall x, In x (PyDict.keys (PyDict.from_keys l v)) <-> In x l)
  /\ (List.NoDup l -> PyDict.keys (PyDict.from_keys l v) = l).
Proof.
  destruct (keys_set_all l v [] (List.NoDup_nil _)) as (Hn & Hin & Heq).
  split; [exact Hn |]. split.
  - intros x. rewrite (Hin x). cbn. intuition.
  - exact Heq.
Qed.

End DictFacts.

(** ** The specification compiler *)

Lemma names_at_snoc stage svc_list svc :
  names_at stage (svc_list ++ [svc])
  = names_at stage svc_list ++ (if (stage_of svc =? stage)%Z then [name_of svc] else []).
Proof.
  unfold names_at. rewrite List.filter_app, map_app. cbn.
  destruct (stage_of svc =? stage)%Z; reflexivity.
Qed.

Lemma names_at_In stage svc_list name :
  In name (names_at stage svc_list)
  <-> exists svc, In svc svc_list /\ name_of svc = name /\ stage_of svc = stage.
Proof.
  unfold names_at. rewrite in_map_iff. split.
  - intros (svc & Hn & Hin). apply List.filter_In in Hin as [Hin Hs].
    exists svc. repeat split; auto. now apply Z.eqb_eq.
  - intros (svc & Hin & Hn & Hs). exists svc. split; [exact Hn |].
    apply List.filter_In. split; [exact Hin | now apply Z.eqb_eq].
Qed.

Lemma names_at_NoDup stage svc_list :
  List.NoDup (map name_of svc_list) -> List.NoDup (names_at stage svc_list).
Proof.
  unfold names_at. induction svc_list as [|svc l IH]; cbn; [constructor |].
  intros Hnd. apply List.NoDup_cons_iff in Hnd as [Hn Hnd].
  destruct (stage_of svc =? stage)%Z; cbn; [| auto].
  constructor; [| auto].
  intros Hin. apply Hn. apply in_map_iff in Hin as (svc' & Heq & Hin).
  apply List.filter_In in Hin as [Hin _]. apply in_map_iff. eauto.
Qed.

Lemma same_name_same_service svc_list svc svc' :
  List.NoDup (map name_of svc_list) ->
  In svc svc_list -> In svc' svc_list -> name_of svc = name_of svc' -> svc = svc'.
Proof.
  induction svc_list as [|s l IH]; cbn; [intros _ [] |].
  intros Hnd H H' Hname. apply List.NoDup_cons_iff in Hnd as [Hn Hnd].
  destruct H as [-> | H], H' as [-> | H']; auto.
  - exfalso. apply Hn. rewrite Hname. now apply in_map.
  - exfalso. apply Hn. rewrite <- Hname. now apply in_map.
Qed.

Lemma group_by_stage_fold stage :
  forall svc_list (by_stage : gmap Z (list string)) names,
  by_stage !! stage = Some names ->
  fold_left
    (fun (by_stage : gmap Z (list string)) svc =>
       alter (fun names => names ++ [info_name svc]) (stage_of_role (info_role svc)) by_stage)
    (map service_info svc_list) by_stage !! stage
  = Some (names ++ names_at stage svc_list).
Proof.
  induction svc_list as [|svc l IH]; intros by_stage names Hl; cbn [map fold_left].
  - now rewrite app_nil_r.
  - change (svc :: l) with ([svc] ++ l).
    unfold names_at. rewrite List.filter_app, map_app. fold (names_at stage l).
    cbn [List.filter map app].
    change (stage_of_role (info_role (service_info svc))) with (stage_of svc).
    destruct (Z.eqb_spec (stage_of svc) stage) as [E | E].
    + erewrite IH; [now rewrite <- app_assoc |].
      rewrite E, lookup_alter_eq, Hl. reflexivity.
    + erewrite IH; [reflexivity |]. rewrite lookup_alter_ne by exact E. exact Hl.
Qed.

Lemma group_by_stage_lookup stage svc_list :
  stage = 1%Z \/ stage = 2%Z \/ stage = 3%Z ->
  group_by_stage (map service_info svc_list) !!! stage = names_at stage svc_list.
Proof.
  intros Hs. apply lookup_total_correct. unfold group_by_stage.
  rewrite (group_by_stage_fold stage svc_list _ []); [reflexivity |].
  destruct Hs as [-> | [-> | ->]]; reflexivity.
Qed.

Lemma insert_all_lookup (v : list string) (l : list string) :
  forall (m : gmap string (list string)) x,
  fold_left (fun deps name => <[name := v]> deps) l m !! x
  = if Py.mem x l then Some v else m !! x.
Proof.
  induction l as [|k l IH]; intros m x; cbn [fold_left]; [reflexivity |].
  rewrite IH, mem_cons. destruct (Py.mem x l); [now rewrite orb_true_r |].
  rewrite orb_false_r. destruct (String.eqb_spec x k) as [-> | Hk].
  - now rewrite lookup_insert_eq.
  - rewrite lookup_insert_ne; [reflexivity | congruence].
Qed.

Lemma fold_left_id {A B : Type} (l : list B) (a : A) : fold_left (fun a _ => a) l a = a.
Proof. induction l; cbn; auto. Qed.

Lemma auto_deps_lookup svc_list name :
  let s1 := names_at 1 svc_list in
  let s2 := names_at 2 svc_list in
  let s3 := names_at 3 svc_list in
  _auto_detect_dependencies (map service_info svc_list) !! name
  = if Py.mem name s3 && (Py.nonempty s2 || Py.nonempty s1)
    then Some (if Py.nonempty s2 then s2 else s1)
    else if Py.mem name s2 && Py.nonempty s1 then Some s1 else None.
Proof.
  cbn zeta. unfold _auto_detect_dependencies.
  rewrite !group_by_stage_lookup by auto.
  set (s1 := names_at 1 svc_list). set (s2 := names_at 2 svc_list).
  set (s3 := names_at 3 svc_list).
  assert (H1 : fold_left
                 (fun (deps : gmap string (list string)) name =>
                    if Py.nonempty s1 then <[name := s1]> deps else deps) s2 ∅ !! name
               = if Py.mem name s2 && Py.nonempty s1 then Some s1 else None).
  { destruct (Py.nonempty s1).
    - rewrite insert_all_lookup, andb_true_r. reflexivity.
    - rewrite fold_left_id, andb_false_r. reflexivity. }
  destruct (Py.nonempty s2) eqn:E2.
  - rewrite insert_all_lookup. cbn [orb]. rewrite andb_true_r.
    destruct (Py.mem name s3); [reflexivity | exact H1].
  - destruct (Py.nonempty s1) eqn:E1.
    + rewrite insert_all_lookup. cbn [orb]. rewrite andb_true_r.
      destruct (Py.mem name s3); [reflexivity |]. exact H1.
    + rewrite fold_left_id. cbn [orb]. rewrite andb_false_r. exact H1.
Qed.

Lemma same_but_volumes_refl d : same_but_volumes d d.
Proof. repeat split. Qed.

Lemma same_but_volumes_append v d d' :
  same_but_volumes d d' -> same_but_volumes d (append_volume v d').
Proof. intros (H1 & H2 & H3). repeat split; assumption. Qed.

Lemma user_volumes_same vols : forall paths d named,
  same_but_volumes d (snd (fst (user_volumes vols (paths, d, named)))).
Proof.
  unfold user_volumes.
  assert (G : forall acc d0,
             same_but_volumes d0 (snd (fst acc)) ->
             same_but_volumes d0
               (snd (fst (fold_left
                  (fun acc v =>
                     let '(user_mount_paths, service_def, named) := acc in
                     let '(user_mount_paths, named) :=
                       if Py.contains ":" v then
                         let vol_name := hd "" (Py.split ":" v) in
                         let mount_path := nth 1 (Py.split ":" v) "" in
                         (({[mount_path]} ∪ user_mount_paths : gset string),
                          if negb (Py.startswith vol_name "/")
                             && negb (Py.startswith vol_name ".")
                          then PyDict.set vol_name "local" named else named)
                       else (user_mount_paths, named) in
                     (user_mount_paths, append_volume v service_def, named))
                  vols acc)))).
  { induction vols as [|v vols IH]; intros [[paths d] named] d0 H; cbn [fold_left];
      [exact H |].
    apply IH. destruct (Py.contains ":" v); cbn; now apply same_but_volumes_append. }
  intros paths d named. apply G. apply same_but_volumes_refl.
Qed.

Lemma default_volumes_same name paths vol_defs : forall d named,
  same_but_volumes d (fst (default_volumes name paths vol_defs (d, named))).
Proof.
  unfold default_volumes.
  assert (G : forall acc d0,
             same_but_volumes d0 (fst acc) ->
             same_but_volumes d0
               (fst (fold_left
                  (fun acc vol_def =>
                     let '(service_def, named) := acc in
                     if bool_decide (vd_mount vol_def ∈ paths) then acc
                     else
                       let vol_name :=
                         if negb (Py.startswith (vd_name vol_def) name)
                         then name +:+ "_" +:+ vd_name vol_def else vd_name vol_def in
                       let vol_mapping := vol_name +:+ ":" +:+ vd_mount vol_def in
                       (append_volume vol_mapping service_def,
                        PyDict.set vol_name "local" named))
                  vol_defs acc))).
  { induction vol_defs as [|vd vol_defs IH]; intros [d named] d0 H; cbn [fold_left];
      [exact H |].
    apply IH. destruct (bool_decide _); cbn; [exact H |].
    now apply same_but_volumes_append. }
  intros d named. apply G. apply same_but_volumes_refl.
Qed.

Lemma build_service_spec timestamp auto_deps svc compose :
  exists d named,
    build_service timestamp auto_deps svc (service_info svc) compose
      = (PyDict.set (name_of svc) d (fst compose), named)
    /\ sd_image d = image_of svc
    /\ sd_depends_on d = depends_field auto_deps svc
    /\ PyDict.get "stage" (sd_labels d) = Some (stage_label svc).
Proof.
  destruct compose as [compose_services compose_volumes].
  unfold build_service.
  set (d0 := mkServiceDef _ _ _ _ _ _ _ _ _ _ _ _ _ _).
  pose proof (user_volumes_same (default [] (spec_volumes svc)) ∅ d0 compose_volumes) as Hu.
  destruct (user_volumes _ (∅, d0, compose_volumes)) as [[paths d1] named1].
  cbn [fst snd] in Hu.
  set (defaults := match info_svc_type (service_info svc) with
                   | Some t => if Py.truthy t then PyDict.get t SERVICE_DEFAULTS else None
                   | None => None
                   end) in *.
  assert (Hd : exists d named,
             match defaults with
             | Some dflt => default_volumes (name_of svc) paths (volumes_default dflt)
                              (d1, named1)
             | None => (d1, named1)
             end = (d, named) /\ same_but_volumes d1 d).
  { destruct defaults as [dflt |].
    - pose proof (default_volumes_same (name_of svc) paths (volumes_default dflt) d1 named1) as H.
      destruct (default_volumes _ _ _ _) as [d named]. eauto.
    - exists d1, named1. split; [reflexivity | apply same_but_volumes_refl]. }
  destruct Hd as (d & named & -> & (Hi & Hdep & Hl)).
  destruct Hu as (Hi1 & Hdep1 & Hl1).
  exists d, named. split; [reflexivity |].
  rewrite Hi, Hi1, Hdep, Hdep1, Hl, Hl1. repeat split.
Qed.

Section Pass2.

Variables (timestamp : string) (auto_deps : gmap string (list string)).

Lemma pass2_cons svc svc_list compose :
  pass2 timestamp auto_deps (svc :: svc_list) compose
  = pass2 timestamp auto_deps svc_list
      (build_service timestamp auto_deps svc (service_info svc) compose).
Proof. reflexivity. Qed.

Lemma pass2_other name : forall svc_list compose,
  ~ In name (map name_of svc_list) ->
  PyDict.get name (fst (pass2 timestamp auto_deps svc_list compose))
  = PyDict.get name (fst compose).
Proof.
  induction svc_list as [|svc l IH]; intros compose Hn; [reflexivity |].
  rewrite pass2_cons, IH by (intros H; apply Hn; now right).
  destruct (build_service_spec timestamp auto_deps svc compose) as (d & named & -> & _).
  cbn [fst]. apply get_set_ne. intros E. apply Hn. left. exact E.
Qed.




Lemma pass2_definition svc : forall svc_list compose,
  List.NoDup (map name_of svc_list) -> In svc svc_list ->
  exists d,
    PyDict.get (name_of svc) (fst (pass2 timestamp auto_deps svc_list compose)) = Some d
    /\ sd_image d = image_of svc
    /\ sd_depends_on d = depends_field auto_deps svc
    /\ PyDict.get "stage" (sd_labels d) = Some (stage_label svc).
Proof.
  induction svc_list as [|s l IH]; intros compose Hnd Hin; [destruct Hin |].
  cbn [map] in Hnd. apply List.NoDup_cons_iff in Hnd as [Hn Hnd].
  rewrite pass2_cons. destruct Hin as [-> | Hin]; [| now apply IH].
  rewrite pass2_other by exact Hn.
  destruct (build_service_spec timestamp auto_deps svc compose)
    as (d & named & -> & Hi & Hd & Hl).
  exists d. cbn [fst]. rewrite get_set_eq. auto.
Qed.

End Pass2.

Lemma build_compose_services timestamp svc_list :
  services (build_compose timestamp svc_list)
  = fst (pass2 timestamp (_auto_detect_dependencies (map service_info svc_list))
           svc_list ([], [])).
Proof.
  unfold build_compose, pass2.
  destruct (fold_left _ _ _) as [compose_services compose_volumes]. reflexivity.
Qed.

Lemma plan_stage_of d svc : sd_image d = image_of svc -> plan_stage d = stage_of svc.
Proof. intros H. unfold plan_stage, stage_of. rewrite H. reflexivity. Qed.

(** With distinct names, the dependencies pass 2 writes for a service
    that brought no list of its own are the inferred ones. *)
Lemma inferred_dependencies timestamp svc_list svc :
  List.NoDup (map name_of svc_list) -> In svc svc_list ->
  exists d,
    PyDict.get (name_of svc) (services (build_compose timestamp svc_list)) = Some d
    /\ sd_image d = image_of svc
    /\ PyDict.get "stage" (sd_labels d) = Some (stage_label svc)
    /\ match default [] (spec_depends_on svc) with
       | [] => dependencies d = inferred svc_list svc
       | _ :: _ =>
           sd_depends_on d = Some (healthy_conditions (default [] (spec_depends_on svc)))
       end.
Proof.
  intros Hnd Hin. rewrite build_compose_services.
  destruct (pass2_definition timestamp
              (_auto_detect_dependencies (map service_info svc_list))
              svc svc_list ([], []) Hnd Hin)
    as (d & Hget & Hi & Hdep & Hl).
  exists d. split; [exact Hget |]. split; [exact Hi |]. split; [exact Hl |].
  unfold dependencies. rewrite Hdep. unfold depends_field.
  destruct (default [] (spec_depends_on svc)) as [|e explicit]; [| reflexivity].
  cbn [Py.nonempty]. rewrite auto_deps_lookup. cbn zeta.
  assert (Hat : forall k, In (name_of svc) (names_at k svc_list) <-> stage_of svc = k).
  { intros k. rewrite names_at_In. split.
    - intros (svc' & Hin' & Hname & Hs).
      now rewrite (same_name_same_service svc_list svc svc' Hnd Hin Hin' (eq_sym Hname)).
    - intros Hs. eauto. }
  assert (Hkeys : forall k, PyDict.keys (healthy_conditions (names_at k svc_list))
                            = names_at k svc_list).
  { intros k. apply keys_from_keys. now apply names_at_NoDup. }
  unfold inferred.
  destruct (Z.eqb_spec (stage_of svc) 2) as [E2 | E2].
  - rewrite (mem_false _ (names_at 3 svc_list)) by (rewrite Hat; lia).
    cbn [andb]. rewrite (proj2 (mem_In _ _) (proj2 (Hat 2%Z) E2)). cbn [andb].
    destruct (Py.nonempty (names_at 1 svc_list)) eqn:E1; [apply Hkeys |].
    now rewrite (nonempty_false _ E1).
  - destruct (Z.eqb_spec (stage_of svc) 3) as [E3 | E3].
    + rewrite (proj2 (mem_In _ _) (proj2 (Hat 3%Z) E3)). cbn [andb].
      rewrite (mem_false _ (names_at 2 svc_list)) by (rewrite Hat; lia). cbn [andb].
      destruct (Py.nonempty (names_at 2 svc_list)) eqn:N2; cbn [orb]; [apply Hkeys |].
      destruct (Py.nonempty (names_at 1 svc_list)) eqn:N1; [apply Hkeys |].
      now rewrite (nonempty_false _ N1).
    + rewrite (mem_false _ (names_at 3 svc_list)) by (rewrite Hat; lia).
      rewrite (mem_false _ (names_at 2 svc_list)) by (rewrite Hat; lia).
      reflexivity.
Qed.

Lemma stage_of_role_cases role :
  In role ["database"; "cache"; "queue"; "proxy"; "backend"; "unknown"] ->
  stage_of_role role = 1%Z \/ stage_of_role role = 2%Z \/ stage_of_role role = 3%Z.
Proof.
  cbn. intros H.
  repeat (destruct H as [<- | H]; [vm_compute; auto |]). destruct H.
Qed.

Lemma detected_role_cases image svc_type :
  In (_detect_service_role image svc_type)
     ["database"; "cache"; "queue"; "proxy"; "backend"; "unknown"].
Proof.
  assert (Hb : In (backend_or_unknown image)
                 ["database"; "cache"; "queue"; "proxy"; "backend"; "unknown"]).
  { unfold backend_or_unknown. destruct (existsb _ _); cbn; auto 10. }
  unfold _detect_service_role. destruct svc_type as [t |]; [| exact Hb].
  destruct (Py.truthy t); [| exact Hb].
  destruct (SERVICE_ROLES !! t) as [role |] eqn:E; [| exact Hb].
  unfold SERVICE_ROLES in E. apply elem_of_list_to_map_2 in E.
  repeat (apply elem_of_cons in E as [E | E]; [injection E as _ ->; cbn; auto 10 |]).
  now apply elem_of_nil in E.
Qed.

(** Every service is of stage 1, 2 or 3. *)
Lemma stage_of_range svc : stage_of svc = 1%Z \/ stage_of svc = 2%Z \/ stage_of svc = 3%Z.
Proof. apply stage_of_role_cases, detected_role_cases. Qed.

(** C3, as stated, fails: a database told to wait for the proxy is
    compiled with that dependency, from stage 1 on stage 3. *)
Lemma explicit_dependency_breaks_stage_order :
  ~ stage_monotonic (build_compose Scenario.the_time Scenario.database_on_proxy).
Proof.
  intros H.
  set (plan := build_compose Scenario.the_time Scenario.database_on_proxy) in *.
  assert (E : exists d d',
             PyDict.get "db" (services plan) = Some d
             /\ PyDict.get "web" (services plan) = Some d'
             /\ In "web" (dependencies d)
             /\ plan_stage d = 1%Z /\ plan_stage d' = 3%Z).
  { eexists _, _. split; [vm_compute; reflexivity |]. split; [vm_compute; reflexivity |].
    split; [vm_compute; auto |]. split; vm_compute; reflexivity. }
  destruct E as (d & d' & Hd & Hd' & Hin & Hs & Hs').
  specialize (H "db" d "web" d' Hd Hin Hd'). lia.
Qed.

(** What the plan of that list records: stage labels and dependencies. *)
Example database_waits_for_proxy :
  map (fun entry => (fst entry, PyDict.get "stage" (sd_labels (snd entry)),
                     dependencies (snd entry)))
      (services (build_compose Scenario.the_time Scenario.database_on_proxy))
  = [ ("db", Some "1-database", ["web"]); ("web", Some "3-proxy", ["db"]) ].
Proof. vm_compute. reflexivity. Qed.

(** C3, as the code has it.  In the plan compiled from a service list
    with pairwise distinct names, every service that brought no
    dependency list of its own (none, or an empty one) depends only on
    services of the plan that are of a strictly lower stage; the plan
    records the stage of the service in its [stage] label.  Dependency
    lists brought by the caller are copied unchecked. *)
Theorem inferred_dependencies_respect_stages timestamp svc_list svc :
  List.NoDup (map name_of svc_list) ->
  In svc svc_list ->
  default [] (spec_depends_on svc) = [] ->
  exists d,
    PyDict.get (name_of svc) (services (build_compose timestamp svc_list)) = Some d
    /\ plan_stage d = stage_of svc
    /\ PyDict.get "stage" (sd_labels d) = Some (stage_label svc)
    /\ forall dep, In dep (dependencies d) ->
         exists d',
           PyDict.get dep (services (build_compose timestamp svc_list)) = Some d'
           /\ (plan_stage d' < plan_stage d)%Z.
Proof.
  intros Hnd Hin Hnone.
  destruct (inferred_dependencies timestamp svc_list svc Hnd Hin) as (d & Hget & Hi & Hl & Hdep).
  rewrite Hnone in Hdep. exists d. split; [exact Hget |].
  rewrite (plan_stage_of d svc Hi). split; [reflexivity |]. split; [exact Hl |].
  intros dep Hdepin. rewrite Hdep in Hdepin.
  assert (Hlow : exists k, In dep (names_at k svc_list) /\ (k < stage_of svc)%Z).
  { unfold inferred in Hdepin.
    destruct (Z.eqb_spec (stage_of svc) 2) as [E2 | E2]; [exists 1%Z; split; [auto | lia] |].
    destruct (Z.eqb_spec (stage_of svc) 3) as [E3 | E3]; [| destruct Hdepin].
    destruct (Py.nonempty (names_at 2 svc_list));
      [exists 2%Z | exists 1%Z]; (split; [auto | lia]). }
  destruct Hlow as (k & Hk & Hlt). apply names_at_In in Hk as (svc' & Hin' & Hname & Hs).
  destruct (inferred_dependencies timestamp svc_list svc' Hnd Hin') as (d' & Hget' & Hi' & _).
  exists d'. rewrite <- Hname. split; [exact Hget' |].
  rewrite (plan_stage_of d' svc' Hi'). lia.
Qed.

Ltac distinct_names :=
  cbn; repeat (constructor; [cbn; intuition congruence |]); constructor.

Lemma inferred_dependencies_respect_stages_witness :
  exists d,
    PyDict.get "web" (services (build_compose Scenario.the_time Scenario.three_tiers)) = Some d
    /\ plan_stage d = 3%Z
    /\ PyDict.get "stage" (sd_labels d) = Some "3-proxy"
    /\ forall dep, In dep (dependencies d) ->
         exists d',
           PyDict.get dep (services (build_compose Scenario.the_time Scenario.three_tiers))
             = Some d'
           /\ (plan_stage d' < plan_stage d)%Z.
Proof.
  apply (inferred_dependencies_respect_stages Scenario.the_time Scenario.three_tiers
           (Scenario.service "web" "nginx:latest" None)).
  - distinct_names.
  - cbn. auto.
  - reflexivity.
Defined.

(** C4, as stated, fails: a backend that brings an empty dependency
    list of its own does not get exactly that list, it gets the inferred
    dependency on the database. *)
Lemma empty_explicit_list_is_overridden :
  ~ (forall svc, In svc Scenario.opted_out ->
       exists d,
         PyDict.get (name_of svc)
           (services (build_compose Scenario.the_time Scenario.opted_out)) = Some d
         /\ dependencies d = claimed_dependencies Scenario.opted_out svc).
Proof.
  intros H.
  destruct (H (Scenario.service "api" "python:3.12" (Some []))) as (d & Hd & Hdeps); [cbn; auto |].
  vm_compute in Hd. injection Hd as <-. vm_compute in Hdeps. discriminate Hdeps.
Qed.

(** C4, as the code has it.  In the plan compiled from a service list
    with pairwise distinct names: a service with a non-empty dependency
    list of its own depends on the names of that list and on nothing
    else, each name once, in the order of the list when the list repeats
    no name; every other service gets the inferred dependencies, which
    are all stage-1 services for a stage-2 service, all stage-2 services
    (or all stage-1 services when there is no stage-2 service) for a
    stage-3 service, and none for a stage-1 service.  An empty list
    counts as no list. *)
Theorem dependencies_of_compiled_service timestamp svc_list svc :
  List.NoDup (map name_of svc_list) ->
  In svc svc_list ->
  exists d,
    PyDict.get (name_of svc) (services (build_compose timestamp svc_list)) = Some d
    /\ match default [] (spec_depends_on svc) with
       | [] => dependencies d = inferred svc_list svc
       | (_ :: _) as explicit =>
           (forall dep, In dep (dependencies d) <-> In dep explicit)
           /\ List.NoDup (dependencies d)
           /\ (List.NoDup explicit -> dependencies d = explicit)
       end.
Proof.
  intros Hnd Hin.
  destruct (inferred_dependencies timestamp svc_list svc Hnd Hin) as (d & Hget & _ & _ & Hdep).
  exists d. split; [exact Hget |].
  destruct (default [] (spec_depends_on svc)) as [|e explicit]; [exact Hdep |].
  unfold dependencies. rewrite Hdep. unfold healthy_conditions.
  destruct (keys_from_keys (e :: explicit) "service_healthy") as (Hn & Hi & He).
  auto.
Qed.

Lemma dependencies_of_compiled_service_witness :
  exists d,
    PyDict.get "web" (services (build_compose Scenario.the_time Scenario.three_tiers)) = Some d
    /\ dependencies d = ["api"].
Proof.
  destruct (dependencies_of_compiled_service Scenario.the_time Scenario.three_tiers
              (Scenario.service "web" "nginx:latest" None)) as (d & Hd & Hdeps).
  - distinct_names.
  - cbn. auto.
  - exists d. split; [exact Hd |]. exact Hdeps.
Defined.





(** Scenario: a cache and a backend compile with the backend waiting for
    the cache; the proxy of a three-tier list waits for the backend. *)
Example backend_depends_on_cache :
  map (fun entry => (fst entry, PyDict.get "stage" (sd_labels (snd entry)),
                     dependencies (snd entry)))
      (services (build_compose Scenario.the_time Scenario.three_tiers))
  = [ ("cache", Some "1-cache", []);
      ("api", Some "2-backend", ["cache"]);
      ("web", Some "3-proxy", ["api"]) ].
Proof. vm_compute. reflexivity. Qed.

(** Default volumes carry the name of their service. *)
Example default_volume_names :
  map (fun entry => (fst entry, sd_volumes (snd entry)))
      (services (build_compose Scenario.the_time Scenario.three_tiers))
  = [ ("cache", Some ["cache_redis_data:/data"]);
      ("api", None);
      ("web", Some ["web_nginx_config:/etc/nginx/conf.d";
                    "web_nginx_html:/usr/share/nginx/html"]) ].
Proof. vm_compute. reflexivity. Qed.

(** * Further properties of the code *)

(** ** Reports that spell PASS: the scenario of the unhealthy container *)

Lemma report_never_counts_as_failed_witness :
  Py.contains "FAIL" (Py.upper (Cases.report_of "unhealthy"))
  && negb (Py.contains "PASS" (Py.upper (Cases.report_of "unhealthy"))) = false.
Proof.
  apply (report_never_counts_as_failed (Scenario.docker "unhealthy") Scenario.lib
           Scenario.the_file EmptyString tt (Cases.report_of "unhealthy")).
  vm_compute. reflexivity.
Defined.

Lemma deploy_keeps_a_report_that_spells_pass_witness :
  existsb starts_child (events_of Scenario.failed_health_run) = false.
Proof.
  apply (deploy_keeps_a_report_that_spells_pass
           (Scenario.substrate "unhealthy" None Scenario.no_checks)
           "deploy-20250115-103000-a1b2c3" Scenario.the_file 0%nat
           (TestArg (test_input Scenario.the_file)) (mkOptions 180 (Some 120%Z) None)
           (Cases.report_of "unhealthy")).
  - vm_compute. do 4 right. left. reflexivity.
  - vm_compute. reflexivity.
Defined.

Lemma rollback_keeps_a_report_that_spells_pass_witness :
  Py.startswith (message_of Scenario.failed_backup_run) "ROLLBACK CRITICAL" = false.
Proof.
  apply (rollback_keeps_a_report_that_spells_pass
           (Scenario.substrate "unhealthy" None Scenario.no_checks)
           (mkRollbackInput Scenario.the_file Scenario.the_backup) 0%nat
           (TestArg (test_input Scenario.the_backup)) (mkOptions 180 None None)
           (match fst (run_post_deploy_tests (Scenario.docker "unhealthy") Scenario.lib
                         Scenario.the_backup EmptyString tt) with
            | inr text => text
            | inl _ => EmptyString
            end)).
  - vm_compute. do 2 right. left. reflexivity.
  - vm_compute. reflexivity.
Defined.

(** ** What the checks record, whatever the report so far *)

Ltac records_as t d := exists (t, d); split; [cbn; tauto | intros st; reflexivity].

Lemma verdict_running_records rc nr :
  exists verdict, In (fst verdict) [PASS; FAIL]
    /\ forall st, verdict_running rc nr st = record "Container Running Test" verdict st.
Proof.
  unfold verdict_running. verdict_cases.
  - records_as PASS ("   : ALL " +:+ Py.str_of_nat (length rc) +:+ " running").
  - records_as FAIL ("   : " +:+ Py.join ", " nr +:+ " not running").
  - records_as FAIL "   : No containers found".
Qed.

Lemma verdict_health_records hr :
  exists verdict, In (fst verdict) [PASS; WARN; FAIL]
    /\ forall st, verdict_health hr st = record "Health Check Test" verdict st.
Proof.
  unfold verdict_health. verdict_cases.
  - records_as FAIL ("        : " +:+ Py.join ", " hr).
  - records_as WARN ("        : " +:+ Py.join ", " hr).
  - records_as PASS ("        : " +:+ Py.join ", " hr).
Qed.

Lemma verdict_ports_records pr :
  exists verdict, In (fst verdict) [PASS; WARN; FAIL]
    /\ forall st, verdict_ports pr st = record "Port Binding Test" verdict st.
Proof.
  unfold verdict_ports. verdict_cases.
  - records_as PASS ("        : " +:+ Py.join ", " pr).
  - records_as FAIL ("        : " +:+ Py.join ", " pr).
  - records_as WARN "        : No port mappings found".
Qed.

Lemma verdict_connectivity_records cr :
  exists verdict, In (fst verdict) [PASS; WARN]
    /\ forall st, verdict_connectivity cr st = record "Connectivity Test" verdict st.
Proof.
  unfold verdict_connectivity. verdict_cases.
  - records_as WARN ("        : " +:+ Py.join ", " cr).
  - records_as PASS ("        : " +:+ Py.join ", " cr).
Qed.

Lemma verdict_volumes_records vr :
  exists verdict, In (fst verdict) [PASS; WARN]
    /\ forall st, verdict_volumes vr st = record "Volume Mount Test" verdict st.
Proof.
  unfold verdict_volumes. verdict_cases.
  - records_as WARN ("        : " +:+ Py.join ", " vr).
  - records_as PASS ("        : " +:+ Py.join ", " vr).
  - records_as PASS "        : No volumes to test".
Qed.

Lemma verdict_env_records er :
  exists verdict, In (fst verdict) [PASS; WARN]
    /\ forall st, verdict_env er st = record "Environment Variable Test" verdict st.
Proof.
  unfold verdict_env. verdict_cases.
  - records_as WARN (" : " +:+ Py.join ", " er).
  - records_as PASS (" : " +:+ Py.join ", " er).
Qed.

Lemma verdict_logs_records li :
  exists verdict, In (fst verdict) [PASS; WARN]
    /\ forall st, verdict_logs li st = record "Log Output Test" verdict st.
Proof.
  unfold verdict_logs. verdict_cases.
  - records_as WARN ("          : " +:+ Py.join "; " li).
  - records_as PASS "          : No error keywords in startup logs".
Qed.

Lemma verdict_resources_records rw :
  exists verdict, In (fst verdict) [PASS; WARN]
    /\ forall st, verdict_resources rw st = record "Resource Baseline Test" verdict st.
Proof.
  unfold verdict_resources. verdict_cases.
  - records_as WARN ("   : " +:+ Py.join ", " rw).
  - records_as PASS "   : All containers within normal limits".
Qed.

Lemma record_shape name verdict st :
  record name verdict st
  = mkState (report_lines st ++ [mkLine (fst verdict) (name +:+ snd verdict)])
      (pass_count st + (if tag_eqb (fst verdict) PASS then 1 else 0))
      (warn_count st + (if tag_eqb (fst verdict) WARN then 1 else 0))
      (fail_count st + (if tag_eqb (fst verdict) FAIL then 1 else 0)).
Proof.
  unfold record. destruct st as [ls p wn f]. destruct (fst verdict); cbn;
    rewrite ?Nat.add_0_r; reflexivity.
Qed.

(** The lines and the counts a list of verdicts adds to a state. *)
Lemma record_all_shape names verdicts : forall st,
  record_all names verdicts st
  = mkState
      (report_lines st
         ++ map (fun entry => mkLine (fst (snd entry)) (fst entry +:+ snd (snd entry)))
              (combine names verdicts))
      (pass_count st + count_status PASS
                         (map (fun entry => mkLine (fst (snd entry)) EmptyString)
                            (combine names verdicts)))
      (warn_count st + count_status WARN
                         (map (fun entry => mkLine (fst (snd entry)) EmptyString)
                            (combine names verdicts)))
      (fail_count st + count_status FAIL
                         (map (fun entry => mkLine (fst (snd entry)) EmptyString)
                            (combine names verdicts))).
Proof.
  unfold record_all. generalize (combine names verdicts) as entries.
  induction entries as [|[name verdict] entries IH]; intros st; cbn [fold_left map].
  - destruct st. unfold count_status. cbn. rewrite app_nil_r, !Nat.add_0_r. reflexivity.
  - rewrite IH, record_shape. cbn [report_lines pass_count warn_count fail_count fst snd].
    rewrite <- app_assoc. unfold count_status. cbn [List.filter tag app].
    destruct (fst verdict); cbn [tag_eqb length]; f_equal; lia.
Qed.

Lemma passes_or_warns t :
  In t [PASS; WARN] -> tag_eqb t TEST = false /\ tag_eqb t FAIL = false.
Proof. intros [<- | [<- | []]]; split; reflexivity. Qed.

Lemma no_test_status t allowed :
  In allowed possible_statuses -> In t allowed -> tag_eqb t TEST = false.
Proof.
  unfold possible_statuses. cbn [In]. intros Hallowed Hin.
  repeat (destruct Hallowed as [<- | Hallowed]; [cbn in Hin; intuition (subst; reflexivity) |]).
  destruct Hallowed.
Qed.

Lemma verdict_of_failed st :
  verdict_of st = verdict_text FAILED <-> (0 < fail_count st)%nat.
Proof.
  unfold verdict_of. destruct (Nat.ltb_spec 0 (fail_count st)) as [H | H].
  - split; [intros _; exact H | reflexivity].
  - split; [| lia]. destruct (0 <? warn_count st)%nat; discriminate.
Qed.

Lemma append_assoc a b c : (a +:+ b) +:+ c = a +:+ (b +:+ c).
Proof. induction a as [|x a IH]; [reflexivity |]. rewrite !append_cons. now rewrite IH. Qed.

Lemma contains_prefix sub s : String.prefix sub s = true -> Py.contains sub s = true.
Proof. intros H. destruct s; cbn [Py.contains]; rewrite H; reflexivity. Qed.

Section Uniform.

Context {World : Type} (rt : Runtime World) (lib : PyLib).

Ltac by_verdict lemma :=
  unfold bind, ret;
  match goal with
  | |- context [for_each ?l ?s ?body ?w] =>
      destruct (for_each l s body w) as [results w1];
      destruct (lemma results) as (verdict & Hin & Hrec);
      exists verdict, w1; split; [exact Hin | intros st; now rewrite Hrec]
  end.

Lemma test_running_records file_path (w : World) :
  exists verdict running_containers w',
    In (fst verdict) [PASS; FAIL]
    /\ forall st,
         test_running rt file_path st w
         = ((running_containers, record "Container Running Test" verdict st), w').
Proof.
  unfold test_running, bind, ret.
  destruct (_run_cmd rt _ _ w) as [r1 w1].
  destruct (_run_cmd rt _ _ w1) as [r2 w2].
  match goal with
  | |- context [verdict_running ?rc ?nr] =>
      destruct (verdict_running_records rc nr) as (verdict & Hin & Hrec);
      exists verdict, rc, w2
  end.
  split; [exact Hin | intros st; now rewrite Hrec].
Qed.

Lemma test_health_records rc (w : World) :
  exists verdict w',
    In (fst verdict) [PASS; WARN; FAIL]
    /\ forall st, test_health rt rc st w = (record "Health Check Test" verdict st, w').
Proof. unfold test_health. by_verdict verdict_health_records. Qed.

Lemma test_ports_records rc (w : World) :
  exists verdict w',
    In (fst verdict) [PASS; WARN; FAIL]
    /\ forall st, test_ports rt lib rc st w = (record "Port Binding Test" verdict st, w').
Proof. unfold test_ports. by_verdict verdict_ports_records. Qed.

Lemma test_connectivity_records rc (w : World) :
  exists verdict w',
    In (fst verdict) [PASS; WARN]
    /\ forall st, test_connectivity rt rc st w = (record "Connectivity Test" verdict st, w').
Proof.
  unfold test_connectivity.
  destruct rc as [|c1 [|c2 rest]];
    try (exists (PASS, "        : Single service — skipped"), w;
         split; [cbn; tauto | intros st; reflexivity]).
  by_verdict verdict_connectivity_records.
Qed.

Lemma test_volumes_records rc (w : World) :
  exists verdict w',
    In (fst verdict) [PASS; WARN]
    /\ forall st, test_volumes rt rc st w = (record "Volume Mount Test" verdict st, w').
Proof. unfold test_volumes. by_verdict verdict_volumes_records. Qed.

Lemma test_env_records rc (w : World) :
  exists verdict w',
    In (fst verdict) [PASS; WARN]
    /\ forall st, test_env rt rc st w = (record "Environment Variable Test" verdict st, w').
Proof. unfold test_env. by_verdict verdict_env_records. Qed.

Lemma test_logs_records rc (w : World) :
  exists verdict w',
    In (fst verdict) [PASS; WARN]
    /\ forall st, test_logs rt rc st w = (record "Log Output Test" verdict st, w').
Proof. unfold test_logs. by_verdict verdict_logs_records. Qed.

Lemma test_resources_records rc (w : World) :
  exists verdict w',
    In (fst verdict) [PASS; WARN]
    /\ forall st,
         test_resources rt lib rc st w = (record "Resource Baseline Test" verdict st, w').
Proof. unfold test_resources. by_verdict verdict_resources_records. Qed.

(** The eight checks record verdicts that do not depend on the head of
    the report. *)
Lemma engine_records file_path (w : World) :
  let started := now_strftime rt "%Y-%m-%d %H:%M:%S" w in
  match fst (_get_compose_services rt lib file_path (snd started)) with
  | inl exn =>
      forall expected_services,
        fst (run_post_deploy_tests_state rt lib file_path expected_services w) = inl exn
  | inr listed =>
      exists verdicts w',
        Forall2 (fun allowed verdict => In (fst verdict) allowed) possible_statuses verdicts
        /\ forall expected_services,
             match expected_of expected_services listed with
             | inl exn =>
                 run_post_deploy_tests_state rt lib file_path expected_services w
                 = (inl exn, snd (_get_compose_services rt lib file_path (snd started)))
             | inr expected =>
                 run_post_deploy_tests_state rt lib file_path expected_services w
                 = (inr (fst started,
                         final_lines
                           (record_all check_names verdicts
                              (mkState (header_lines file_path expected) 0 0 0))),
                    w')
             end
  end.
Proof.
  cbn zeta. unfold run_post_deploy_tests_state, bind.
  destruct (now_strftime rt _ w) as [ts w0]. cbn [fst snd].
  destruct (_get_compose_services rt lib file_path w0) as [[exn | services] w1];
    cbn [fst snd]; [reflexivity |].
  destruct (test_running_records file_path w1) as (v1 & rc & w2 & H1 & E1).
  destruct (test_health_records rc w2) as (v2 & w3 & H2 & E2).
  destruct (test_ports_records rc w3) as (v3 & w4 & H3 & E3).
  destruct (test_connectivity_records rc w4) as (v4 & w5 & H4 & E4).
  destruct (test_volumes_records rc w5) as (v5 & w6 & H5 & E5).
  destruct (test_env_records rc w6) as (v6 & w7 & H6 & E6).
  destruct (test_logs_records rc w7) as (v7 & w8 & H7 & E7).
  destruct (test_resources_records rc w8) as (v8 & w9 & H8 & E8).
  exists [v1; v2; v3; v4; v5; v6; v7; v8], w9. split.
  - unfold possible_statuses. repeat (constructor; [assumption |]). constructor.
  - intros expected_services. fold (expected_of expected_services services).
    destruct (expected_of expected_services services) as [exn | expected]; [reflexivity |].
    rewrite E1. cbn [fst snd]. rewrite E2, E3, E4, E5, E6, E7, E8. reflexivity.
Qed.

Lemma expected_of_given expected_services listed :
  Py.truthy expected_services = true ->
  expected_of expected_services listed
  = inr (map Py.strip (Py.split "," expected_services)).
Proof.
  intros Hgiven. unfold expected_of. rewrite Hgiven.
  induction (map Py.strip (Py.split "," expected_services)) as [|name names IH];
    [reflexivity |].
  cbn [map text_items]. now rewrite IH.
Qed.

Lemma expected_of_listing listed :
  expected_of EmptyString listed = inl TypeError <-> In None listed.
Proof.
  unfold expected_of. cbn [Py.truthy String.eqb negb].
  induction listed as [|[name |] listed IH]; cbn [text_items In].
  - split; [discriminate | intros []].
  - destruct (text_items listed) as [exn | names].
    + split; [intros H; right; apply IH; exact H |].
      intros [H | H]; [discriminate H | apply IH, H].
    + split; [discriminate |].
      intros [H | H]; [discriminate H |]. apply IH in H. discriminate H.
  - split; [intros _; now left | reflexivity].
Qed.

(** X4. The argument [expected_services] of the engine changes the
    [Services] line in the head of a report and nothing else of it: the
    lines of the eight checks, the three counts, the closing lines and the
    world the run ends in are the same for every value of the argument with
    which the engine reports. The argument also decides whether the head
    can be printed at all: the engine reports for every value that is not
    empty, and with the empty value it raises [TypeError], before any check
    ran, exactly when the listing names a service by a value that is no
    text. When the service listing itself raises, the engine raises for
    every value of the argument. *)
Theorem expected_services_only_name_the_services file_path (w : World) :
  let started := now_strftime rt "%Y-%m-%d %H:%M:%S" w in
  match fst (_get_compose_services rt lib file_path (snd started)) with
  | inl exn =>
      forall expected_services,
        fst (run_post_deploy_tests_state rt lib file_path expected_services w) = inl exn
  | inr listed =>
      (exists checks p wn f w',
         forall expected_services,
           match expected_of expected_services listed with
           | inl exn =>
               run_post_deploy_tests_state rt lib file_path expected_services w
               = (inl exn, snd (_get_compose_services rt lib file_path (snd started)))
           | inr expected =>
               run_post_deploy_tests_state rt lib file_path expected_services w
               = (inr (fst started,
                       mkState
                         (header_lines file_path expected
                            ++ checks
                            ++ footer_lines p wn f (verdict_text (verdict_of_counts wn f)))
                         p wn f),
                  w')
           end)
      /\ (forall expected_services,
            Py.truthy expected_services = true ->
            expected_of expected_services listed
            = inr (map Py.strip (Py.split "," expected_services)))
      /\ (expected_of EmptyString listed = inl TypeError <-> In None listed)
  end.
Proof.
  pose proof (engine_records file_path w) as H. cbn zeta in *.
  destruct (fst (_get_compose_services rt lib file_path _)) as [exn | listed];
    [exact H |].
  destruct H as (verdicts & w' & _ & Hrun).
  split; [| split; [intros e; apply expected_of_given | apply expected_of_listing]].
  eexists _, _, _, _, w'. intros expected_services.
  specialize (Hrun expected_services).
  destruct (expected_of expected_services listed) as [exn | expected]; [exact Hrun |].
  rewrite Hrun, record_all_shape, final_lines_shape, verdict_of_text.
  cbn [report_lines pass_count warn_count fail_count Nat.add].
  rewrite <- app_assoc. reflexivity.
Qed.

(** X5. In every report of the engine, check 1 is PASS or FAIL, checks 2 and
    3 are PASS, WARN or FAIL, and checks 4 to 8 (connectivity, volumes,
    environment, logs, resources) are PASS or WARN only; so the verdict is
    FAILED exactly when one of the first three checks is FAIL. *)
Theorem only_the_first_three_checks_fail file_path expected_services (w : World) :
  match fst (run_post_deploy_tests_state rt lib file_path expected_services w) with
  | inl _ => True
  | inr (_, st) =>
      Forall2 (fun allowed t => In t allowed) possible_statuses (statuses st)
      /\ (verdict_of st = verdict_text FAILED <-> In FAIL (firstn 3 (statuses st)))
  end.
Proof.
  pose proof (engine_records file_path w) as H. cbn zeta in H.
  destruct (fst (_get_compose_services rt lib file_path _)) as [exn | listed].
  - now rewrite H.
  - destruct H as (verdicts & w' & Hallowed & Hrun). specialize (Hrun expected_services).
    destruct (expected_of expected_services listed) as [exn | expected];
      rewrite Hrun; cbn [fst]; [exact I |].
    unfold possible_statuses in Hallowed.
    repeat match goal with
           | H : Forall2 _ (_ :: _) _ |- _ =>
               apply Forall2_cons_inv_l in H;
               let v := fresh "v" in
               let Hv := fresh "Hv" in
               destruct H as (v & ? & Hv & H & ->)
           | H : Forall2 _ [] _ |- _ => apply Forall2_nil_inv_l in H; subst
           end.
    rewrite verdict_of_failed.
    rewrite record_all_shape, final_lines_shape.
    unfold statuses, count_status.
    cbn [report_lines pass_count warn_count fail_count header_lines footer_lines check_names
         combine map app tag fst snd List.filter tag_eqb negb].
    pose proof (no_test_status _ [PASS; FAIL] ltac:(cbn; tauto) Hv) as E1.
    pose proof (no_test_status _ [PASS; WARN; FAIL] ltac:(cbn; tauto) Hv0) as E2.
    pose proof (no_test_status _ [PASS; WARN; FAIL] ltac:(cbn; tauto) Hv1) as E3.
    destruct (passes_or_warns _ Hv2) as [E4 F4].
    destruct (passes_or_warns _ Hv3) as [E5 F5].
    destruct (passes_or_warns _ Hv4) as [E6 F6].
    destruct (passes_or_warns _ Hv5) as [E7 F7].
    destruct (passes_or_warns _ Hv6) as [E8 F8].
    rewrite E1, E2, E3, E4, E5, E6, E7, E8, F4, F5, F6, F7, F8.
    cbn [negb firstn]. split.
    + repeat (constructor; [assumption |]). constructor.
    + clear. destruct (fst v), (fst v0), (fst v1); cbn; intuition (try lia; try discriminate).
Qed.

(** X6. When docker lists no running container for the compose file, the
    report holds FAIL for check 1, WARN for check 3 and PASS for the six
    other checks, which run over no container at all: 6 PASS, 1 WARN, 1
    FAIL, and the verdict FAILED. *)
Theorem no_running_container_fails_the_deployment file_path expected_services (w : World) :
  (forall w', name_lines (stdout (fst (_run_cmd rt (running_command file_path) 60 w'))) = []) ->
  match fst (run_post_deploy_tests_state rt lib file_path expected_services w) with
  | inl _ => True
  | inr (_, st) =>
      statuses st = [FAIL; PASS; WARN; PASS; PASS; PASS; PASS; PASS]
      /\ (pass_count st, warn_count st, fail_count st) = (6, 1, 1)%nat
      /\ verdict_of st = verdict_text FAILED
  end.
Proof.
  intros Hnone. unfold run_post_deploy_tests_state, bind.
  destruct (now_strftime rt _ w) as [ts w0].
  destruct (_get_compose_services rt lib file_path w0) as [[exn | services] w1];
    cbn [fst snd ret]; [exact I |].
  destruct (text_items _) as [exn | expected]; cbn [fst snd ret]; [exact I |].
  unfold test_running, bind, ret. specialize (Hnone w1). unfold running_command in Hnone.
  destruct (_run_cmd rt _ 60 w1) as [r1 w2]. cbn [fst] in Hnone. rewrite Hnone.
  destruct (_run_cmd rt _ 60 w2) as [r2 w3]. cbn [fst snd].
  unfold test_health, test_ports, test_connectivity, test_volumes, test_env, test_logs,
    test_resources, bind, ret. cbn [for_each ret fst snd].
  unfold verdict_running. cbn [Py.nonempty andb negb].
  destruct (Py.nonempty _); repeat split; reflexivity.
Qed.

Lemma poll_health_unsettled container rounds : forall health_results (w : World),
  health_never_settles rt container ->
  fst (poll_health rt rounds container health_results w) = (false, health_results).
Proof.
  induction rounds as [|rounds IH]; intros health_results w Hnever; [reflexivity |].
  cbn [poll_health]. unfold bind. specialize (Hnever w) as Hnow. cbn zeta in Hnow.
  destruct (_run_cmd rt _ 60 w) as [result w1]. cbn [fst] in Hnow.
  cbn [Py.mem existsb] in Hnow.
  rewrite !orb_false_iff in Hnow. destruct Hnow as (E1 & E2 & E3 & _).
  rewrite E1, E2, E3.
  destruct (time_sleep rt 5 w1) as [u w2]. apply IH, Hnever.
Qed.

(** X7. A container whose health never settles (none of healthy, unhealthy,
    no healthcheck in twelve polls) is recorded as [timeout] only if the
    text [container=] does not occur in the results so far. After a healthy
    container whose name ends with its name, it leaves no trace: the health
    verdict is the one of the healthy container alone. *)
Theorem unsettled_container_leaves_no_trace prefix container st (w : World) :
  health_reads rt (prefix +:+ container) "healthy" ->
  health_never_settles rt container ->
  fst (test_health rt [prefix +:+ container; container] st w)
  = verdict_health [prefix +:+ container +:+ "=healthy"] st.
Proof.
  intros Hhealthy Hnever. unfold test_health, bind, ret. cbn [for_each].
  unfold bind. unfold health_of at 1. unfold bind. cbn [poll_health]. unfold bind.
  specialize (Hhealthy w) as Hnow.
  destruct (_run_cmd rt _ 60 w) as [result w1]. cbn [fst] in Hnow. rewrite Hnow.
  cbn [String.eqb Ascii.eqb Bool.eqb ret fst snd negb andb app].
  unfold health_of, bind.
  pose proof (poll_health_unsettled container 12
                [(prefix +:+ container) +:+ "=healthy"] w1 Hnever) as Hpoll.
  destruct (poll_health rt 12 container _ w1) as [polled w2]. cbn [fst] in Hpoll.
  subst polled. cbn [fst snd negb andb Py.join].
  assert (Hseen : Py.contains (container +:+ "=")
                    ((prefix +:+ container) +:+ "=healthy") = true).
  { rewrite append_assoc. apply contains_app_r.
    change "=healthy" with ("=" +:+ "healthy"). rewrite <- append_assoc.
    apply contains_prefix. apply (startswith_append (container +:+ "=") "healthy"). }
  rewrite Hseen. cbn [negb ret fst]. rewrite append_assoc. reflexivity.
Qed.

Lemma timed_run_cmd cmd timeout (w : World) (slept : Z) :
  _run_cmd (timed rt) cmd timeout (w, slept)
  = (fst (_run_cmd rt cmd timeout w), (snd (_run_cmd rt cmd timeout w), slept)).
Proof.
  unfold _run_cmd. cbn [subprocess_run timed fst snd].
  destruct (subprocess_run rt cmd timeout w) as [[e | code out err] w1]; reflexivity.
Qed.

Lemma poll_health_waits container rounds : forall health_results (w : World) (slept : Z),
  (slept
   <= snd (snd (poll_health (timed rt) rounds container health_results (w, slept)))
   <= slept + 5 * Z.of_nat rounds)%Z.
Proof.
  induction rounds as [|rounds IH]; intros health_results w slept;
    [cbn [ret fst snd poll_health]; lia |].
  cbn [poll_health]. unfold bind. rewrite timed_run_cmd.
  destruct (_run_cmd rt _ 60 w) as [result w1]. cbn [fst snd].
  destruct (String.eqb (Py.strip (stdout result)) "healthy");
    [cbn [ret fst snd]; lia |].
  destruct (String.eqb (Py.strip (stdout result)) "no healthcheck");
    [cbn [ret fst snd]; lia |].
  destruct (String.eqb (Py.strip (stdout result)) "unhealthy");
    [cbn [ret fst snd]; lia |].
  cbn [time_sleep timed fst snd]. destruct (time_sleep rt 5 w1) as [u w2].
  specialize (IH health_results w2 (slept + 5)%Z). lia.
Qed.

Lemma health_of_waits container health_results (w : World) (slept : Z) :
  (slept
   <= snd (snd (health_of (timed rt) container health_results (w, slept)))
   <= slept + 60)%Z.
Proof.
  unfold health_of, bind.
  pose proof (poll_health_waits container 12 health_results w slept) as Hpoll.
  destruct (poll_health (timed rt) 12 container health_results (w, slept))
    as [[healthy results] [w1 slept1]]. cbn [fst snd] in *.
  destruct (negb healthy && negb (Py.contains (container +:+ "=") (Py.join " " results)));
    cbn [ret fst snd]; lia.
Qed.

Lemma health_waits containers : forall health_results (w : World) (slept : Z),
  (slept
   <= snd (snd (for_each containers health_results (health_of (timed rt)) (w, slept)))
   <= slept + 60 * Z.of_nat (length containers))%Z.
Proof.
  induction containers as [|container containers IH]; intros health_results w slept;
    [cbn [for_each ret fst snd length]; lia |].
  cbn [for_each]. unfold bind.
  pose proof (health_of_waits container health_results w slept) as Hone.
  destruct (health_of (timed rt) container health_results (w, slept))
    as [results [w1 slept1]]. cbn [fst snd] in Hone.
  specialize (IH results w1 slept1). cbn [length]. lia.
Qed.

(** X8. The health check of the engine sleeps at most 60 seconds per running
    container (twelve polls, five seconds apart), whatever docker answers. *)
Theorem health_check_waits_a_minute_per_container_at_most containers st (w : World) :
  (0 <= snd (snd (test_health (timed rt) containers st (w, 0%Z)))
     <= 60 * Z.of_nat (length containers))%Z.
Proof.
  unfold test_health, bind, ret.
  pose proof (health_waits containers [] w 0%Z) as H.
  destruct (for_each containers [] (health_of (timed rt)) (w, 0%Z)) as [results [w1 slept]].
  cbn [fst snd] in *. lia.
Qed.

End Uniform.

Lemma no_running_container_fails_the_deployment_witness :
  match fst (run_post_deploy_tests_state Scenario.empty_docker Scenario.lib
               Scenario.the_file EmptyString tt) with
  | inl _ => True
  | inr (_, st) =>
      statuses st = [FAIL; PASS; WARN; PASS; PASS; PASS; PASS; PASS]
      /\ (pass_count st, warn_count st, fail_count st) = (6, 1, 1)%nat
      /\ verdict_of st = verdict_text FAILED
  end.
Proof.
  apply (no_running_container_fails_the_deployment Scenario.empty_docker Scenario.lib
           Scenario.the_file EmptyString tt).
  intros []. reflexivity.
Defined.

Lemma unsettled_container_leaves_no_trace_witness :
  fst (test_health Cases.starting_db ["shop-" +:+ "db"; "db"]
         (mkState [] 0 0 0) tt)
  = verdict_health ["shop-" +:+ "db" +:+ "=healthy"] (mkState [] 0 0 0).
Proof.
  apply (unsettled_container_leaves_no_trace Cases.starting_db "shop-" "db"
           (mkState [] 0 0 0) tt).
  - intros []. reflexivity.
  - intros []. reflexivity.
Defined.

(** Scenario: the container [db] never reports a health status, and the
    health check passes on the strength of [shop-db] alone. *)
Example unsettled_container_passes :
  tag (List.last (report_lines (fst (test_health Cases.starting_db ["shop-db"; "db"]
                                       (mkState [] 0 0 0) tt)))
         (mkLine TEST EmptyString)) = PASS.
Proof. reflexivity. Qed.

(** ** The tools and the runs that call them *)

(** An event of [events] that equals the call [e]: the other events are
    told apart by their constructor or their activity name. *)
Ltac find_call Hin :=
  cbn [In] in Hin;
  repeat (destruct Hin as [Hin | Hin]; [try discriminate Hin |]);
  try contradiction.

Section ComposeFacts.

Context {World : Type} (host : Host World).

Lemma recording_run_compose cmd (w : World) (log : list (list string)) :
  ComposeTools._run_compose (recording host) cmd (w, log)
  = (fst (ComposeTools._run_compose host cmd w),
     (snd (ComposeTools._run_compose host cmd w), log ++ [cmd])).
Proof.
  unfold ComposeTools._run_compose. cbn.
  destruct (run_process host cmd 300 w) as [[| e | e | code out err] w']; reflexivity.
Qed.

Lemma failed_validation_reads_as_failed file (w : World) :
  validates host file w = false ->
  reads_as_failed (fst (ComposeTools.compose_validate host file w)) = true.
Proof.
  unfold validates, ComposeTools.compose_validate, bind, ret, reads_as_failed.
  destruct (os_path_exists host file w) as [[|] w1]; cbn [negb andb fst snd].
  - destruct (ComposeTools._run_compose host _ w1) as [result w2]. cbn [fst].
    intros ->. apply orb_true_iff. right. apply contains_app_l. reflexivity.
  - intros _. apply orb_true_iff. left. apply contains_app_l. reflexivity.
Qed.

Lemma spelled_configuration_reads_as_failed file (w : World) :
  validates host file w = true ->
  reads_as_failed (resolved_configuration host file w) = true ->
  Py.startswith (fst (ComposeTools.compose_validate host file w)) "✓" = true
  /\ reads_as_failed (fst (ComposeTools.compose_validate host file w)) = true.
Proof.
  unfold validates, resolved_configuration, ComposeTools.compose_validate, bind, ret,
    reads_as_failed.
  destruct (os_path_exists host file w) as [[|] w1]; cbn [negb andb fst snd];
    [| discriminate].
  destruct (ComposeTools._run_compose host _ w1) as [result w2]. cbn [fst].
  intros -> H. split; [reflexivity |].
  apply orb_true_iff in H. apply orb_true_iff.
  destruct H as [H | H]; [left | right]; do 7 apply contains_app_r; exact H.
Qed.

Lemma up_command_eq file (build detach : bool) :
  (if detach
   then (if build then ["docker"; "compose"; "-f"; file; "up"] ++ ["--build"]
         else ["docker"; "compose"; "-f"; file; "up"]) ++ ["-d"]
   else (if build then ["docker"; "compose"; "-f"; file; "up"] ++ ["--build"]
         else ["docker"; "compose"; "-f"; file; "up"]))
  = up_command file build detach.
Proof. destruct build, detach; reflexivity. Qed.

Lemma compose_up_answer file build detach (w : World) :
  match up_stage host file build detach w with
  | NotFound =>
      fst (ComposeTools.compose_up host file build detach w)
      = "ERROR: Compose file not found: " +:+ file
  | NotValidated validate_result =>
      fst (ComposeTools.compose_up host file build detach w)
      = "✗ Compose file validation failed. Not deploying." +:+ ComposeTools.newline
          +:+ stderr (outcome validate_result)
  | NotStarted result =>
      fst (ComposeTools.compose_up host file build detach w)
      = "✗ Deployment FAILED for '" +:+ file +:+ "':" +:+ ComposeTools.newline
          +:+ stderr (outcome result)
  | Started => True
  end.
Proof.
  unfold up_stage, ComposeTools.compose_up, bind, ret.
  destruct (os_path_exists host file w) as [[|] w1]; cbn [negb]; [| reflexivity].
  destruct (ComposeTools._run_compose host _ w1) as [validated w2].
  destruct (success (outcome validated)); cbn [negb]; [| reflexivity].
  rewrite up_command_eq.
  destruct (ComposeTools._run_compose host _ w2) as [deployed w3].
  destruct (success (outcome deployed)); [exact I | reflexivity].
Qed.

(** X9. The commands [compose_up] runs: none when the file is missing;
    [config -q] alone when that command rejects the file; [config -q] and
    [up] when [up] fails; [config -q], [up] and [ps] when the services
    started. So [up] is never run on a file that is missing or was rejected,
    and [ps] only after a successful [up]. *)
Theorem compose_up_runs_up_after_validation_only file build detach (w : World) :
  let validate_cmd := ["docker"; "compose"; "-f"; file; "config"; "-q"] in
  let up_cmd := up_command file build detach in
  let ps_cmd := ["docker"; "compose"; "-f"; file; "ps"] in
  commands_of (ComposeTools.compose_up (recording host) file build detach) w
  = match up_stage host file build detach w with
    | NotFound => []
    | NotValidated _ => [validate_cmd]
    | NotStarted _ => [validate_cmd; up_cmd]
    | Started => [validate_cmd; up_cmd; ps_cmd]
    end.
Proof.
  cbn zeta. unfold up_stage, commands_of, ComposeTools.compose_up, bind, ret.
  cbn [os_path_exists recording fst snd].
  destruct (os_path_exists host file w) as [[|] w1]; cbn [negb fst snd]; [| reflexivity].
  rewrite recording_run_compose.
  destruct (ComposeTools._run_compose host _ w1) as [validated w2]. cbn [fst snd].
  destruct (success (outcome validated)); cbn [negb]; [| reflexivity].
  rewrite up_command_eq, recording_run_compose.
  destruct (ComposeTools._run_compose host _ w2) as [deployed w3]. cbn [fst snd].
  destruct (success (outcome deployed)); [| reflexivity].
  rewrite recording_run_compose. reflexivity.
Qed.

(** X10. The teardown activity runs at most one command, [docker compose -f
    file down], without the flag [-v], whatever its input: it never removes
    volumes; it runs nothing when the file is missing. *)
Theorem teardown_keeps_the_volumes (input : ComposeInput) (w : World) :
  commands_of (Activities.teardown_compose_activity (recording host) input) w
  = if fst (os_path_exists host (ci_file_path input) w)
    then [["docker"; "compose"; "-f"; ci_file_path input; "down"]]
    else [].
Proof.
  unfold commands_of, Activities.teardown_compose_activity, ComposeTools.compose_down,
    bind, ret.
  cbn [os_path_exists recording fst snd].
  destruct (os_path_exists host _ w) as [[|] w1]; cbn [negb fst snd]; [| reflexivity].
  rewrite recording_run_compose.
  destruct (ComposeTools._run_compose host _ w1) as [result w2]. cbn [fst snd].
  destruct (success (outcome result)); reflexivity.
Qed.

Lemma failed_backup_answer file (w : World) :
  backup_made host file w = false ->
  Py.startswith (fst (ComposeTools.backup_compose_file host file w)) "ERROR" = true.
Proof.
  unfold backup_made, ComposeTools.backup_compose_file, bind, ret.
  destruct (os_path_exists host file w) as [[|] w1]; cbn [negb andb]; [| reflexivity].
  destruct (datetime_now host _ w1) as [timestamp w2].
  destruct (shutil_copy2 host file _ w2) as [[e |] w3]; cbn [fst]; [reflexivity | discriminate].
Qed.

End ComposeFacts.

Section ValidationAndDeploy.

Context {World HostWorld : Type} (substrate : Substrate World) (host : Host HostWorld).

Lemma deploy_aborts_on_answer workflow_id file (w : World) a options answer :
  In (ActivityCalled "validate_compose" a options (Some answer))
     (events_of (run_deploy substrate workflow_id file w)) ->
  reads_as_failed answer = true ->
  let msg := "DEPLOY ABORTED — Validation failed:" +:+ DeployWorkflow.newline +:+ answer in
  exists sent,
    events_of (run_deploy substrate workflow_id file w)
    = [ ActivityCalled "validate_compose" (StrArg file) validate_options (Some answer);
        notified msg sent ]
    /\ outcome_of (run_deploy substrate workflow_id file w) = ended_with msg sent.
Proof.
  unfold events_of, outcome_of, run_deploy, DeployWorkflow.run, DeployWorkflow._notify,
    reads_as_failed, notified, ended_with.
  cbn [exec].
  repeat step_run_eqn substrate; cbn [fst snd]; intros Hin Hfail;
    try (find_call Hin; fail);
    try (find_call Hin; injection Hin as _ _ <-; congruence);
    find_call Hin; injection Hin as _ _ <-;
    eexists; split; reflexivity.
Qed.

(** X11. When the validate step of a deploy run answers with what
    [compose_validate] returns for a file that is missing or that [docker
    compose config] rejects, the run consists of that step and one
    notification of [DEPLOY ABORTED — Validation failed]: no backup, no port
    check, no deployment. *)
Theorem deploy_stops_at_failed_validation workflow_id file (w : World) a options hw :
  let answer := fst (Activities.validate_compose_activity host file hw) in
  let msg := "DEPLOY ABORTED — Validation failed:" +:+ DeployWorkflow.newline +:+ answer in
  In (ActivityCalled "validate_compose" a options (Some answer))
     (events_of (run_deploy substrate workflow_id file w)) ->
  validates host file hw = false ->
  exists sent,
    events_of (run_deploy substrate workflow_id file w)
    = [ ActivityCalled "validate_compose" (StrArg file) validate_options (Some answer);
        notified msg sent ]
    /\ outcome_of (run_deploy substrate workflow_id file w) = ended_with msg sent.
Proof.
  intros answer msg Hin Hfail.
  apply (deploy_aborts_on_answer workflow_id file w a options answer Hin).
  apply failed_validation_reads_as_failed, Hfail.
Qed.

(** X12. When [compose_validate] accepts the file but the configuration
    docker prints spells ERROR or FAILED (a log level, say), its answer
    starts with the check mark and still reads as a failure to the deploy
    run, which aborts as for a failed validation. *)
Theorem deploy_stops_at_a_configuration_that_spells_error
    workflow_id file (w : World) a options hw :
  let answer := fst (Activities.validate_compose_activity host file hw) in
  let msg := "DEPLOY ABORTED — Validation failed:" +:+ DeployWorkflow.newline +:+ answer in
  In (ActivityCalled "validate_compose" a options (Some answer))
     (events_of (run_deploy substrate workflow_id file w)) ->
  validates host file hw = true ->
  reads_as_failed (resolved_configuration host file hw) = true ->
  Py.startswith answer "✓" = true
  /\ exists sent,
       events_of (run_deploy substrate workflow_id file w)
       = [ ActivityCalled "validate_compose" (StrArg file) validate_options (Some answer);
           notified msg sent ]
       /\ outcome_of (run_deploy substrate workflow_id file w) = ended_with msg sent.
Proof.
  intros answer msg Hin Hok Hspelled.
  destruct (spelled_configuration_reads_as_failed host file hw Hok Hspelled) as [Hmark Hread].
  split; [exact Hmark |].
  apply (deploy_aborts_on_answer workflow_id file w a options answer Hin Hread).
Qed.

Lemma rejected_answer s :
  reads_as_failed
    ("✗ Compose file validation failed. Not deploying." +:+ ComposeTools.newline +:+ s)
  = reads_as_failed s.
Proof. reflexivity. Qed.

Lemma deploy_goes_on_after_answer workflow_id file (w : World) a options answer :
  In (ActivityCalled "deploy_compose" a options (Some answer))
     (events_of (run_deploy substrate workflow_id file w)) ->
  reads_as_failed answer = false ->
  called "run_tests" (events_of (run_deploy substrate workflow_id file w)) = 1%nat.
Proof.
  unfold events_of, outcome_of, run_deploy, DeployWorkflow.run, DeployWorkflow._notify,
    reads_as_failed.
  cbn [exec].
  repeat step_run_eqn substrate; cbn [fst snd]; intros Hin Hfail;
    try (find_call Hin; fail);
    try (find_call Hin; injection Hin as _ _ <-;
         rewrite orb_comm in Hfail; congruence);
    reflexivity.
Qed.

Lemma deploy_rolls_back_on_answer workflow_id file (w : World) a options answer :
  In (ActivityCalled "deploy_compose" a options (Some answer))
     (events_of (run_deploy substrate workflow_id file w)) ->
  reads_as_failed answer = true ->
  (exists nested result,
      In (ChildRun (rollback_input file) ("rollback-" +:+ workflow_id) nested result)
         (events_of (run_deploy substrate workflow_id file w)))
  /\ called "run_tests" (events_of (run_deploy substrate workflow_id file w)) = 0%nat.
Proof.
  unfold events_of, outcome_of, run_deploy, DeployWorkflow.run, DeployWorkflow._notify,
    reads_as_failed.
  cbn [exec].
  repeat step_run_eqn substrate; cbn [fst snd]; intros Hin Hfail;
    try (find_call Hin; fail);
    try (find_call Hin; injection Hin as _ _ <-;
         rewrite orb_comm in Hfail; congruence);
    (split; [eexists _, _; cbn [In]; do 4 right; left; reflexivity | reflexivity]).
Qed.

(** X13. When the deploy step answers with what [compose_up] returns after
    [config -q] rejected the file, and the error text of that command spells
    neither ERROR nor FAILED (a time-out, say), the deploy run does not read
    the answer as a failure: it goes on to the verification step. *)
Theorem deploy_verifies_what_was_not_started
    workflow_id file (w : World) a options input hw validate_result :
  let answer := fst (Activities.deploy_compose_activity host input hw) in
  In (ActivityCalled "deploy_compose" a options (Some answer))
     (events_of (run_deploy substrate workflow_id file w)) ->
  up_stage host (ci_file_path input) (ci_build input) (ci_detach input) hw
    = NotValidated validate_result ->
  reads_as_failed (stderr (outcome validate_result)) = false ->
  called "run_tests" (events_of (run_deploy substrate workflow_id file w)) = 1%nat.
Proof.
  intros answer Hin Hstage Hquiet.
  apply (deploy_goes_on_after_answer workflow_id file w a options answer Hin).
  subst answer. unfold Activities.deploy_compose_activity.
  pose proof (compose_up_answer host (ci_file_path input) (ci_build input) (ci_detach input)
                hw) as Hanswer.
  rewrite Hstage in Hanswer. rewrite Hanswer, rejected_answer. exact Hquiet.
Qed.

(** X14. When the deploy step answers with what [compose_up] returns for a
    missing file or a failed [up], the deploy run starts the rollback of the
    same file as a child run named [rollback-] followed by its own id, and
    does not call the verification step. *)
Theorem deploy_rolls_back_when_up_fails
    workflow_id file (w : World) a options input hw :
  let answer := fst (Activities.deploy_compose_activity host input hw) in
  let stage := up_stage host (ci_file_path input) (ci_build input) (ci_detach input) hw in
  In (ActivityCalled "deploy_compose" a options (Some answer))
     (events_of (run_deploy substrate workflow_id file w)) ->
  stage = NotFound \/ (exists result, stage = NotStarted result) ->
  (exists nested result,
      In (ChildRun (rollback_input file) ("rollback-" +:+ workflow_id) nested result)
         (events_of (run_deploy substrate workflow_id file w)))
  /\ called "run_tests" (events_of (run_deploy substrate workflow_id file w)) = 0%nat.
Proof.
  intros answer stage Hin Hstage.
  apply (deploy_rolls_back_on_answer workflow_id file w a options answer Hin).
  subst answer stage. unfold Activities.deploy_compose_activity.
  pose proof (compose_up_answer host (ci_file_path input) (ci_build input) (ci_detach input)
                hw) as Hanswer.
  unfold reads_as_failed. apply orb_true_iff.
  destruct Hstage as [Hstage | [result Hstage]]; rewrite Hstage in Hanswer; rewrite Hanswer.
  - left. apply contains_app_l. reflexivity.
  - right. apply contains_app_l. reflexivity.
Qed.

Lemma deploy_ignores_the_backup_answer workflow_id file (w : World) a options answer :
  In (ActivityCalled "backup_compose" a options (Some answer))
     (events_of (run_deploy substrate workflow_id file w)) ->
  called "detect_conflicts" (events_of (run_deploy substrate workflow_id file w)) = 1%nat.
Proof.
  unfold events_of, outcome_of, run_deploy, DeployWorkflow.run, DeployWorkflow._notify.
  cbn [exec].
  repeat step_run_eqn substrate; cbn [fst snd]; intros Hin;
    try (find_call Hin; fail); reflexivity.
Qed.

(** X15. When the backup step answers with what [backup_compose_file]
    returns after it could not copy the file, the answer starts with ERROR,
    and the deploy run goes on to the port check all the same: it never
    reads the answer of the backup step. *)
Theorem deploy_goes_on_without_a_backup workflow_id file (w : World) a options input hw :
  let answer := fst (Activities.backup_compose_activity host input hw) in
  In (ActivityCalled "backup_compose" a options (Some answer))
     (events_of (run_deploy substrate workflow_id file w)) ->
  backup_made host (bi_file_path input) hw = false ->
  Py.startswith answer "ERROR" = true
  /\ called "detect_conflicts" (events_of (run_deploy substrate workflow_id file w)) = 1%nat.
Proof.
  intros answer Hin Hfail. split.
  - apply failed_backup_answer, Hfail.
  - apply (deploy_ignores_the_backup_answer workflow_id file w a options answer Hin).
Qed.

End ValidationAndDeploy.

Lemma deploy_stops_at_failed_validation_witness :
  let answer := fst (Activities.validate_compose_activity Cases.no_file Scenario.the_file tt) in
  let msg := "DEPLOY ABORTED — Validation failed:" +:+ DeployWorkflow.newline +:+ answer in
  let r :=
    run_deploy (Cases.worker Cases.no_file Cases.a_report) Cases.workflow_id
      Scenario.the_file tt in
  exists sent,
    events_of r
    = [ ActivityCalled "validate_compose" (StrArg Scenario.the_file) validate_options
          (Some answer);
        notified msg sent ]
    /\ outcome_of r = ended_with msg sent.
Proof.
  apply (deploy_stops_at_failed_validation (Cases.worker Cases.no_file Cases.a_report)
           Cases.no_file Cases.workflow_id Scenario.the_file tt
           (StrArg Scenario.the_file) validate_options tt).
  - vm_compute. left. reflexivity.
  - reflexivity.
Defined.

Lemma deploy_stops_at_a_configuration_that_spells_error_witness :
  let host := Cases.with_docker Cases.log_level in
  let answer := fst (Activities.validate_compose_activity host Scenario.the_file tt) in
  let msg := "DEPLOY ABORTED — Validation failed:" +:+ DeployWorkflow.newline +:+ answer in
  let r :=
    run_deploy (Cases.worker host Cases.a_report) Cases.workflow_id Scenario.the_file tt in
  Py.startswith answer "✓" = true
  /\ exists sent,
       events_of r
       = [ ActivityCalled "validate_compose" (StrArg Scenario.the_file) validate_options
             (Some answer);
           notified msg sent ]
       /\ outcome_of r = ended_with msg sent.
Proof.
  apply (deploy_stops_at_a_configuration_that_spells_error
           (Cases.worker (Cases.with_docker Cases.log_level) Cases.a_report)
           (Cases.with_docker Cases.log_level) Cases.workflow_id Scenario.the_file tt
           (StrArg Scenario.the_file) validate_options tt).
  - vm_compute. left. reflexivity.
  - reflexivity.
  - reflexivity.
Defined.

Lemma deploy_verifies_what_was_not_started_witness :
  called "run_tests"
    (events_of (run_deploy (Cases.worker (Cases.with_docker Cases.slow_validation)
                              Cases.a_report)
                  Cases.workflow_id Scenario.the_file tt)) = 1%nat.
Proof.
  apply (deploy_verifies_what_was_not_started
           (Cases.worker (Cases.with_docker Cases.slow_validation) Cases.a_report)
           (Cases.with_docker Cases.slow_validation) Cases.workflow_id Scenario.the_file tt
           (ComposeArg (compose_input Scenario.the_file))
           (mkOptions 300 (Some 60%Z) (Some (mkRetryPolicy 2)))
           (compose_input Scenario.the_file) tt
           (mkRun (mkCmd false EmptyString "Command timed out") (-1))).
  - vm_compute. do 3 right. left. reflexivity.
  - reflexivity.
  - reflexivity.
Defined.

Lemma deploy_rolls_back_when_up_fails_witness :
  let r :=
    run_deploy (Cases.worker (Cases.with_docker Cases.failing_up) Cases.a_report)
      Cases.workflow_id Scenario.the_file tt in
  (exists nested result,
      In (ChildRun (rollback_input Scenario.the_file) ("rollback-" +:+ Cases.workflow_id)
            nested result) (events_of r))
  /\ called "run_tests" (events_of r) = 0%nat.
Proof.
  apply (deploy_rolls_back_when_up_fails
           (Cases.worker (Cases.with_docker Cases.failing_up) Cases.a_report)
           (Cases.with_docker Cases.failing_up) Cases.workflow_id Scenario.the_file tt
           (ComposeArg (compose_input Scenario.the_file))
           (mkOptions 300 (Some 60%Z) (Some (mkRetryPolicy 2)))
           (compose_input Scenario.the_file) tt).
  - vm_compute. do 3 right. left. reflexivity.
  - right. eexists. reflexivity.
Defined.

Lemma deploy_goes_on_without_a_backup_witness :
  let host := Cases.read_only [Scenario.the_file] in
  let r :=
    run_deploy (Cases.worker host Cases.a_report) Cases.workflow_id Scenario.the_file tt in
  Py.startswith
    (fst (Activities.backup_compose_activity host (mkBackupInput Scenario.the_file) tt))
    "ERROR" = true
  /\ called "detect_conflicts" (events_of r) = 1%nat.
Proof.
  apply (deploy_goes_on_without_a_backup
           (Cases.worker (Cases.read_only [Scenario.the_file]) Cases.a_report)
           (Cases.read_only [Scenario.the_file]) Cases.workflow_id Scenario.the_file tt
           (BackupArg (mkBackupInput Scenario.the_file)) (mkOptions 30 None None)
           (mkBackupInput Scenario.the_file) tt).
  - vm_compute. right. left. reflexivity.
  - reflexivity.
Defined.

(** ** Port conflicts *)

Section PortFacts.

Context {World : Type} (host : Host World) (lib : PyLib).

Lemma ports_to_check_In svc_name port_str port ports :
  In (svc_name, port_str) ports ->
  Py.contains ":" port_str = true ->
  int_of_str lib (hd "" (Py.split ":" port_str)) = Some port ->
  In (svc_name, port) (MonitoringTools.ports_to_check lib ports).
Proof.
  unfold MonitoringTools.ports_to_check.
  set (step := fun (ports_to_check : list (string * Z)) (mapping : string * string) => _).
  assert (Hkeep : forall l acc, In (svc_name, port) acc ->
            In (svc_name, port) (fold_left step l acc)).
  { induction l as [|m l IH]; intros acc Hacc; [exact Hacc |].
    cbn [fold_left]. apply IH. subst step. cbn beta.
    destruct (Py.contains ":" (snd m)); [| exact Hacc].
    destruct (int_of_str lib _); [| exact Hacc].
    apply in_or_app. now left. }
  intros Hin Hcolon Hint.
  assert (Hfind : forall acc, In (svc_name, port) (fold_left step ports acc)).
  { induction ports as [|m ports IH]; intros acc; [destruct Hin |].
    cbn [fold_left]. destruct Hin as [-> | Hin]; [| apply IH, Hin].
    apply Hkeep. subst step. cbn beta. cbn [fst snd]. rewrite Hcolon, Hint.
    apply in_or_app. right. now left. }
  apply Hfind.
Qed.

Lemma probe_keeps entry found (w : World) c :
  In c (fst found) -> In c (fst (fst (MonitoringTools.probe host entry found w))).
Proof.
  unfold MonitoringTools.probe, bind, ret. intros Hin.
  destruct (sock_connect_ex host _ _ _ w) as [[code |] w1]; cbn [fst];
    [destruct (code =? 0)%Z; cbn [fst] |]; try exact Hin.
  apply in_or_app. now left.
Qed.

Lemma probes_keep entries : forall found (w : World) c,
  In c (fst found) ->
  In c (fst (fst (for_each entries found (MonitoringTools.probe host) w))).
Proof.
  induction entries as [|entry entries IH]; intros found w c Hin; [exact Hin |].
  cbn [for_each]. unfold bind.
  pose proof (probe_keeps entry found w c Hin) as Hkept.
  destruct (MonitoringTools.probe host entry found w) as [found1 w1].
  apply IH, Hkept.
Qed.

Lemma probes_find svc_name port entries : forall found (w : World),
  In (svc_name, port) entries ->
  in_use host port ->
  exists c,
    In c (fst (fst (for_each entries found (MonitoringTools.probe host) w)))
    /\ Py.contains "⚠" c = true.
Proof.
  induction entries as [|entry entries IH]; intros found w Hin Hbusy; [destruct Hin |].
  cbn [for_each]. unfold bind. destruct Hin as [-> | Hin].
  - exists ("  ⚠ Port " +:+ Py.str_of_Z port +:+ " (service: " +:+ svc_name
              +:+ ") — IN USE").
    split; [| reflexivity].
    assert (Hnow : In ("  ⚠ Port " +:+ Py.str_of_Z port +:+ " (service: " +:+ svc_name
                         +:+ ") — IN USE")
                     (fst (fst (MonitoringTools.probe host (svc_name, port) found w)))).
    { unfold MonitoringTools.probe, bind, ret. cbn [fst snd].
      specialize (Hbusy w).
      destruct (sock_connect_ex host _ _ _ w) as [code w1]. cbn [fst] in Hbusy. subst code.
      cbn [Z.eqb fst]. apply in_or_app. right. now left. }
    destruct (MonitoringTools.probe host (svc_name, port) found w) as [found1 w1].
    apply probes_keep, Hnow.
  - destruct (MonitoringTools.probe host entry found w) as [found1 w1].
    apply IH; assumption.
Qed.

Lemma conflict_report_warns conflicts available c :
  In c conflicts -> Py.contains "⚠" c = true ->
  Py.contains "⚠" (MonitoringTools.conflict_report conflicts available) = true.
Proof.
  intros Hin Hc. unfold MonitoringTools.conflict_report.
  destruct conflicts as [|c0 conflicts]; [destruct Hin |]. cbn [Py.nonempty].
  apply (join_contains _ _ c); [| exact Hc].
  rewrite <- !app_assoc. apply in_or_app. right. apply in_or_app. right.
  apply in_or_app. now left.
Qed.

Lemma port_in_use_is_reported file (w : World) svc_name port :
  In (svc_name, port) (checked_ports host lib file w) ->
  in_use host port ->
  exists report,
    fst (MonitoringTools.detect_port_conflicts host lib file w) = Some report
    /\ Py.contains "⚠" report = true.
Proof.
  unfold checked_ports, MonitoringTools.detect_port_conflicts, bind, ret.
  destruct (os_path_exists host file w) as [[|] w1]; cbn [negb]; [| intros []].
  destruct (yaml_ports host file w1) as [[e | | ports] w2]; cbn [fst];
    try (intros []; fail).
  intros Hin Hbusy.
  destruct (MonitoringTools.ports_to_check lib ports) as [|entry entries] eqn:E;
    [destruct Hin |].
  cbn [Py.nonempty negb].
  destruct (probes_find svc_name port (entry :: entries) ([], []) w2 Hin Hbusy)
    as (c & Hc & Hwarn).
  destruct (for_each (entry :: entries) _ _ w2) as [found w3]. cbn [fst] in *.
  eexists. split; [reflexivity |].
  apply (conflict_report_warns _ _ c Hc Hwarn).
Qed.

End PortFacts.

Section PortsAndDeploy.

Context {World HostWorld : Type} (substrate : Substrate World) (host : Host HostWorld)
  (lib : PyLib).

Lemma deploy_aborts_on_conflicts workflow_id file (w : World) a options report :
  In (ActivityCalled "detect_conflicts" a options (Some report))
     (events_of (run_deploy substrate workflow_id file w)) ->
  Py.contains "⚠" report = true ->
  let msg :=
    "DEPLOY ABORTED — Port conflicts detected:" +:+ DeployWorkflow.newline +:+ report in
  called "deploy_compose" (events_of (run_deploy substrate workflow_id file w)) = 0%nat
  /\ exists sent,
       In (notified msg sent) (events_of (run_deploy substrate workflow_id file w))
       /\ outcome_of (run_deploy substrate workflow_id file w) = ended_with msg sent.
Proof.
  unfold events_of, outcome_of, run_deploy, DeployWorkflow.run, DeployWorkflow._notify,
    notified, ended_with.
  cbn [exec].
  repeat step_run_eqn substrate; cbn [fst snd]; intros Hin Hwarn;
    find_call Hin; injection Hin as _ _ Heq; subst;
    first
      [ match goal with
        | E : _ || Py.contains "⚠" _ = false |- _ =>
            rewrite Hwarn, orb_true_r in E; discriminate E
        end
      | split; [reflexivity |]; eexists;
        split; [cbn [In]; do 3 right; left; reflexivity | reflexivity] ].
Qed.

(** X16. When a port mapping of the compose file holds a colon and its text
    before the first colon reads as an integer (which leaves out a mapping
    that starts with an address or a range, as [127.0.0.1:8080:80]), and
    that port accepts a connection on 127.0.0.1, the report of
    [detect_port_conflicts] carries the warning sign, and a deploy run whose
    port check answered with that report aborts: one notification of
    [DEPLOY ABORTED — Port conflicts detected], and no deployment. *)
Theorem deploy_stops_at_a_port_in_use
    workflow_id file (w : World) a options hw ports svc_name mapping port report :
  let msg :=
    "DEPLOY ABORTED — Port conflicts detected:" +:+ DeployWorkflow.newline +:+ report in
  In (ActivityCalled "detect_conflicts" a options (Some report))
     (events_of (run_deploy substrate workflow_id file w)) ->
  fst (Activities.detect_conflicts_activity host lib file hw) = Some report ->
  fst (os_path_exists host file hw) = true ->
  fst (yaml_ports host file (snd (os_path_exists host file hw))) = PortMappings ports ->
  In (svc_name, mapping) ports ->
  Py.contains ":" mapping = true ->
  int_of_str lib (hd "" (Py.split ":" mapping)) = Some port ->
  in_use host port ->
  called "deploy_compose" (events_of (run_deploy substrate workflow_id file w)) = 0%nat
  /\ exists sent,
       In (notified msg sent) (events_of (run_deploy substrate workflow_id file w))
       /\ outcome_of (run_deploy substrate workflow_id file w) = ended_with msg sent.
Proof.
  intros msg Hin Hreport Hfile Hports Hmapping Hcolon Hint Hbusy.
  apply (deploy_aborts_on_conflicts workflow_id file w a options report Hin).
  assert (Hport : In (svc_name, port) (checked_ports host lib file hw)).
  { unfold checked_ports.
    destruct (os_path_exists host file hw) as [found hw1]. cbn [fst snd] in Hfile, Hports.
    rewrite Hfile, Hports.
    exact (ports_to_check_In lib svc_name mapping port ports Hmapping Hcolon Hint). }
  destruct (port_in_use_is_reported host lib file hw svc_name port Hport Hbusy)
    as (report' & Hreport' & Hwarn).
  unfold Activities.detect_conflicts_activity in Hreport. congruence.
Qed.

End PortsAndDeploy.

Lemma deploy_stops_at_a_port_in_use_witness :
  let report :=
    default EmptyString
      (fst (Activities.detect_conflicts_activity Cases.port_taken Scenario.lib
              Scenario.the_file tt)) in
  let msg :=
    "DEPLOY ABORTED — Port conflicts detected:" +:+ DeployWorkflow.newline +:+ report in
  let r :=
    run_deploy (Cases.worker Cases.port_taken Cases.a_report) Cases.workflow_id
      Scenario.the_file tt in
  called "deploy_compose" (events_of r) = 0%nat
  /\ exists sent, In (notified msg sent) (events_of r) /\ outcome_of r = ended_with msg sent.
Proof.
  apply (deploy_stops_at_a_port_in_use (Cases.worker Cases.port_taken Cases.a_report)
           Cases.port_taken Scenario.lib Cases.workflow_id Scenario.the_file tt
           (StrArg Scenario.the_file) (mkOptions 30 None None) tt
           [("web", "8080:80"); ("db", "5432")] "web" "8080:80" 8080%Z).
  - vm_compute. do 2 right. left. reflexivity.
  - reflexivity.
  - reflexivity.
  - reflexivity.
  - left. reflexivity.
  - reflexivity.
  - reflexivity.
  - intros []. reflexivity.
Defined.

(** ** The health report *)

Lemma prefix_lower sub : forall s,
  String.prefix sub s = true -> String.prefix (Py.lower sub) (Py.lower s) = true.
Proof.
  induction sub as [|c sub IH]; intros s H; [destruct s; reflexivity |].
  destruct s as [|c' s]; cbn in H; [discriminate |].
  destruct (ascii_dec c c') as [-> |]; [| discriminate].
  cbn. destruct (ascii_dec (Py.lower_char c') (Py.lower_char c')); [auto | contradiction].
Qed.

Lemma contains_lower sub s :
  Py.contains sub s = true -> Py.contains (Py.lower sub) (Py.lower s) = true.
Proof.
  induction s as [|c s IH]; intros H.
  - cbn in H. rewrite orb_false_r in H. destruct sub; [reflexivity | discriminate].
  - rewrite contains_cons in H. apply orb_true_iff in H.
    cbn [Py.lower]. rewrite contains_cons. apply orb_true_iff.
    destruct H as [H | H]; [left | right; auto].
    apply (prefix_lower sub (String c s) H).
Qed.

Section HealthFacts.

Context {World : Type} (host : Host World).

Lemma health_line_keeps line report (w : World) x :
  In x report -> In x (fst (DockerTools.health_line host line report w)).
Proof.
  unfold DockerTools.health_line, bind, ret. intros Hin.
  destruct (Py.split DockerTools.tab line) as [|cid [|name [|status rest]]]; try exact Hin.
  destruct (DockerTools._run_docker host _ w) as [result w1]. cbn [fst].
  apply in_or_app. now left.
Qed.

Lemma health_lines_keep lines : forall report (w : World) x,
  In x report -> In x (fst (for_each lines report (DockerTools.health_line host) w)).
Proof.
  induction lines as [|line lines IH]; intros report w x Hin; [exact Hin |].
  cbn [for_each]. unfold bind.
  pose proof (health_line_keeps line report w x Hin) as Hkept.
  destruct (DockerTools.health_line host line report w) as [report1 w1].
  apply IH, Hkept.
Qed.

Lemma health_lines_find line cid name status rest lines : forall report (w : World),
  In line lines ->
  Py.split DockerTools.tab line = cid :: name :: status :: rest ->
  reports_health host cid "unhealthy" ->
  exists x,
    In x (fst (for_each lines report (DockerTools.health_line host) w))
    /\ Py.contains "unhealthy" x = true.
Proof.
  induction lines as [|l lines IH]; intros report w Hin Hparts Hbad; [destruct Hin |].
  cbn [for_each]. unfold bind. destruct Hin as [-> | Hin].
  - exists ("  " +:+ name +:+ ": status=" +:+ status +:+ ", health=unhealthy").
    split.
    + assert (Hnow : In ("  " +:+ name +:+ ": status=" +:+ status +:+ ", health=unhealthy")
                       (fst (DockerTools.health_line host line report w))).
      { unfold DockerTools.health_line, DockerTools._run_docker, bind, ret. rewrite Hparts.
        destruct (Hbad w) as (err & w' & ->). cbn [fst Z.eqb outcome success stdout].
        apply in_or_app. right. left. reflexivity. }
      destruct (DockerTools.health_line host line report w) as [report1 w1].
      apply health_lines_keep, Hnow.
    + do 4 apply contains_app_r. reflexivity.
  - destruct (DockerTools.health_line host l report w) as [report1 w1].
    apply IH; assumption.
Qed.

(** X17. When docker lists a container and reports its health as unhealthy,
    the health check activity flags a failure. *)
Theorem unhealthy_container_is_a_failure (w : World) line cid name status rest :
  In line (listed host w) ->
  Py.split DockerTools.tab line = cid :: name :: status :: rest ->
  reports_health host cid "unhealthy" ->
  has_failures (fst (Activities.health_check host w)) = true.
Proof.
  unfold listed, Activities.health_check, health_check_activity,
    DockerTools.health_check_all, ps_command, bind, ret.
  destruct (DockerTools._run_docker host _ w) as [result w1]. cbn [fst].
  destruct (success (outcome result)); cbn [negb andb]; [| intros []].
  destruct (Py.truthy (stdout (outcome result))); cbn [negb]; [| intros []].
  intros Hin Hparts Hbad.
  destruct (health_lines_find line cid name status rest _
              ["━━ HEALTH CHECK REPORT ━━━━━━━━━━━━━━━━━"] w1 Hin Hparts Hbad)
    as (x & Hx & Hspell).
  destruct (for_each _ _ _ w1) as [report w2]. cbn [fst] in *.
  cbn [has_failures]. apply orb_true_iff. left.
  apply (contains_lower "unhealthy").
  apply (join_contains _ _ x); [| exact Hspell].
  apply in_or_app. now left.
Qed.

(** X18. When docker lists no running container at all, the health check
    activity reports [No running containers found.] and flags no failure. *)
Theorem no_container_is_no_failure (w : World) :
  success (outcome (fst (DockerTools._run_docker host ps_command w))) = true ->
  stdout (outcome (fst (DockerTools._run_docker host ps_command w))) = EmptyString ->
  fst (Activities.health_check host w)
  = mkHealthCheckResult "No running containers found." false.
Proof.
  unfold Activities.health_check, health_check_activity, DockerTools.health_check_all,
    ps_command, bind, ret.
  destruct (DockerTools._run_docker host _ w) as [result w1]. cbn [fst].
  intros -> ->. reflexivity.
Qed.

(** X19. When the listing of the containers fails (docker missing, timing
    out or exiting with an error), the report of the health check activity
    starts with [ERROR: Could not list containers for health check.] and
    flags a failure. *)
Theorem failed_listing_is_a_failure (w : World) :
  success (outcome (fst (DockerTools._run_docker host ps_command w))) = false ->
  has_failures (fst (Activities.health_check host w)) = true
  /\ Py.startswith (report (fst (Activities.health_check host w)))
       "ERROR: Could not list containers for health check." = true.
Proof.
  unfold Activities.health_check, health_check_activity, DockerTools.health_check_all,
    ps_command, bind, ret.
  destruct (DockerTools._run_docker host _ w) as [result w1]. cbn [fst].
  intros ->. cbn [negb fst has_failures report]. split; [| reflexivity].
  apply orb_true_iff. right. apply (contains_lower "ERROR"). apply contains_app_l. reflexivity.
Qed.

End HealthFacts.

Lemma unhealthy_container_is_a_failure_witness :
  has_failures (fst (Activities.health_check (Cases.with_docker Cases.unhealthy_web) tt))
  = true.
Proof.
  apply (unhealthy_container_is_a_failure (Cases.with_docker Cases.unhealthy_web) tt
           ("3f2a9c1b7d10" +:+ DockerTools.tab +:+ "shop-web-1" +:+ DockerTools.tab
              +:+ "Up 2 minutes")
           "3f2a9c1b7d10" "shop-web-1" "Up 2 minutes" []).
  - vm_compute. left. reflexivity.
  - reflexivity.
  - intros []. eexists _, _. reflexivity.
Defined.

Lemma no_container_is_no_failure_witness :
  fst (Activities.health_check (Cases.with_docker Cases.quiet) tt)
  = mkHealthCheckResult "No running containers found." false.
Proof.
  apply (no_container_is_no_failure (Cases.with_docker Cases.quiet) tt); reflexivity.
Defined.

Lemma failed_listing_is_a_failure_witness :
  has_failures (fst (Activities.health_check (Cases.with_docker Cases.daemon_down) tt)) = true
  /\ Py.startswith
       (report (fst (Activities.health_check (Cases.with_docker Cases.daemon_down) tt)))
       "ERROR: Could not list containers for health check." = true.
Proof.
  apply (failed_listing_is_a_failure (Cases.with_docker Cases.daemon_down) tt). reflexivity.
Defined.

(** ** How often the monitor asks for a diagnosis *)

Lemma called_cons name e events :
  called name (e :: events)
  = ((match e with
      | ActivityCalled activity _ _ _ => if String.eqb activity name then 1 else 0
      | _ => 0
      end) + called name events)%nat.
Proof.
  unfold called. cbn [List.filter].
  destruct e as [activity a o r | | | |]; try reflexivity.
  destruct (String.eqb activity name); reflexivity.
Qed.

Section MonitorCost.

Context {World : Type} (substrate : Substrate World).

Lemma loop_diagnoses fuel : forall interval check_count failure_count (w : World),
  (failure_count <= 2)%nat ->
  let events :=
    events_of (exec substrate no_child
                 (HealthMonitorWorkflow.loop fuel interval check_count failure_count) w) in
  (3 * called "agent_analyze" events <= health_checks events + failure_count)%nat.
Proof.
  induction fuel as [|fuel IH]; intros interval check_count failure_count w Hfc events;
    subst events; cbn [HealthMonitorWorkflow.loop].
  - destruct (check_count <? HealthMonitorWorkflow.max_checks)%nat; cbn; lia.
  - destruct (check_count <? HealthMonitorWorkflow.max_checks)%nat; [| cbn; lia].
    cbn [exec].
    destruct (execute_health_check substrate _ w) as [[result |] w1]; [| cbn; lia].
    assert (Hnext : forall fc w', (fc <= 2)%nat ->
              (3 * called "agent_analyze"
                     (events_of (exec substrate no_child
                                   (HealthMonitorWorkflow.loop fuel interval
                                      (check_count + 1) fc) w'))
               <= health_checks
                    (events_of (exec substrate no_child
                                  (HealthMonitorWorkflow.loop fuel interval
                                     (check_count + 1) fc) w')) + fc)%nat).
    { intros fc w' Hle. apply (IH interval (check_count + 1)%nat fc w' Hle). }
    clear IH. unfold events_of in *.
    destruct (has_failures result).
    + assert (Hcases : (failure_count = 0 \/ failure_count = 1 \/ failure_count = 2)%nat) by lia.
      destruct Hcases as [-> | [-> | ->]]; cbn [Nat.add Nat.eqb Nat.leb exec].
      * destruct (execute_activity substrate "send_notification" _ _ w1) as [[sent |] w2];
          cbn [exec]; [| cbn; lia].
        specialize (Hnext 1%nat (sleep substrate interval w2) ltac:(lia)).
        destruct (exec substrate no_child _ (sleep substrate interval w2))
          as [[outcome events] w3]. cbn [fst snd] in *.
        rewrite !called_cons, !health_checks_cons. cbn [String.eqb Ascii.eqb Bool.eqb]. lia.
      * specialize (Hnext 2%nat (sleep substrate interval w1) ltac:(lia)).
        destruct (exec substrate no_child _ (sleep substrate interval w1))
          as [[outcome events] w3]. cbn [fst snd] in *.
        rewrite !called_cons, !health_checks_cons. lia.
      * destruct (execute_activity substrate "agent_analyze" _ _ w1) as [[analysis |] w2];
          cbn [exec]; [| cbn; lia].
        destruct (execute_activity substrate "send_notification" _ _ w2) as [[sent |] w3];
          cbn [exec]; [| cbn; lia].
        specialize (Hnext 0%nat (sleep substrate interval w3) ltac:(lia)).
        destruct (exec substrate no_child _ (sleep substrate interval w3))
          as [[outcome events] w4]. cbn [fst snd] in *.
        rewrite !called_cons, !health_checks_cons. cbn [String.eqb Ascii.eqb Bool.eqb]. lia.
    + cbn [exec].
      specialize (Hnext 0%nat (sleep substrate interval w1) ltac:(lia)).
      destruct (exec substrate no_child _ (sleep substrate interval w1))
        as [[outcome events] w3]. cbn [fst snd] in *.
      rewrite !called_cons, !health_checks_cons. lia.
Qed.

Lemma loop_checks fuel : forall interval check_count failure_count (w : World),
  (health_checks
     (events_of (exec substrate no_child
                   (HealthMonitorWorkflow.loop fuel interval check_count failure_count) w))
   <= fuel)%nat.
Proof.
  induction fuel as [|fuel IH]; intros interval check_count failure_count w;
    cbn [HealthMonitorWorkflow.loop].
  - destruct (check_count <? HealthMonitorWorkflow.max_checks)%nat; cbn; lia.
  - destruct (check_count <? HealthMonitorWorkflow.max_checks)%nat; [| cbn; lia].
    cbn [exec].
    destruct (execute_health_check substrate _ w) as [[result |] w1]; [| cbn; lia].
    assert (Hnext : forall fc w',
              (health_checks
                 (events_of (exec substrate no_child
                               (HealthMonitorWorkflow.loop fuel interval
                                  (check_count + 1) fc) w')) <= fuel)%nat).
    { intros fc w'. apply IH. }
    clear IH. unfold events_of in *.
    destruct (has_failures result); cbn [exec];
      [destruct (failure_count + 1 =? 1)%nat; cbn [exec];
       [destruct (execute_activity substrate "send_notification" _ _ w1) as [[sent |] w2];
        cbn [exec]; [| cbn; lia] |];
       (destruct (3 <=? failure_count + 1)%nat; cbn [exec];
        [destruct (execute_activity substrate "agent_analyze" _ _ _) as [[analysis |] w3];
         cbn [exec]; [| cbn; lia];
         destruct (execute_activity substrate "send_notification" _ _ w3) as [[sent' |] w4];
         cbn [exec]; [| cbn; lia] |]) |];
      match goal with
      | |- context [exec substrate no_child (HealthMonitorWorkflow.loop fuel ?i ?c ?fc) ?w'] =>
          specialize (Hnext fc w');
          destruct (exec substrate no_child (HealthMonitorWorkflow.loop fuel i c fc) w')
            as [[outcome events] w5]
      end;
      cbn [fst snd] in *; rewrite !health_checks_cons; lia.
Qed.

Lemma loop_cost_run fuel interval check_count (w : World)
    (r : Outcome (option string) * list Event * World) :
  r = exec substrate no_child (HealthMonitorWorkflow.loop fuel interval check_count 0) w ->
  (3 * called "agent_analyze" (events_of r) <= health_checks (events_of r))%nat
  /\ (health_checks (events_of r) <= fuel)%nat.
Proof.
  intros ->. split.
  - pose proof (loop_diagnoses fuel interval check_count 0%nat w (Nat.le_0_l 2)) as H.
    cbn zeta in H. lia.
  - apply loop_checks.
Qed.

(** X20. In every run of the health monitor the diagnostic analysis is
    called at most once per three health checks, and there are at most 1440
    health checks. *)
Theorem monitor_diagnoses_every_third_check_at_most (interval_seconds : Z) (w : World) :
  let events := events_of (run_monitor substrate interval_seconds w) in
  (3 * called "agent_analyze" events <= health_checks events)%nat
  /\ (health_checks events <= HealthMonitorWorkflow.max_checks)%nat.
Proof.
  exact (loop_cost_run HealthMonitorWorkflow.max_checks interval_seconds 0 w
           (run_monitor substrate interval_seconds w)
           (run_monitor_unfold substrate interval_seconds w)).
Qed.

End MonitorCost.

(** ** What every run does *)

Section Runs.

Context {World : Type} (substrate : Substrate World).

(** X21. A deploy run and a rollback run that finish have sent exactly one
    notification, as their last step, whose text is the first 500 characters
    of the message they return; a run that does not finish ends at a call
    that got no answer. *)
Theorem runs_notify_their_result_once :
  (forall workflow_id file_path (w : World),
      let r := run_deploy substrate workflow_id file_path w in
      match outcome_of r with
      | Finished msg =>
          called "send_notification" (events_of r) = 1%nat
          /\ exists answer, last (events_of r) = Some (notified msg (Some answer))
      | Aborted => exists e, last (events_of r) = Some e /\ unanswered e = true
      end)
  /\ (forall input (w : World),
        let r := run_rollback substrate input w in
        match outcome_of r with
        | Finished msg =>
            called "send_notification" (events_of r) = 1%nat
            /\ exists answer, last (events_of r) = Some (notified msg (Some answer))
        | Aborted => exists e, last (events_of r) = Some e /\ unanswered e = true
        end).
Proof.
  split.
  - intros workflow_id file_path w.
    unfold events_of, outcome_of, run_deploy, DeployWorkflow.run, DeployWorkflow._notify,
      notified.
    cbn [exec].
    repeat step_run_eqn substrate; cbn [fst snd];
      first [ split; [reflexivity | eexists; reflexivity]
            | eexists; split; reflexivity ].
  - intros input w.
    unfold events_of, outcome_of, run_rollback, RollbackWorkflow.run,
      RollbackWorkflow.resolve_backup, notified.
    cbn [exec].
    repeat step_run_eqn substrate; cbn [fst snd];
      first [ split; [reflexivity | eexists; reflexivity]
            | eexists; split; reflexivity ].
Qed.

(** X22. A rollback run that is given a backup file never lists the backup
    directory; it tears down the current file, and the deployment and the
    verification it calls are those of the given backup, each called once
    unless the run ends before at a call that got no answer. *)
Theorem rollback_to_an_explicit_backup current backup (w : World) :
  Py.truthy backup = true ->
  let events := events_of (run_rollback substrate (mkRollbackInput current backup) w) in
  existsb is_listing events = false
  /\ arguments "teardown_compose" events = [ComposeArg (compose_input current)]
  /\ (arguments "deploy_compose" events = [ComposeArg (compose_input backup)]
      \/ exists e, last events = Some e /\ unanswered e = true)
  /\ (arguments "run_tests" events = [TestArg (test_input backup)]
      \/ exists e, last events = Some e /\ unanswered e = true).
Proof.
  intros Hgiven.
  unfold events_of, run_rollback, RollbackWorkflow.run, RollbackWorkflow.resolve_backup.
  cbn [backup_file current_file]. rewrite Hgiven. cbn [negb exec].
  repeat step_run_eqn substrate; cbn [fst snd];
    (split; [reflexivity |]); (split; [reflexivity |]);
    split; first [left; reflexivity | right; eexists; split; reflexivity].
Qed.

End Runs.

Lemma rollback_to_an_explicit_backup_witness :
  let events :=
    events_of (run_rollback (Scenario.substrate "healthy" (Some Scenario.three_backups)
                               Scenario.no_checks)
                 (mkRollbackInput Scenario.the_file "backups/shop_backup_copy.yml") 0%nat) in
  existsb is_listing events = false
  /\ arguments "teardown_compose" events = [ComposeArg (compose_input Scenario.the_file)]
  /\ (arguments "deploy_compose" events
        = [ComposeArg (compose_input "backups/shop_backup_copy.yml")]
      \/ exists e, last events = Some e /\ unanswered e = true)
  /\ (arguments "run_tests" events = [TestArg (test_input "backups/shop_backup_copy.yml")]
      \/ exists e, last events = Some e /\ unanswered e = true).
Proof.
  apply (rollback_to_an_explicit_backup
           (Scenario.substrate "healthy" (Some Scenario.three_backups) Scenario.no_checks)
           Scenario.the_file "backups/shop_backup_copy.yml" 0%nat).
  reflexivity.
Defined.

(** ** What the compiler reads of an image name *)

Lemma lower_app a b : Py.lower (a +:+ b) = Py.lower a +:+ Py.lower b.
Proof.
  induction a as [|c a IH]; [reflexivity |].
  rewrite append_cons. cbn [Py.lower]. now rewrite append_cons, IH.
Qed.

Lemma append_empty s : s +:+ "" = s.
Proof. induction s as [|c s IH]; [reflexivity |]. rewrite append_cons. now rewrite IH. Qed.

Lemma append_snoc cur c a : (cur +:+ String c "") +:+ a = cur +:+ String c a.
Proof. induction cur as [|x cur IH]; [reflexivity |]. rewrite !append_cons. now rewrite IH. Qed.

Lemma colon_prefix c s :
  String.prefix ":" (String c s) = Ascii.eqb c ":".
Proof.
  change (String.prefix ":" (String c s))
    with (if ascii_dec ":" c then String.prefix "" s else false).
  destruct (ascii_dec ":" c) as [<- | Hne].
  - destruct s; reflexivity.
  - symmetry. apply Ascii.eqb_neq. congruence.
Qed.

Lemma lower_char_colon c : Ascii.eqb (Py.lower_char c) ":" = Ascii.eqb c ":".
Proof. destruct c as [[] [] [] [] [] [] [] []]; reflexivity. Qed.

Lemma contains_colon_lower a : Py.contains ":" (Py.lower a) = Py.contains ":" a.
Proof.
  induction a as [|c a IH]; [reflexivity |].
  cbn [Py.lower]. rewrite !contains_cons, !colon_prefix, lower_char_colon, IH. reflexivity.
Qed.

Lemma contains_colon_app a b :
  Py.contains ":" (a +:+ b) = Py.contains ":" a || Py.contains ":" b.
Proof.
  induction a as [|c a IH].
  - cbn [append]. destruct b; reflexivity.
  - rewrite append_cons, !contains_cons, !colon_prefix, IH. now rewrite orb_assoc.
Qed.

(** Splitting at the first colon. *)
Lemma split_first_colon a : forall cur rest,
  Py.contains ":" a = false ->
  Py.split_go ":" 0 cur (a +:+ ":" +:+ rest)
  = (cur +:+ a) :: Py.split_go ":" 0 EmptyString rest.
Proof.
  induction a as [|c a IH]; intros cur rest Hno.
  - change ("" +:+ ":" +:+ rest) with (String ":" rest).
    change (Py.split_go ":" 0 cur (String ":" rest))
      with (if String.prefix ":" (String ":" rest)
            then cur :: Py.split_go ":" 0 EmptyString rest
            else Py.split_go ":" 0 (cur +:+ String ":" EmptyString) rest).
    rewrite colon_prefix, append_empty. reflexivity.
  - rewrite contains_cons, colon_prefix in Hno. apply orb_false_iff in Hno as [Hc Hno].
    rewrite append_cons.
    change (Py.split_go ":" 0 cur (String c (a +:+ ":" +:+ rest)))
      with (if String.prefix ":" (String c (a +:+ ":" +:+ rest))
            then cur :: Py.split_go ":" 0 EmptyString (a +:+ ":" +:+ rest)
            else Py.split_go ":" 0 (cur +:+ String c EmptyString) (a +:+ ":" +:+ rest)).
    rewrite colon_prefix, Hc, IH by exact Hno. now rewrite append_snoc.
Qed.

Lemma split_no_colon a : forall cur,
  Py.contains ":" a = false -> Py.split_go ":" 0 cur a = [cur +:+ a].
Proof.
  induction a as [|c a IH]; intros cur Hno.
  - now rewrite append_empty.
  - rewrite contains_cons, colon_prefix in Hno. apply orb_false_iff in Hno as [Hc Hno].
    change (Py.split_go ":" 0 cur (String c a))
      with (if String.prefix ":" (String c a)
            then cur :: Py.split_go ":" 0 EmptyString a
            else Py.split_go ":" 0 (cur +:+ String c EmptyString) a).
    rewrite colon_prefix, Hc, IH by exact Hno. now rewrite append_snoc.
Qed.

Lemma head_before_colon a rest :
  Py.contains ":" a = false -> hd "" (Py.split ":" (a +:+ ":" +:+ rest)) = a.
Proof. intros Hno. unfold Py.split. now rewrite split_first_colon. Qed.

Lemma image_lower_first_colon a rest :
  Py.contains ":" a = false -> image_lower (a +:+ ":" +:+ rest) = image_lower a.
Proof.
  intros Hno. unfold image_lower.
  rewrite !lower_app. change (Py.lower ":") with ":".
  rewrite head_before_colon by (now rewrite contains_colon_lower).
  unfold Py.split at 3. rewrite split_no_colon by (now rewrite contains_colon_lower).
  reflexivity.
Qed.

(** X23. The type and the role the compiler detects for an image depend on
    the text before its first colon only: a tag never changes them, and
    neither does anything after the port of a registry. *)
Theorem detection_stops_at_the_first_colon (a rest : string) (svc_type : option string) :
  Py.contains ":" a = false ->
  _detect_service_type (a +:+ ":" +:+ rest) = _detect_service_type a
  /\ _detect_service_role (a +:+ ":" +:+ rest) svc_type = _detect_service_role a svc_type.
Proof.
  intros Hno.
  unfold _detect_service_type, _detect_service_role, backend_or_unknown.
  rewrite !image_lower_first_colon by exact Hno. split; reflexivity.
Qed.

Lemma detection_stops_at_the_first_colon_witness :
  _detect_service_type ("registry.example.com" +:+ ":" +:+ "5000/shop/redis:7")
  = _detect_service_type "registry.example.com"
  /\ _detect_service_role ("registry.example.com" +:+ ":" +:+ "5000/shop/redis:7") None
     = _detect_service_role "registry.example.com" None.
Proof.
  apply (detection_stops_at_the_first_colon "registry.example.com" "5000/shop/redis:7" None).
  reflexivity.
Defined.

(** ** Volumes *)

Lemma declared_set k vol_name (named : list (string * string)) :
  PyDict.get vol_name named = Some "local" ->
  PyDict.get vol_name (PyDict.set k "local" named) = Some "local".
Proof.
  intros H. destruct (string_dec k vol_name) as [-> | Hne].
  - apply get_set_eq.
  - now rewrite get_set_ne.
Qed.

Lemma volumes_declared_set k d named :
  volumes_declared d named -> volumes_declared d (PyDict.set k "local" named).
Proof. intros H v n Hin Hn. apply declared_set. eauto. Qed.

Lemma volumes_declared_append v d named :
  volumes_declared d named ->
  (forall vol_name, named_volume v = Some vol_name ->
                    PyDict.get vol_name named = Some "local") ->
  volumes_declared (append_volume v d) named.
Proof.
  intros Hold Hnew v' n Hin Hn. cbn [append_volume sd_volumes default] in Hin.
  apply in_app_or in Hin as [Hin | [<- | []]]; eauto.
Qed.

Lemma user_volumes_declared vols : forall paths d named,
  volumes_declared d named ->
  volumes_declared (snd (fst (user_volumes vols (paths, d, named))))
    (snd (user_volumes vols (paths, d, named)))
  /\ forall n, PyDict.get n named = Some "local" ->
               PyDict.get n (snd (user_volumes vols (paths, d, named))) = Some "local".
Proof.
  unfold user_volumes.
  induction vols as [|v vols IH]; intros paths d named H; cbn [fold_left];
    [split; [exact H | auto] |].
  unfold named_volume in *.
  destruct (Py.contains ":" v) eqn:Hc.
  - destruct (negb (Py.startswith (hd "" (Py.split ":" v)) "/")
              && negb (Py.startswith (hd "" (Py.split ":" v)) ".")) eqn:Hp.
    + match goal with
      | |- context [fold_left _ vols (?p, ?d', ?n')] =>
          destruct (IH p d' n') as [IH1 IH2]
      end.
      * apply volumes_declared_append; [now apply volumes_declared_set |].
        intros n. unfold named_volume. rewrite Hc, Hp. intros [= <-]. apply get_set_eq.
      * split; [exact IH1 |]. intros n Hn. apply IH2. now apply declared_set.
    + match goal with
      | |- context [fold_left _ vols (?p, ?d', ?n')] =>
          destruct (IH p d' n') as [IH1 IH2]
      end.
      * apply volumes_declared_append; [exact H |].
        intros n. unfold named_volume. rewrite Hc, Hp. discriminate.
      * split; [exact IH1 | exact IH2].
  - match goal with
    | |- context [fold_left _ vols (?p, ?d', ?n')] =>
        destruct (IH p d' n') as [IH1 IH2]
    end.
    + apply volumes_declared_append; [exact H |].
      intros n. unfold named_volume. rewrite Hc. discriminate.
    + split; [exact IH1 | exact IH2].
Qed.

Lemma default_mapping_names vol_name mount n :
  Py.contains ":" vol_name = false ->
  named_volume (vol_name +:+ ":" +:+ mount) = Some n -> n = vol_name.
Proof.
  intros Hno. unfold named_volume.
  rewrite head_before_colon by exact Hno.
  destruct (Py.contains ":" (vol_name +:+ ":" +:+ mount)); [| discriminate].
  destruct (negb (Py.startswith vol_name "/") && negb (Py.startswith vol_name "."));
    [| discriminate].
  intros H. now injection H.
Qed.

Lemma default_volumes_declared name paths vol_defs : forall d named,
  Py.contains ":" name = false ->
  Forall (fun vd => Py.contains ":" (vd_name vd) = false) vol_defs ->
  volumes_declared d named ->
  volumes_declared (fst (default_volumes name paths vol_defs (d, named)))
    (snd (default_volumes name paths vol_defs (d, named)))
  /\ forall n, PyDict.get n named = Some "local" ->
               PyDict.get n (snd (default_volumes name paths vol_defs (d, named)))
               = Some "local".
Proof.
  unfold default_volumes.
  induction vol_defs as [|vd vol_defs IH]; intros d named Hname Hdefs H; cbn [fold_left];
    [split; [exact H | auto] |].
  apply Forall_cons in Hdefs as [Hvd Hdefs].
  destruct (bool_decide (vd_mount vd ∈ paths)); [now apply IH |].
  set (vol_name := if negb (Py.startswith (vd_name vd) name)
                   then name +:+ "_" +:+ vd_name vd else vd_name vd).
  assert (Hno : Py.contains ":" vol_name = false).
  { subst vol_name. destruct (negb _); [| exact Hvd].
    rewrite !contains_colon_app, Hname, Hvd. reflexivity. }
  destruct (IH (append_volume (vol_name +:+ ":" +:+ vd_mount vd) d)
               (PyDict.set vol_name "local" named) Hname Hdefs) as [IH1 IH2].
  - apply volumes_declared_append; [now apply volumes_declared_set |].
    intros n Hn. apply default_mapping_names in Hn; [| exact Hno]. subst n.
    apply get_set_eq.
  - split; [exact IH1 |]. intros n Hn. apply IH2. now apply declared_set.
Qed.

Lemma defaults_without_colon t dflt :
  PyDict.get t SERVICE_DEFAULTS = Some dflt ->
  Forall (fun vd => Py.contains ":" (vd_name vd) = false) (volumes_default dflt).
Proof.
  unfold SERVICE_DEFAULTS. cbn [PyDict.get].
  repeat (destruct (String.eqb t _); [intros [= <-]; repeat constructor |]).
  discriminate.
Qed.

Lemma build_service_declares timestamp auto_deps svc compose :
  Py.contains ":" (name_of svc) = false ->
  plan_declares compose ->
  plan_declares (build_service timestamp auto_deps svc (service_info svc) compose).
Proof.
  intros Hname Hinv. destruct compose as [compose_services compose_volumes].
  unfold build_service.
  set (d0 := mkServiceDef _ _ _ _ _ _ _ _ _ _ _ _ _ _).
  assert (H0 : volumes_declared d0 compose_volumes) by (intros v n []).
  destruct (user_volumes_declared (default [] (spec_volumes svc)) ∅ d0 compose_volumes H0)
    as [Hu Hukeep].
  destruct (user_volumes _ (∅, d0, compose_volumes)) as [[paths d1] named1].
  cbn [fst snd] in Hu, Hukeep.
  set (defaults := match info_svc_type (service_info svc) with
                   | Some t => if Py.truthy t then PyDict.get t SERVICE_DEFAULTS else None
                   | None => None
                   end).
  assert (Hd : exists d named,
             match defaults with
             | Some dflt => default_volumes (name_of svc) paths (volumes_default dflt)
                              (d1, named1)
             | None => (d1, named1)
             end = (d, named)
             /\ volumes_declared d named
             /\ forall n, PyDict.get n named1 = Some "local" ->
                          PyDict.get n named = Some "local").
  { destruct defaults as [dflt |] eqn:Edef.
    - assert (Hdefs : Forall (fun vd => Py.contains ":" (vd_name vd) = false)
                        (volumes_default dflt)).
      { subst defaults. destruct (info_svc_type (service_info svc)) as [t |]; [| discriminate].
        destruct (Py.truthy t); [| discriminate]. now apply (defaults_without_colon t). }
      destruct (default_volumes_declared (name_of svc) paths (volumes_default dflt) d1 named1
                  Hname Hdefs Hu) as [H1 H2].
      destruct (default_volumes _ _ _ _) as [d named]. eauto.
    - exists d1, named1. auto. }
  destruct Hd as (d & named & -> & Hdecl & Hkeep).
  intros name' d' Hget. cbn [fst snd] in *.
  destruct (string_dec (name_of svc) name') as [<- | Hne].
  - rewrite get_set_eq in Hget. injection Hget as <-. exact Hdecl.
  - rewrite get_set_ne in Hget by exact Hne.
    intros v n Hin Hn. apply Hkeep, Hukeep. exact (Hinv name' d' Hget v n Hin Hn).
Qed.

Lemma pass2_declares timestamp auto_deps svc_list : forall compose,
  Forall (fun svc => Py.contains ":" (name_of svc) = false) svc_list ->
  plan_declares compose ->
  plan_declares (pass2 timestamp auto_deps svc_list compose).
Proof.
  induction svc_list as [|svc l IH]; intros compose Hnames Hinv; [exact Hinv |].
  apply Forall_cons in Hnames as [Hname Hnames].
  rewrite pass2_cons. apply IH; [exact Hnames |].
  now apply build_service_declares.
Qed.

(** X24. In a compiled plan whose service names hold no colon, every volume
    entry of a service that names a volume (its text before the first colon
    is not a path) has that volume declared under the top-level [volumes]
    with the driver [local]. *)
Theorem named_volumes_are_declared timestamp svc_list name d v vol_name :
  Forall (fun svc => Py.contains ":" (name_of svc) = false) svc_list ->
  PyDict.get name (services (build_compose timestamp svc_list)) = Some d ->
  In v (default [] (sd_volumes d)) ->
  named_volume v = Some vol_name ->
  declared (build_compose timestamp svc_list) vol_name.
Proof.
  intros Hnames Hget Hin Hn.
  pose proof (pass2_declares timestamp
                (_auto_detect_dependencies (map service_info svc_list)) svc_list ([], [])
                Hnames) as Hinv.
  rewrite build_compose_services in Hget.
  unfold declared, build_compose. unfold pass2 in *.
  destruct (fold_left _ _ _) as [compose_services compose_volumes]. cbn [volumes].
  assert (H0 : plan_declares ([], [])) by (intros n d' [=]).
  specialize (Hinv H0 name d Hget v vol_name Hin Hn). cbn [snd] in Hinv.
  destruct compose_volumes as [|entry rest]; [discriminate Hinv |].
  cbn [Py.nonempty]. eauto.
Qed.

Lemma named_volumes_are_declared_witness :
  declared (build_compose Scenario.the_time Cases.cache_with_volume) "cache_redis_data".
Proof.
  apply (named_volumes_are_declared Scenario.the_time Cases.cache_with_volume "cache"
           (default (mkServiceDef "" "" DEFAULT_HEALTHCHECK "" "" [] "" [] [] None None None
                       None None)
              (PyDict.get "cache"
                 (services (build_compose Scenario.the_time Cases.cache_with_volume))))
           "cache_redis_data:/data" "cache_redis_data").
  - repeat constructor.
  - vm_compute. reflexivity.
  - vm_compute. right. left. reflexivity.
  - reflexivity.
Defined.

(** ** An unhealthy container and the verdict of the engine *)

Section UnhealthyContainer.

Context {World : Type} (rt : Runtime World) (lib : PyLib).

Lemma poll_health_keeps container x rounds : forall health_results (w : World),
  In x health_results ->
  In x (snd (fst (poll_health rt rounds container health_results w))).
Proof.
  induction rounds as [|rounds IH]; intros health_results w Hin; [exact Hin |].
  cbn [poll_health]. unfold bind.
  destruct (_run_cmd rt _ 60 w) as [result w1].
  destruct (String.eqb _ "healthy"); [cbn [ret fst snd]; apply in_or_app; now left |].
  destruct (String.eqb _ "no healthcheck"); [cbn [ret fst snd]; apply in_or_app; now left |].
  destruct (String.eqb _ "unhealthy"); [cbn [ret fst snd]; apply in_or_app; now left |].
  destruct (time_sleep rt 5 w1) as [u w2]. apply IH, Hin.
Qed.

Lemma health_of_keeps container x health_results (w : World) :
  In x health_results -> In x (fst (health_of rt container health_results w)).
Proof.
  intros Hin. unfold health_of, bind.
  pose proof (poll_health_keeps container x 12 health_results w Hin) as Hkept.
  destruct (poll_health rt 12 container health_results w) as [polled w1].
  cbn [fst snd] in *.
  destruct (negb (fst polled) && negb _); cbn [ret fst]; [| exact Hkept].
  apply in_or_app. now left.
Qed.

Lemma health_results_keep x containers : forall health_results (w : World),
  In x health_results ->
  In x (fst (for_each containers health_results (health_of rt) w)).
Proof.
  induction containers as [|c containers IH]; intros health_results w Hin; [exact Hin |].
  cbn [for_each]. unfold bind.
  pose proof (health_of_keeps c x health_results w Hin) as Hkept.
  destruct (health_of rt c health_results w) as [results w1]. apply IH, Hkept.
Qed.

Lemma health_of_unhealthy container health_results (w : World) :
  health_reads rt container "unhealthy" ->
  In (container +:+ "=unhealthy") (fst (health_of rt container health_results w)).
Proof.
  intros Hreads. unfold health_of, bind. cbn [poll_health]. unfold bind.
  specialize (Hreads w).
  destruct (_run_cmd rt _ 60 w) as [result w1]. cbn [fst] in Hreads. rewrite Hreads.
  cbn [String.eqb Ascii.eqb Bool.eqb ret fst snd negb andb].
  destruct (negb _); cbn [ret fst]; apply in_or_app.
  - left. apply in_or_app. right. now left.
  - right. now left.
Qed.

Lemma health_results_find container containers : forall health_results (w : World),
  In container containers ->
  health_reads rt container "unhealthy" ->
  In (container +:+ "=unhealthy")
     (fst (for_each containers health_results (health_of rt) w)).
Proof.
  induction containers as [|c containers IH]; intros health_results w Hin Hreads;
    [destruct Hin |].
  cbn [for_each]. unfold bind. destruct Hin as [-> | Hin].
  - pose proof (health_of_unhealthy container health_results w Hreads) as Hnow.
    destruct (health_of rt container health_results w) as [results w1].
    apply health_results_keep, Hnow.
  - destruct (health_of rt c health_results w) as [results w1]. now apply IH.
Qed.

Lemma test_health_unhealthy container containers (w : World) :
  In container containers ->
  health_reads rt container "unhealthy" ->
  exists detail w',
    forall st,
      test_health rt containers st w = (record "Health Check Test" (FAIL, detail) st, w').
Proof.
  intros Hin Hreads. unfold test_health, bind, ret.
  pose proof (health_results_find container containers [] w Hin Hreads) as Hfound.
  destruct (for_each containers [] (health_of rt) w) as [results w1]. cbn [fst] in Hfound.
  exists ("        : " +:+ Py.join ", " results), w1. intros st.
  unfold verdict_health.
  assert (Hbad : In (container +:+ "=unhealthy")
                   (List.filter
                      (fun h => Py.contains "unhealthy" h || Py.contains "timeout" h)
                      results)).
  { apply List.filter_In. split; [exact Hfound |].
    apply orb_true_iff. left. apply contains_app_r. reflexivity. }
  destruct (List.filter _ results) as [|h rest]; [destruct Hbad |]. reflexivity.
Qed.

(** X25. When docker lists a container as running and reports its health as
    unhealthy, the report of the engine holds FAIL for check 2 and the
    verdict FAILED, whatever the other checks find. *)
Theorem unhealthy_container_fails_the_deployment file_path expected_services container
    (w : World) :
  (forall w',
     In container
        (name_lines (stdout (fst (_run_cmd rt (running_command file_path) 60 w'))))) ->
  health_reads rt container "unhealthy" ->
  match fst (run_post_deploy_tests_state rt lib file_path expected_services w) with
  | inl _ => True
  | inr (_, st) =>
      nth_error (statuses st) 1 = Some FAIL
      /\ (0 < fail_count st)%nat
      /\ verdict_of st = verdict_text FAILED
  end.
Proof.
  intros Hruns Hreads. unfold run_post_deploy_tests_state, bind.
  destruct (now_strftime rt _ w) as [ts w0].
  destruct (_get_compose_services rt lib file_path w0) as [[exn | services] w1];
    cbn [fst snd ret]; [exact I |].
  destruct (text_items _) as [exn | expected]; cbn [fst snd ret]; [exact I |].
  unfold test_running, bind, ret. specialize (Hruns w1). unfold running_command in Hruns.
  destruct (_run_cmd rt _ 60 w1) as [r1 w2]. cbn [fst] in Hruns.
  destruct (_run_cmd rt _ 60 w2) as [r2 w3]. cbn [fst snd].
  set (rc := name_lines (stdout r1)) in *.
  match goal with
  | |- context [verdict_running rc ?nr] =>
      destruct (verdict_running_records rc nr) as (v1 & H1 & E1)
  end.
  rewrite E1.
  destruct (test_health_unhealthy container rc w3 Hruns Hreads) as (detail & w4 & E2).
  destruct (test_ports_records rt lib rc w4) as (v3 & w5 & H3 & E3).
  destruct (test_connectivity_records rt rc w5) as (v4 & w6 & H4 & E4).
  destruct (test_volumes_records rt rc w6) as (v5 & w7 & H5 & E5).
  destruct (test_env_records rt rc w7) as (v6 & w8 & H6 & E6).
  destruct (test_logs_records rt rc w8) as (v7 & w9 & H7 & E7).
  destruct (test_resources_records rt lib rc w9) as (v8 & w10 & H8 & E8).
  rewrite E2, E3, E4, E5, E6, E7, E8. cbn [fst snd].
  match goal with
  | |- context [final_lines ?s] =>
      change s with (record_all check_names
                       [v1; (FAIL, detail); v3; v4; v5; v6; v7; v8]
                       (mkState (header_lines file_path expected) 0 0 0))
  end.
  rewrite verdict_of_failed.
  rewrite record_all_shape, final_lines_shape.
  unfold statuses, count_status.
  cbn [report_lines pass_count warn_count fail_count header_lines footer_lines check_names
       combine map app tag fst snd List.filter tag_eqb negb].
  pose proof (no_test_status _ [PASS; FAIL] ltac:(cbn; tauto) H1) as T1.
  rewrite T1. cbn [negb nth_error length Nat.add].
  split; [reflexivity |]. split; destruct (tag_eqb (fst v1) FAIL); cbn; lia.
Qed.

End UnhealthyContainer.

Lemma unhealthy_container_fails_the_deployment_witness :
  match fst (run_post_deploy_tests_state (Scenario.docker "unhealthy") Scenario.lib
               Scenario.the_file EmptyString tt) with
  | inl _ => True
  | inr (_, st) =>
      nth_error (statuses st) 1 = Some FAIL
      /\ (0 < fail_count st)%nat
      /\ verdict_of st = verdict_text FAILED
  end.
Proof.
  apply (unhealthy_container_fails_the_deployment (Scenario.docker "unhealthy") Scenario.lib
           Scenario.the_file EmptyString "shop-web-1" tt).
  - intros []. vm_compute. left. reflexivity.
  - intros []. reflexivity.
Defined.

(** ** A container whose name spells a failure *)

Section NamesThatSpellFailure.

Context {World : Type} (host : Host World).

Lemma health_lines_name line cid name status rest lines : forall report (w : World),
  In line lines ->
  Py.split DockerTools.tab line = cid :: name :: status :: rest ->
  exists x health,
    In x (fst (for_each lines report (DockerTools.health_line host) w))
    /\ x = "  " +:+ name +:+ ": status=" +:+ status +:+ ", health=" +:+ health.
Proof.
  induction lines as [|l lines IH]; intros report w Hin Hparts; [destruct Hin |].
  cbn [for_each]. unfold bind. destruct Hin as [-> | Hin].
  - assert (Hnow : exists health,
               In ("  " +:+ name +:+ ": status=" +:+ status +:+ ", health=" +:+ health)
                  (fst (DockerTools.health_line host line report w))).
    { unfold DockerTools.health_line, bind, ret. rewrite Hparts.
      destruct (DockerTools._run_docker host _ w) as [result w1]. cbn [fst].
      eexists. apply in_or_app. right. left. reflexivity. }
    destruct Hnow as (health & Hnow).
    destruct (DockerTools.health_line host line report w) as [report1 w1].
    eexists _, health. split; [apply health_lines_keep, Hnow | reflexivity].
  - destruct (DockerTools.health_line host l report w) as [report1 w1].
    apply IH; assumption.
Qed.

(** X26. When docker lists a container whose name spells [error] or
    [unhealthy], in any case of the letters, the health check activity flags
    a failure, whatever docker reports about the health of the container:
    the activity searches the whole report, which holds the names. *)
Theorem container_named_error_is_a_failure (w : World) line cid name status rest :
  In line (listed host w) ->
  Py.split DockerTools.tab line = cid :: name :: status :: rest ->
  Py.contains "error" (Py.lower name) = true
  \/ Py.contains "unhealthy" (Py.lower name) = true ->
  has_failures (fst (Activities.health_check host w)) = true.
Proof.
  unfold listed, Activities.health_check, health_check_activity,
    DockerTools.health_check_all, ps_command, bind, ret.
  destruct (DockerTools._run_docker host _ w) as [result w1]. cbn [fst].
  destruct (success (outcome result)); cbn [negb andb]; [| intros []].
  destruct (Py.truthy (stdout (outcome result))); cbn [negb]; [| intros []].
  intros Hin Hparts Hname.
  destruct (health_lines_name line cid name status rest _
              ["━━ HEALTH CHECK REPORT ━━━━━━━━━━━━━━━━━"] w1 Hin Hparts)
    as (x & health & Hx & ->).
  destruct (for_each _ _ _ w1) as [report w2]. cbn [fst] in *.
  cbn [has_failures].
  assert (Hspell : forall word,
             Py.contains word (Py.lower name) = true ->
             Py.contains word
               (Py.lower (Py.join DockerTools.newline
                            (report ++ ["━━━━━━━━━━━━━━━━━━━━━━━━━━━━━━━━━━━━━━━"])))
             = true).
  { intros word Hword.
    assert (Hline : exists a b,
               Py.lower (Py.join DockerTools.newline
                           (report ++ ["━━━━━━━━━━━━━━━━━━━━━━━━━━━━━━━━━━━━━━━"]))
               = a +:+ Py.lower name +:+ b).
    { assert (Hin' : In ("  " +:+ name +:+ ": status=" +:+ status +:+ ", health=" +:+ health)
                        (report ++ ["━━━━━━━━━━━━━━━━━━━━━━━━━━━━━━━━━━━━━━━"]))
        by (apply in_or_app; now left).
      revert Hin'. generalize (report ++ ["━━━━━━━━━━━━━━━━━━━━━━━━━━━━━━━━━━━━━━━"]).
      intros l Hin'. clear Hx.
      induction l as [|y l IHl]; [destruct Hin' |].
      destruct Hin' as [-> | Hin'].
      - destruct l as [|z l].
        + exists (Py.lower "  "), (Py.lower (": status=" +:+ status +:+ ", health=" +:+ health)).
          cbn [Py.join]. now rewrite !lower_app.
        + exists (Py.lower "  "),
            (Py.lower (": status=" +:+ status +:+ ", health=" +:+ health)
               +:+ Py.lower (DockerTools.newline +:+ Py.join DockerTools.newline (z :: l))).
          change (Py.join DockerTools.newline (?a :: z :: l))
            with (a +:+ DockerTools.newline +:+ Py.join DockerTools.newline (z :: l)).
          rewrite !lower_app, !append_assoc. reflexivity.
      - destruct (IHl Hin') as (a & b & E). destruct l as [|z l]; [destruct Hin' |].
        exists (Py.lower y +:+ Py.lower DockerTools.newline +:+ a), b.
        change (Py.join DockerTools.newline (y :: z :: l))
          with (y +:+ DockerTools.newline +:+ Py.join DockerTools.newline (z :: l)).
        rewrite !lower_app, E, !append_assoc. reflexivity. }
    destruct Hline as (a & b & ->).
    apply contains_app_r, contains_app_l, Hword. }
  apply orb_true_iff. destruct Hname as [Hname | Hname]; [right | left]; now apply Hspell.
Qed.

End NamesThatSpellFailure.

Lemma container_named_error_is_a_failure_witness :
  has_failures (fst (Activities.health_check (Cases.with_docker Cases.healthy_error_pages) tt))
  = true.
Proof.
  apply (container_named_error_is_a_failure (Cases.with_docker Cases.healthy_error_pages) tt
           ("9c41d07be2a5" +:+ DockerTools.tab +:+ "error-pages" +:+ DockerTools.tab
              +:+ "Up 3 hours")
           "9c41d07be2a5" "error-pages" "Up 3 hours" []).
  - vm_compute. left. reflexivity.
  - reflexivity.
  - left. reflexivity.
Defined.

(** ** The data directories of a known service *)

Lemma mounted_at_append v d path : mounted_at d path -> mounted_at (append_volume v d) path.
Proof.
  intros (v' & Hin & Hc & Hp). exists v'. split; [| auto].
  cbn [append_volume sd_volumes default]. apply in_or_app. now left.
Qed.

Lemma mounted_at_last v d :
  Py.contains ":" v = true -> mounted_at (append_volume v d) (nth 1 (Py.split ":" v) "").
Proof.
  intros Hc. exists v. split; [| auto].
  cbn [append_volume sd_volumes default]. apply in_or_app. right. now left.
Qed.

(** The paths the compiler collects from the entries of the caller are
    mounted by the definition it builds, and what was mounted stays so. *)
Lemma user_volumes_mounted vols : forall (paths : gset string) d named,
  (forall p, p ∈ paths -> mounted_at d p) ->
  (forall p, p ∈ fst (fst (user_volumes vols (paths, d, named))) ->
             mounted_at (snd (fst (user_volumes vols (paths, d, named)))) p).
Proof.
  unfold user_volumes.
  induction vols as [|v vols IH]; intros paths d named H; cbn [fold_left]; [exact H |].
  destruct (Py.contains ":" v) eqn:Hc.
  - apply IH. intros p Hp. apply elem_of_union in Hp as [Hp | Hp].
    + apply elem_of_singleton in Hp. subst p. now apply mounted_at_last.
    + apply mounted_at_append, H, Hp.
  - apply IH. intros p Hp. apply mounted_at_append, H, Hp.
Qed.

Lemma default_volumes_keep name paths vol_defs path : forall d named,
  mounted_at d path ->
  mounted_at (fst (default_volumes name paths vol_defs (d, named))) path.
Proof.
  unfold default_volumes.
  induction vol_defs as [|vd vol_defs IH]; intros d named H; cbn [fold_left]; [exact H |].
  destruct (bool_decide (vd_mount vd ∈ paths)); [now apply IH |].
  apply IH. now apply mounted_at_append.
Qed.

Lemma default_mapping_mounts vol_name mount :
  Py.contains ":" vol_name = false -> Py.contains ":" mount = false ->
  nth 1 (Py.split ":" (vol_name +:+ ":" +:+ mount)) "" = mount.
Proof.
  intros Hname Hmount. unfold Py.split.
  rewrite split_first_colon by exact Hname.
  rewrite split_no_colon by exact Hmount. reflexivity.
Qed.

Lemma default_volumes_mounted name (paths : gset string) vol_defs vol_def :
  forall d named,
  Py.contains ":" name = false ->
  Forall (fun vd => Py.contains ":" (vd_name vd) = false
                    /\ Py.contains ":" (vd_mount vd) = false) vol_defs ->
  In vol_def vol_defs ->
  vd_mount vol_def ∉ paths ->
  mounted_at (fst (default_volumes name paths vol_defs (d, named))) (vd_mount vol_def).
Proof.
  induction vol_defs as [|vd vol_defs IH]; intros d named Hname Hdefs Hin Hnew;
    [destruct Hin |].
  apply Forall_cons in Hdefs as [[Hvd Hmount] Hdefs].
  destruct Hin as [-> | Hin].
  - unfold default_volumes. cbn [fold_left].
    rewrite bool_decide_eq_false_2 by exact Hnew.
    apply (default_volumes_keep name paths vol_defs (vd_mount vol_def)).
    set (vol_name := if negb (Py.startswith (vd_name vol_def) name)
                     then name +:+ "_" +:+ vd_name vol_def else vd_name vol_def).
    assert (Hno : Py.contains ":" vol_name = false).
    { subst vol_name. destruct (negb _); [| exact Hvd].
      rewrite !contains_colon_app, Hname, Hvd. reflexivity. }
    rewrite <- (default_mapping_mounts vol_name (vd_mount vol_def) Hno Hmount) at 2.
    apply mounted_at_last.
    rewrite !contains_colon_app. cbn. now rewrite orb_true_r.
  - unfold default_volumes. cbn [fold_left].
    destruct (bool_decide (vd_mount vd ∈ paths)); now apply IH.
Qed.

Lemma defaults_hold_no_colon t dflt :
  PyDict.get t SERVICE_DEFAULTS = Some dflt ->
  Forall (fun vd => Py.contains ":" (vd_name vd) = false
                    /\ Py.contains ":" (vd_mount vd) = false) (volumes_default dflt).
Proof.
  unfold SERVICE_DEFAULTS. cbn [PyDict.get].
  repeat (destruct (String.eqb t _);
          [intros [= <-]; repeat (constructor; [split; reflexivity |]); constructor |]).
  discriminate.
Qed.

Lemma detected_type_is_known image t :
  _detect_service_type image = Some t ->
  Py.truthy t = true /\ is_Some (PyDict.get t SERVICE_DEFAULTS).
Proof.
  unfold _detect_service_type.
  destruct (List.find _ SERVICE_DEFAULTS) as [entry |] eqn:E; [| discriminate].
  intros [= <-]. apply List.find_some in E as [Hin _].
  unfold SERVICE_DEFAULTS in Hin. cbn [In] in Hin.
  repeat (destruct Hin as [<- | Hin]; [split; [reflexivity | cbn; eauto] |]).
  destruct Hin.
Qed.

Lemma build_service_mounts timestamp auto_deps svc compose t dflt vol_def :
  Py.contains ":" (name_of svc) = false ->
  _detect_service_type (image_of svc) = Some t ->
  PyDict.get t SERVICE_DEFAULTS = Some dflt ->
  In vol_def (volumes_default dflt) ->
  exists d,
    PyDict.get (name_of svc)
      (fst (build_service timestamp auto_deps svc (service_info svc) compose)) = Some d
    /\ mounted_at d (vd_mount vol_def).
Proof.
  intros Hname Htype Hdflt Hdef. destruct compose as [compose_services compose_volumes].
  unfold build_service.
  set (d0 := mkServiceDef _ _ _ _ _ _ _ _ _ _ _ _ _ _).
  pose proof (user_volumes_mounted (default [] (spec_volumes svc)) ∅ d0 compose_volumes) as Hu.
  destruct (user_volumes _ (∅, d0, compose_volumes)) as [[paths d1] named1].
  cbn [fst snd] in Hu.
  assert (Hpaths : forall p, p ∈ paths -> mounted_at d1 p).
  { apply Hu. intros p Hp. now apply elem_of_empty in Hp. }
  change (info_svc_type (service_info svc)) with (_detect_service_type (image_of svc)).
  rewrite Htype. destruct (detected_type_is_known _ _ Htype) as [-> _]. rewrite Hdflt.
  pose proof (defaults_hold_no_colon t dflt Hdflt) as Hdefs.
  assert (Hm : mounted_at
                 (fst (default_volumes (name_of svc) paths (volumes_default dflt)
                         (d1, named1)))
                 (vd_mount vol_def)).
  { destruct (decide (vd_mount vol_def ∈ paths)) as [Hold | Hnew].
    - apply default_volumes_keep, Hpaths, Hold.
    - now apply default_volumes_mounted. }
  destruct (default_volumes _ _ _ _) as [d named]. cbn [fst] in *.
  exists d. split; [apply get_set_eq | exact Hm].
Qed.

Lemma pass2_built timestamp auto_deps svc : forall svc_list compose,
  List.NoDup (map name_of svc_list) -> In svc svc_list ->
  exists compose',
    PyDict.get (name_of svc) (fst (pass2 timestamp auto_deps svc_list compose))
    = PyDict.get (name_of svc)
        (fst (build_service timestamp auto_deps svc (service_info svc) compose')).
Proof.
  induction svc_list as [|s l IH]; intros compose Hnd Hin; [destruct Hin |].
  cbn [map] in Hnd. apply List.NoDup_cons_iff in Hnd as [Hn Hnd].
  rewrite pass2_cons. destruct Hin as [-> | Hin]; [| now apply IH].
  rewrite pass2_other by exact Hn. now exists compose.
Qed.

(** X27. In the plan compiled from a service list with pairwise distinct
    names, a service of a known type whose name holds no colon mounts a
    volume at every data directory of its type: the entry of the caller for
    that path, or else the default volume of the type. *)
Theorem known_services_keep_their_data timestamp svc_list svc t dflt vol_def :
  List.NoDup (map name_of svc_list) ->
  In svc svc_list ->
  Py.contains ":" (name_of svc) = false ->
  _detect_service_type (image_of svc) = Some t ->
  PyDict.get t SERVICE_DEFAULTS = Some dflt ->
  In vol_def (volumes_default dflt) ->
  exists d,
    PyDict.get (name_of svc) (services (build_compose timestamp svc_list)) = Some d
    /\ mounted_at d (vd_mount vol_def).
Proof.
  intros Hnd Hin Hname Htype Hdflt Hdef.
  rewrite build_compose_services.
  destruct (pass2_built timestamp (_auto_detect_dependencies (map service_info svc_list))
              svc svc_list ([], []) Hnd Hin) as (compose' & ->).
  now apply (build_service_mounts _ _ svc compose' t dflt vol_def).
Qed.

Lemma known_services_keep_their_data_witness :
  exists d,
    PyDict.get "cache" (services (build_compose Scenario.the_time Cases.cache_with_volume))
    = Some d
    /\ mounted_at d "/data".
Proof.
  apply (known_services_keep_their_data Scenario.the_time Cases.cache_with_volume
           (mkSpec (Some "cache") (Some "redis:7") None None (Some ["cache_conf:/etc/redis"])
              None None None None)
           "redis"
           (mkDefaults
              (mkHealthcheck ["CMD"; "redis-cli"; "ping"] "15s" "5s" 3 "10s")
              [mkVolumeDefault "redis_data" "/data" "redis persistence"])
           (mkVolumeDefault "redis_data" "/data" "redis persistence")).
  - repeat constructor. cbn. tauto.
  - left. reflexivity.
  - reflexivity.
  - reflexivity.
  - reflexivity.
  - left. reflexivity.
Defined.
